(** * Gridly data-table JSON importer and exporter

    A shallow embedding of
    [Source/Gridly/Public/GridlyDataTableImporterJSON.cpp] and of the two
    overloads of [FGridlyExporter::ConvertToJson] in
    [Source/GridlyEditor/Private/GridlyExporter.cpp].

    The engine's JSON DOM, its reflection data and the row memory are
    modelled as inductive data; the shared [ImportProblems] array is
    threaded through every call; the engine services the two files only
    call (string coercion, JSON text reader, name sanitising, the build
    switches) are gathered in one record, [FEngine], and those of the
    polyglot export (culture conversion, string search, serializer) in
    another, [FLocalization]. A call that reaches a point from which the
    source has no defined behaviour has no result ([None]). *)

From Stdlib Require Import List String Ascii ZArith Bool Lia DecimalString.
Import ListNotations.

#[local] Open Scope string_scope.
#[local] Open Scope Z_scope.
#[local] Close Scope list_scope.
#[local] Open Scope list_scope.

#[local] Infix "+++" := String.append (right associativity, at level 60).

#[local] Set Warnings "-register-all".

(** ** Engine strings

    [FString::operator==] and the comparison of two [FName]s go through
    [Stricmp]: the letters [A] to [Z] compare as their lower-case forms.
    The keys of a [TMap] keyed by [FString] or by [FName], the members of
    [FJsonObject::Values] among them, are compared the same way. *)
Definition ToLower (c : ascii) : ascii :=
  let n := nat_of_ascii c in
  if ((65 <=? n) && (n <=? 90))%nat then ascii_of_nat (n + 32) else c.

Fixpoint ToLowerString (s : string) : string :=
  match s with
  | EmptyString => EmptyString
  | String c s' => String (ToLower c) (ToLowerString s')
  end.

Definition EqualsIgnoreCase (a b : string) : bool :=
  String.eqb (ToLowerString a) (ToLowerString b).

(** ** JSON DOM *)

Inductive EJson : Type :=
| EJson_None
| EJson_Null
| EJson_String
| EJson_Number
| EJson_Boolean
| EJson_Array
| EJson_Object.

(** [FJsonValue]: the tagged value tree the engine's reader produces. An
    object keeps its members in document order ([FJsonObject::Values]). A
    number, a double in the engine, is kept by an integer code: the two
    files hand numbers to the engine and never compute with them. *)
Inductive FJsonValue : Type :=
| FJsonValueNull
| FJsonValueString (Value : string)
| FJsonValueNumber (Value : Z)
| FJsonValueBoolean (Value : bool)
| FJsonValueArray (Value : list FJsonValue)
| FJsonValueObject (Values : list (string * FJsonValue)).

Definition FJsonObject : Type := list (string * FJsonValue).

Definition JsonType (v : FJsonValue) : EJson :=
  match v with
  | FJsonValueNull => EJson_Null
  | FJsonValueString _ => EJson_String
  | FJsonValueNumber _ => EJson_Number
  | FJsonValueBoolean _ => EJson_Boolean
  | FJsonValueArray _ => EJson_Array
  | FJsonValueObject _ => EJson_Object
  end.

(** [TryGetArray] and [TryGetObject] succeed on an array and on an object,
    and on nothing else. *)
Definition TryGetArray (v : FJsonValue) : option (list FJsonValue) :=
  match v with FJsonValueArray l => Some l | _ => None end.

Definition TryGetObject (v : FJsonValue) : option FJsonObject :=
  match v with FJsonValueObject o => Some o | _ => None end.

(** [FJsonValue::AsObject]: the object of an object value; on any other
    value the engine reports the mismatch and hands back its shared empty
    object. The pointer returned is valid in both cases. *)
Definition AsObject (v : FJsonValue) : option FJsonObject :=
  match TryGetObject v with
  | Some o => Some o
  | None => Some []
  end.

Fixpoint TryGetField (o : FJsonObject) (FieldName : string) : option FJsonValue :=
  match o with
  | [] => None
  | (k, v) :: o' =>
      if EqualsIgnoreCase k FieldName then Some v else TryGetField o' FieldName
  end.

(** ** Reflection data *)

Definition FName : Type := string.

(** [FName::IsNone]: the empty name and [None], in any case of its
    letters, are [NAME_None]. *)
Definition IsNone (n : FName) : bool :=
  EqualsIgnoreCase n "" || EqualsIgnoreCase n "None".

(** What the reflection system knows of every property, whatever its class:
    its name, its static arity, the name it is exported under
    ([GetPropertyExportName]), the names it is imported under
    ([GetPropertyImportNames]) and the [DataTableImportOptional] mark. *)
Record FField : Type := {
  GetFName : FName;
  ArrayDim : Z;
  GetPropertyExportName : string;
  GetPropertyImportNames : list string;
  DataTableImportOptional : bool
}.

(** The property classes the two files tell apart with [CastField]; every
    other class ([FStrProperty], [FNameProperty], [FTextProperty], ...)
    takes the last branch of each chain and is [FStrProperty] here. *)
Inductive FProperty : Type :=
| FEnumProperty (F : FField)
| FNumericProperty (F : FField) (IsEnum IsInteger : bool)
| FBoolProperty (F : FField)
| FArrayProperty (F : FField) (Inner : FProperty)
| FSetProperty (F : FField) (ElementProp : FProperty)
| FMapProperty (F : FField) (KeyProp ValueProp : FProperty)
| FStructProperty (F : FField) (Struct : UScriptStruct)
| FStrProperty (F : FField)
with UScriptStruct : Type :=
| MkScriptStruct (GetName : string) (Properties : list FProperty).

Definition Field (P : FProperty) : FField :=
  match P with
  | FEnumProperty F | FNumericProperty F _ _ | FBoolProperty F
  | FArrayProperty F _ | FSetProperty F _ | FMapProperty F _ _
  | FStructProperty F _ | FStrProperty F => F
  end.

Definition StructName (Struct : UScriptStruct) : string :=
  match Struct with MkScriptStruct n _ => n end.

(** [TFieldIterator<FProperty>]: the properties in declaration order. *)
Definition TFieldIterator (Struct : UScriptStruct) : list FProperty :=
  match Struct with MkScriptStruct _ ps => ps end.

(** ** Row memory

    A record instance is a tree of typed slots; a property of static arity
    [N] owns [N] consecutive slots. The storage of a set or of a map keeps,
    beside its entries, whether its hash is valid and a ghost count of the
    [Rehash] calls made on it. *)
Record FScriptContainer (A : Type) : Type := {
  Entries : list A;
  HashValid : bool;
  Rehashes : nat
}.
Arguments Entries {A} _.
Arguments HashValid {A} _.
Arguments Rehashes {A} _.

Inductive FValue : Type :=
| VInt (z : Z)
| VDouble (z : Z)
| VBool (b : bool)
| VString (s : string)
| VArray (Elements : list FValue)
| VSet (Set_ : FScriptContainer FValue)
| VMap (Map_ : FScriptContainer (FValue * FValue))
| VStruct (Slots : list (list FValue)).

Definition EmptyContainer {A : Type} : FScriptContainer A :=
  {| Entries := []; HashValid := true; Rehashes := 0 |}.

(** Zero initialisation of one slot of a property ([InitializeValue]) and
    of a whole record ([UScriptStruct::InitializeStruct]). *)
Fixpoint DefaultValue (P : FProperty) : FValue :=
  match P with
  | FEnumProperty _ => VInt 0
  | FNumericProperty _ _ IsInteger => if IsInteger then VInt 0 else VDouble 0
  | FBoolProperty _ => VBool false
  | FArrayProperty _ _ => VArray []
  | FSetProperty _ _ => VSet EmptyContainer
  | FMapProperty _ _ _ => VMap EmptyContainer
  | FStructProperty _ Struct => InitializeStruct Struct
  | FStrProperty _ => VString ""
  end
with InitializeStruct (Struct : UScriptStruct) : FValue :=
  match Struct with
  | MkScriptStruct _ ps =>
      VStruct (map (fun P => repeat (DefaultValue P) (Z.to_nat (ArrayDim (Field P)))) ps)
  end.

(** *** Script container helpers
    ([FScriptArrayHelper], [FScriptSetHelper], [FScriptMapHelper]) *)

Definition SetHelper (Data : FValue) : FScriptContainer FValue :=
  match Data with VSet s => s | _ => EmptyContainer end.

Definition MapHelper (Data : FValue) : FScriptContainer (FValue * FValue) :=
  match Data with VMap m => m | _ => EmptyContainer end.

Definition EmptyValues {A : Type} (c : FScriptContainer A) : FScriptContainer A :=
  {| Entries := []; HashValid := true; Rehashes := Rehashes c |}.

(** Appends one default entry without hashing it; returns its index. *)
Definition AddDefaultValue_Invalid_NeedsRehash {A : Type} (d : A)
    (c : FScriptContainer A) : nat * FScriptContainer A :=
  (List.length (Entries c),
   {| Entries := Entries c ++ [d]; HashValid := false; Rehashes := Rehashes c |}).

Fixpoint ListSetAt {A : Type} (i : nat) (x : A) (l : list A) : list A :=
  match l, i with
  | [], _ => []
  | _ :: l', O => x :: l'
  | y :: l', S i' => y :: ListSetAt i' x l'
  end.

Fixpoint ListRemoveAt {A : Type} (i : nat) (l : list A) : list A :=
  match l, i with
  | [], _ => []
  | _ :: l', O => l'
  | y :: l', S i' => y :: ListRemoveAt i' l'
  end.

(** A write through the pointer of entry [i] ([GetElementPtr], [GetKeyPtr],
    [GetValuePtr]). *)
Definition WriteEntry {A : Type} (i : nat) (x : A) (c : FScriptContainer A)
    : FScriptContainer A :=
  {| Entries := ListSetAt i x (Entries c); HashValid := HashValid c;
     Rehashes := Rehashes c |}.

Definition RemoveAt {A : Type} (i : nat) (c : FScriptContainer A)
    : FScriptContainer A :=
  {| Entries := ListRemoveAt i (Entries c); HashValid := HashValid c;
     Rehashes := Rehashes c |}.

Definition Rehash {A : Type} (c : FScriptContainer A) : FScriptContainer A :=
  {| Entries := Entries c; HashValid := true; Rehashes := S (Rehashes c) |}.

(** [FScriptArrayHelper::AddValue]: appends one default element, returns
    its index. *)
Definition AddValue (d : FValue) (a : list FValue) : nat * list FValue :=
  (List.length a, a ++ [d]).

Definition StructSlots (Data : FValue) : list (list FValue) :=
  match Data with VStruct d => d | _ => [] end.

(** ** The JSON writer

    The text a [TJsonWriter] has produced is kept as the sequence of the
    calls that produced it. *)
Inductive FJsonWriterValue : Type :=
| JString (s : string)
| JInt64 (z : Z)
| JDouble (z : Z)
| JBool (b : bool)
| JRaw (s : string).

Inductive FJsonWriterCall : Type :=
| ArrayStart (Identifier : option string)
| ArrayEnd
| ObjectStart
| ObjectEnd
| WrittenValue (Identifier : option string) (Value : FJsonWriterValue).

Record TJsonWriter : Type := {
  Written : list FJsonWriterCall;
  Stack : list EJson
}.

Definition CreateWriter : TJsonWriter := {| Written := []; Stack := [] |}.

Definition WriteArrayStart (Identifier : option string) (w : TJsonWriter) : TJsonWriter :=
  {| Written := Written w ++ [ArrayStart Identifier]; Stack := EJson_Array :: Stack w |}.

Definition WriteArrayEnd (w : TJsonWriter) : TJsonWriter :=
  {| Written := Written w ++ [ArrayEnd]; Stack := tl (Stack w) |}.

Definition WriteObjectStart (w : TJsonWriter) : TJsonWriter :=
  {| Written := Written w ++ [ObjectStart]; Stack := EJson_Object :: Stack w |}.

Definition WriteObjectEnd (w : TJsonWriter) : TJsonWriter :=
  {| Written := Written w ++ [ObjectEnd]; Stack := tl (Stack w) |}.

Definition WriteValue (Identifier : option string) (Value : FJsonWriterValue)
    (w : TJsonWriter) : TJsonWriter :=
  {| Written := Written w ++ [WrittenValue Identifier Value]; Stack := Stack w |}.

(** [Close]: nothing is open and the last token closed a value. *)
Definition Close (w : TJsonWriter) : bool :=
  match Stack w with
  | [] =>
      match last (map Some (Written w)) None with
      | None | Some ArrayEnd | Some ObjectEnd => true
      | _ => false
      end
  | _ :: _ => false
  end.

(** ** Engine services

    What the two files call and do not define. *)
Record FEngine : Type := {
(** The scalar accessors of a JSON value ([TryGetNumber] into an [int64] and
    into a [double]), which coerce between kinds as the engine sees fit. *)
  TryGetString : FJsonValue -> option string;
  TryGetNumber : FJsonValue -> option Z;
  TryGetNumberDouble : FJsonValue -> option Z;
  TryGetBool : FJsonValue -> option bool;
(** [FNumericProperty::SetIntPropertyValue] and
    [SetFloatingPointPropertyValue]: the slot after the number has been
    stored in it, narrowed or rounded to what the property holds. For an
    enum property the call is made on its underlying property. *)
  SetIntPropertyValue : FProperty -> Z -> FValue;
  SetFloatingPointPropertyValue : FProperty -> Z -> FValue;
(** [DataTableUtils::AssignStringToPropertyDirect]: the error text (empty
    on success) and the slot as the call leaves it. *)
  AssignStringToPropertyDirect : string -> FProperty -> FValue -> string * FValue;
(** [DataTableUtils::MakeValidName]. *)
  MakeValidName : string -> FName;
(** [FJsonSerializer::Deserialize] into an array of values, and the
    reader's error message. *)
  DeserializeArray : string -> option (list FJsonValue);
  GetErrorMessage : string -> string;
(** [FJsonSerializer::Deserialize] into one value. *)
  DeserializeValue : string -> option FJsonValue;
(** The build switches. *)
  HS_GRIDLY_ALLOW_ARBITARY_STRUCT_IN_TABLE : bool;
  HS_GRIDLY_ALLOW_SET_PROPERTYTYPE_IN_TABLE : bool;
  WITH_EDITOR : bool;
(** [DataTableUtils::GetPropertyValueAsString] on the slot of a property. *)
  GetPropertyValueAsString : FProperty -> FValue -> string;
(** [FJsonObjectConverter::UStructToFormattedJsonObjectString]. *)
  UStructToFormattedJsonObjectString : UScriptStruct -> FValue -> string;
(** The string a writer was created on, after the calls made on it. *)
  WriterString : list FJsonWriterCall -> string
}.

(** [DataTableUtils::AssignStringToProperty] takes the record and finds the
    slot of the property in it; [ReadStructEntry] always passes the record
    whose slot 0 of [InProperty] is [InPropertyData], so it is the direct
    assignment on that slot. *)
Definition AssignStringToProperty (E : FEngine) (s : string) (P : FProperty)
    (InPropertyData : FValue) : string * FValue :=
  AssignStringToPropertyDirect E s P InPropertyData.

(** [FJsonObject::GetStringField]: the member as a string, the empty
    string when there is none. *)
Definition GetStringField (E : FEngine) (o : FJsonObject) (FieldName : string) : string :=
  match TryGetField o FieldName with
  | Some v => match TryGetString E v with Some s => s | None => "" end
  | None => ""
  end.

(** ** GridlyDataTableJSONUtils *)

Definition JSONTypeToString (InType : EJson) : string :=
  match InType with
  | EJson_None => "None"
  | EJson_Null => "Null"
  | EJson_String => "String"
  | EJson_Number => "Number"
  | EJson_Boolean => "Boolean"
  | EJson_Array => "Array"
  | EJson_Object => "Object"
  end.

(** [%d] of [FString::Printf]. *)
Definition itoa (z : Z) : string := NilZero.string_of_int (Z.to_int z).

Definition IsEmpty (s : string) : bool := (String.length s =? 0)%nat.

Definition Problems : Type := list string.

(** [ImportProblems.Add]. *)
Definition Add (ImportProblems : Problems) (Problem : string) : Problems :=
  ImportProblems ++ [Problem].

(** ** FGridlyDataTableImporterJSON: the property walker *)

(** What a decoding call leaves when it returns: its return value, the slot
    it wrote to and the problem array. The decoders return
    [option FReadResult]: [None] is a call that does not return, because it
    has reached a statement without defined behaviour. *)
Definition FReadResult : Type := bool * FValue * Problems.

Definition IncorrectType (Subject Expected Got : string) : string :=
  Subject +++ " is the incorrect type. Expected " +++ Expected +++ ", got " +++ Got +++ ".".

Definition PropertyOnRow (InColumnName : string) (InRowName : FName) : string :=
  "Property '" +++ InColumnName +++ "' on row '" +++ InRowName +++ "'".

Definition EntryOnRow (InArrayEntryIndex : Z) (InColumnName : string)
    (InRowName : FName) : string :=
  "Entry " +++ itoa InArrayEntryIndex +++ " on property '" +++ InColumnName
  +++ "' on row '" +++ InRowName +++ "'".

(** The first import name the object has a member for. *)
Fixpoint FindImportValue (TempPropertyImportNames : list string)
    (InParsedObject : FJsonObject) : option FJsonValue :=
  match TempPropertyImportNames with
  | [] => None
  | PropertyName :: rest =>
      match TryGetField InParsedObject PropertyName with
      | Some ParsedPropertyValue => Some ParsedPropertyValue
      | None => FindImportValue rest InParsedObject
      end
  end.

Section Loops.

Variable E : FEngine.
(** [DataTable->bIgnoreMissingFields]. *)
Variable bIgnoreMissingFields : bool.

Section Entries.

(** The property of the entries ([ArrayProp->Inner],
    [SetHelper.GetElementProperty()], [MapHelper.GetValueProperty()], or
    the property itself for a static array), the container entry decoder
    on it, and the key property of a map. *)
Variable EntryProp : FProperty.
Variable ContainerEntry :
  FJsonValue -> FName -> string -> Z -> FValue -> Problems -> option FReadResult.
Variable KeyProp : FProperty.
Variables (InRowName : FName) (InColumnName : string).

(** The loop of the array branch of [ReadStructEntry]. *)
Fixpoint ReadArrayValues (PropertyValues : list FJsonValue)
    (ArrayHelper : list FValue) (pr : Problems)
    : option (list FValue * Problems) :=
  match PropertyValues with
  | [] => Some (ArrayHelper, pr)
  | PropertyValueEntry :: rest =>
      let '(NewEntryIndex, a1) := AddValue (DefaultValue EntryProp) ArrayHelper in
      match
        ContainerEntry PropertyValueEntry InRowName InColumnName
          (Z.of_nat NewEntryIndex) (nth NewEntryIndex a1 (DefaultValue EntryProp)) pr
      with
      | Some (_, ArrayEntryData, pr1) =>
          ReadArrayValues rest (ListSetAt NewEntryIndex ArrayEntryData a1) pr1
      | None => None
      end
  end.

(** The loop of the set branch of [ReadStructEntry]. *)
Fixpoint ReadSetValues (PropertyValues : list FJsonValue)
    (Helper : FScriptContainer FValue) (pr : Problems)
    : option (FScriptContainer FValue * Problems) :=
  match PropertyValues with
  | [] => Some (Helper, pr)
  | PropertyValueEntry :: rest =>
      let '(NewEntryIndex, s1) :=
        AddDefaultValue_Invalid_NeedsRehash (DefaultValue EntryProp) Helper in
      match
        ContainerEntry PropertyValueEntry InRowName InColumnName
          (Z.of_nat NewEntryIndex)
          (nth NewEntryIndex (Entries s1) (DefaultValue EntryProp)) pr
      with
      | Some (_, SetEntryData, pr1) =>
          ReadSetValues rest (WriteEntry NewEntryIndex SetEntryData s1) pr1
      | None => None
      end
  end.

(** The loop of the map branch of [ReadStructEntry]; [false] is its
    early [return false]. *)
Fixpoint ReadMapValues (Values : list (string * FJsonValue))
    (Helper : FScriptContainer (FValue * FValue)) (pr : Problems)
    : option (bool * FScriptContainer (FValue * FValue) * Problems) :=
  match Values with
  | [] => Some (true, Helper, pr)
  | (Key, Value) :: rest =>
      let '(NewEntryIndex, m1) :=
        AddDefaultValue_Invalid_NeedsRehash
          (DefaultValue KeyProp, DefaultValue EntryProp) Helper in
      let '(MapKeyData0, MapValueData0) :=
        nth NewEntryIndex (Entries m1) (DefaultValue KeyProp, DefaultValue EntryProp) in
      let '(KeyError, MapKeyData) :=
        AssignStringToPropertyDirect E Key KeyProp MapKeyData0 in
      let m2 := WriteEntry NewEntryIndex (MapKeyData, MapValueData0) m1 in
      if (0 <? String.length KeyError)%nat then
        Some (false, RemoveAt NewEntryIndex m2,
              Add pr ("Problem assigning key '" +++ Key +++ "' to property '"
                      +++ InColumnName +++ "' on row '" +++ InRowName +++ "' : "
                      +++ KeyError))
      else
        match
          ContainerEntry Value InRowName InColumnName
            (Z.of_nat NewEntryIndex) MapValueData0 pr
        with
        | Some (ok, MapValueData, pr1) =>
            let m3 := WriteEntry NewEntryIndex (MapKeyData, MapValueData) m2 in
            if negb ok then Some (false, RemoveAt NewEntryIndex m3, pr1)
            else ReadMapValues rest m3 pr1
        | None => None
        end
  end.

(** The loop over the slots of a property of static arity other than 1:
    [count] iterations remain, the next index is [ArrayEntryIndex]. *)
Fixpoint ReadStaticArray (PropertyValues : list FJsonValue) (count : nat)
    (ArrayEntryIndex : nat) (Slots : list FValue) (pr : Problems)
    : option (list FValue * Problems) :=
  match count with
  | O => Some (Slots, pr)
  | S count' =>
      match nth_error PropertyValues ArrayEntryIndex with
      | Some PropertyValueEntry =>
          match
            ContainerEntry PropertyValueEntry InRowName InColumnName
              (Z.of_nat ArrayEntryIndex)
              (nth ArrayEntryIndex Slots (DefaultValue EntryProp)) pr
          with
          | Some (_, Data, pr1) =>
              ReadStaticArray PropertyValues count' (S ArrayEntryIndex)
                (ListSetAt ArrayEntryIndex Data Slots) pr1
          | None => None
          end
      | None =>
          ReadStaticArray PropertyValues count' (S ArrayEntryIndex) Slots pr
      end
  end.

End Entries.

(** The two entry decoders, as the loop of [ReadStruct] calls them. *)
Variable StructEntry :
  FProperty -> FJsonValue -> FName -> string -> FValue -> Problems -> option FReadResult.
Variable ContainerEntry :
  FProperty -> FJsonValue -> FName -> string -> Z -> FValue -> Problems
  -> option FReadResult.

(** The branch [BaseProp->ArrayDim == 1] of [ReadStruct]: the entry
    decoder on slot 0 and, when the build allows arbitrary structs, one
    more try on the text of a string that did not decode. *)
Definition ReadSingleSlot (BaseProp : FProperty)
    (ParsedPropertyValue : FJsonValue) (InRowName : FName)
    (ColumnName : string) (Data : FValue) (pr : Problems)
    : option (FValue * Problems) :=
  match StructEntry BaseProp ParsedPropertyValue InRowName ColumnName Data pr with
  | None => None
  | Some (ok, d1, pr1) =>
      if HS_GRIDLY_ALLOW_ARBITARY_STRUCT_IN_TABLE E && negb ok then
        match JsonType ParsedPropertyValue with
        | EJson_String =>
            let maybeJsonString :=
              match TryGetString E ParsedPropertyValue with Some s => s | None => "" end in
            match DeserializeValue E maybeJsonString with
            | Some parsedRowStruct =>
                match
                  StructEntry BaseProp parsedRowStruct InRowName ColumnName d1 pr1
                with
                | Some (_, d2, pr2) => Some (d2, pr2)
                | None => None
                end
            | None => Some (d1, pr1)
            end
        | _ => Some (d1, pr1)
        end
      else Some (d1, pr1)
  end.

(** How the body of the loop of [ReadStruct] ends for one property: it
    goes on to the next property with the slots it leaves, or it is the
    [return false] of the function. *)
Inductive FPropertyStep : Type :=
| NextProperty (Slots : list FValue)
| ReturnFalse.

(** The body of the loop of [ReadStruct] for one property, on the slots
    the property owns. *)
Definition ReadProperty (BaseProp : FProperty) (InParsedObject : FJsonObject)
    (InRowName : FName) (Slots : list FValue) (pr : Problems)
    : option (FPropertyStep * Problems) :=
  let ColumnName := GetPropertyExportName (Field BaseProp) in
  match FindImportValue (GetPropertyImportNames (Field BaseProp)) InParsedObject with
  | None =>
      if WITH_EDITOR E && DataTableImportOptional (Field BaseProp)
      then Some (NextProperty Slots, pr)
      else if negb bIgnoreMissingFields then
        Some (NextProperty Slots,
              Add pr ("Row '" +++ InRowName +++ "' is missing an entry for '"
                      +++ ColumnName +++ "'."))
      else Some (NextProperty Slots, pr)
  | Some ParsedPropertyValue =>
      if ArrayDim (Field BaseProp) =? 1 then
        match
          ReadSingleSlot BaseProp ParsedPropertyValue InRowName ColumnName
            (nth 0 Slots (DefaultValue BaseProp)) pr
        with
        | Some (Data, pr1) => Some (NextProperty (ListSetAt 0 Data Slots), pr1)
        | None => None
        end
      else
        match TryGetArray ParsedPropertyValue with
        | None =>
            Some (ReturnFalse,
                  Add pr (IncorrectType (PropertyOnRow ColumnName InRowName) "Array"
                            (JSONTypeToString (JsonType ParsedPropertyValue))))
        | Some PropertyValues =>
            let pr1 :=
              if negb (ArrayDim (Field BaseProp) =? Z.of_nat (List.length PropertyValues))
              then
                Add pr (PropertyOnRow ColumnName InRowName
                        +++ " is a static sized array with "
                        +++ itoa (ArrayDim (Field BaseProp))
                        +++ " elements, but we have "
                        +++ itoa (Z.of_nat (List.length PropertyValues))
                        +++ " values to import")
              else pr in
            match
              ReadStaticArray BaseProp (ContainerEntry BaseProp) InRowName ColumnName
                PropertyValues (Z.to_nat (ArrayDim (Field BaseProp))) 0 Slots pr1
            with
            | Some (Slots', pr2) => Some (NextProperty Slots', pr2)
            | None => None
            end
        end
  end.

(** The loop of [ReadStruct] over the properties still to read, with the
    slots of those properties. *)
Fixpoint ReadProperties (It : list FProperty) (InParsedObject : FJsonObject)
    (InRowName : FName) (InStructData : list (list FValue)) (pr : Problems)
    : option (bool * list (list FValue) * Problems) :=
  match It with
  | [] => Some (true, InStructData, pr)
  | BaseProp :: rest =>
      match ReadProperty BaseProp InParsedObject InRowName (hd [] InStructData) pr with
      | None => None
      | Some (ReturnFalse, pr1) => Some (false, InStructData, pr1)
      | Some (NextProperty Slots, pr1) =>
          match ReadProperties rest InParsedObject InRowName (tl InStructData) pr1 with
          | Some (ok, d, pr2) => Some (ok, Slots :: d, pr2)
          | None => None
          end
      end
  end.

End Loops.

Section Walker.

Variable E : FEngine.
Variable bIgnoreMissingFields : bool.

(** [ReadStructEntry], [ReadContainerEntry] and [ReadStruct]. The record
    [ReadStructEntry] receives as [InRowData] is the one that holds
    [InPropertyData]; both are the slot here.

    In the two string fallbacks of [ReadContainerEntry], when the string
    cannot be assigned, [FString::Printf] is called with the format
    ['%s' to entry %d ...] and the arguments [InArrayEntryIndex],
    [*PropertyValue], ...: an [int32] where the format reads a string and a
    string where it reads an integer. The call has no defined behaviour,
    and the branch has no result. *)
Fixpoint ReadStructEntry (InProperty : FProperty)
    (InParsedPropertyValue : FJsonValue) (InRowName : FName)
    (InColumnName : string) (InPropertyData : FValue) (pr : Problems)
    {struct InProperty} : option FReadResult :=
  let ParsedPropertyType := JSONTypeToString (JsonType InParsedPropertyValue) in
  let Subject := PropertyOnRow InColumnName InRowName in
  match InProperty with
  | FEnumProperty _ =>
      match TryGetString E InParsedPropertyValue with
      | Some EnumValue =>
          let '(ErrorText, d) :=
            AssignStringToProperty E EnumValue InProperty InPropertyData in
          if negb (IsEmpty ErrorText) then
            Some (false, d,
                  Add pr (Subject +++ " has invalid enum value: " +++ EnumValue +++ "."))
          else Some (true, d, pr)
      | None =>
          match TryGetNumber E InParsedPropertyValue with
          | None =>
              Some (false, InPropertyData,
                    Add pr (IncorrectType Subject "Integer" ParsedPropertyType))
          | Some PropertyValue =>
              Some (true, SetIntPropertyValue E InProperty PropertyValue, pr)
          end
      end
  | FNumericProperty _ IsEnum IsInteger =>
      match (if IsEnum then TryGetString E InParsedPropertyValue else None) with
      | Some EnumValue =>
          let '(ErrorText, d) :=
            AssignStringToProperty E EnumValue InProperty InPropertyData in
          if negb (IsEmpty ErrorText) then
            Some (false, d,
                  Add pr (Subject +++ " has invalid enum value: " +++ EnumValue +++ "."))
          else Some (true, d, pr)
      | None =>
          if IsInteger then
            match TryGetNumber E InParsedPropertyValue with
            | None =>
                Some (false, InPropertyData,
                      Add pr (IncorrectType Subject "Integer" ParsedPropertyType))
            | Some PropertyValue =>
                Some (true, SetIntPropertyValue E InProperty PropertyValue, pr)
            end
          else
            match TryGetNumberDouble E InParsedPropertyValue with
            | None =>
                Some (false, InPropertyData,
                      Add pr (IncorrectType Subject "Double" ParsedPropertyType))
            | Some PropertyValue =>
                Some (true, SetFloatingPointPropertyValue E InProperty PropertyValue, pr)
            end
      end
  | FBoolProperty _ =>
      match TryGetBool E InParsedPropertyValue with
      | None =>
          Some (false, InPropertyData,
                Add pr (IncorrectType Subject "Boolean" ParsedPropertyType))
      | Some PropertyValue => Some (true, VBool PropertyValue, pr)
      end
  | FArrayProperty _ Inner =>
      match TryGetArray InParsedPropertyValue with
      | None =>
          Some (false, InPropertyData,
                Add pr (IncorrectType Subject "Array" ParsedPropertyType))
      | Some PropertyValues =>
          match
            ReadArrayValues Inner (ReadContainerEntry Inner) InRowName InColumnName
              PropertyValues [] pr
          with
          | Some (a, pr1) => Some (true, VArray a, pr1)
          | None => None
          end
      end
  | FSetProperty _ ElementProp =>
      match TryGetArray InParsedPropertyValue with
      | None =>
          Some (false, InPropertyData,
                Add pr (IncorrectType Subject "Array" ParsedPropertyType))
      | Some PropertyValues =>
          match
            ReadSetValues ElementProp (ReadContainerEntry ElementProp) InRowName
              InColumnName PropertyValues (EmptyValues (SetHelper InPropertyData)) pr
          with
          | Some (s, pr1) => Some (true, VSet (Rehash s), pr1)
          | None => None
          end
      end
  | FMapProperty _ KeyProp ValueProp =>
      match TryGetObject InParsedPropertyValue with
      | None =>
          Some (false, InPropertyData,
                Add pr (IncorrectType Subject "Object" ParsedPropertyType))
      | Some PropertyValue =>
          match
            ReadMapValues E ValueProp (ReadContainerEntry ValueProp) KeyProp InRowName
              InColumnName PropertyValue (EmptyValues (MapHelper InPropertyData)) pr
          with
          | Some (false, m, pr1) => Some (false, VMap m, pr1)
          | Some (true, m, pr1) => Some (true, VMap (Rehash m), pr1)
          | None => None
          end
      end
  | FStructProperty _ Struct =>
      match TryGetObject InParsedPropertyValue with
      | Some PropertyValue => ReadStruct Struct PropertyValue InRowName InPropertyData pr
      | None =>
          match TryGetString E InParsedPropertyValue with
          | None =>
              Some (false, InPropertyData,
                    Add pr (IncorrectType Subject "String" ParsedPropertyType))
          | Some PropertyValueString =>
              let '(ErrorText, d) :=
                AssignStringToProperty E PropertyValueString InProperty InPropertyData in
              if (0 <? String.length ErrorText)%nat then
                Some (false, d,
                      Add pr ("Problem assigning string '" +++ PropertyValueString
                              +++ "' to property '" +++ InColumnName +++ "' on row '"
                              +++ InRowName +++ "' : " +++ ErrorText))
              else Some (true, d, pr)
          end
      end
  | FStrProperty _ =>
      match TryGetString E InParsedPropertyValue with
      | None =>
          Some (false, InPropertyData,
                Add pr (IncorrectType Subject "String" ParsedPropertyType))
      | Some PropertyValue =>
          let '(ErrorText, d) :=
            AssignStringToProperty E PropertyValue InProperty InPropertyData in
          if (0 <? String.length ErrorText)%nat then
            Some (false, d,
                  Add pr ("Problem assigning string '" +++ PropertyValue
                          +++ "' to property '" +++ InColumnName +++ "' on row '"
                          +++ InRowName +++ "' : " +++ ErrorText))
          else Some (true, d, pr)
      end
  end

with ReadContainerEntry (InProperty : FProperty)
    (InParsedPropertyValue : FJsonValue) (InRowName : FName)
    (InColumnName : string) (InArrayEntryIndex : Z) (InPropertyData : FValue)
    (pr : Problems) {struct InProperty} : option FReadResult :=
  let ParsedPropertyType := JSONTypeToString (JsonType InParsedPropertyValue) in
  let Subject := EntryOnRow InArrayEntryIndex InColumnName InRowName in
  match InProperty with
  | FEnumProperty _ =>
      match TryGetString E InParsedPropertyValue with
      | Some EnumValue =>
          let '(ErrorText, d) :=
            AssignStringToPropertyDirect E EnumValue InProperty InPropertyData in
          if negb (IsEmpty ErrorText) then
            Some (false, d,
                  Add pr (Subject +++ " has invalid enum value: " +++ EnumValue +++ "."))
          else Some (true, d, pr)
      | None =>
          match TryGetNumber E InParsedPropertyValue with
          | None =>
              Some (false, InPropertyData,
                    Add pr (IncorrectType Subject "Integer" ParsedPropertyType))
          | Some PropertyValue =>
              Some (true, SetIntPropertyValue E InProperty PropertyValue, pr)
          end
      end
  | FNumericProperty _ IsEnum IsInteger =>
      match (if IsEnum then TryGetString E InParsedPropertyValue else None) with
      | Some EnumValue =>
          let '(ErrorText, d) :=
            AssignStringToPropertyDirect E EnumValue InProperty InPropertyData in
          if negb (IsEmpty ErrorText) then
            Some (false, d,
                  Add pr (Subject +++ " has invalid enum value: " +++ EnumValue +++ "."))
          else Some (true, d, pr)
      | None =>
          if IsInteger then
            match TryGetNumber E InParsedPropertyValue with
            | None =>
                Some (false, InPropertyData,
                      Add pr (IncorrectType Subject "Integer" ParsedPropertyType))
            | Some PropertyValue =>
                Some (true, SetIntPropertyValue E InProperty PropertyValue, pr)
            end
          else
            match TryGetNumberDouble E InParsedPropertyValue with
            | None =>
                Some (false, InPropertyData,
                      Add pr (IncorrectType Subject "Double" ParsedPropertyType))
            | Some PropertyValue =>
                Some (true, SetFloatingPointPropertyValue E InProperty PropertyValue, pr)
            end
      end
  | FBoolProperty _ =>
      match TryGetBool E InParsedPropertyValue with
      | None =>
          Some (false, InPropertyData,
                Add pr (IncorrectType Subject "Boolean" ParsedPropertyType))
      | Some PropertyValue => Some (true, VBool PropertyValue, pr)
      end
  | FArrayProperty _ _ =>
      (* Cannot nest arrays *)
      Some (false, InPropertyData, pr)
  | FSetProperty _ _ =>
      (* Cannot nest sets *)
      Some (false, InPropertyData, pr)
  | FMapProperty _ _ _ =>
      (* Cannot nest maps *)
      Some (false, InPropertyData, pr)
  | FStructProperty _ Struct =>
      match TryGetObject InParsedPropertyValue with
      | Some PropertyValue => ReadStruct Struct PropertyValue InRowName InPropertyData pr
      | None =>
          match TryGetString E InParsedPropertyValue with
          | None =>
              Some (false, InPropertyData,
                    Add pr (IncorrectType (PropertyOnRow InColumnName InRowName) "String"
                              ParsedPropertyType))
          | Some PropertyValueString =>
              let '(ErrorText, d) :=
                AssignStringToPropertyDirect E PropertyValueString InProperty
                  InPropertyData in
              if (0 <? String.length ErrorText)%nat then
                (* Printf of '%s' to entry %d on (InArrayEntryIndex,
                   *PropertyValueString, ...) *)
                None
              else Some (true, d, pr)
          end
      end
  | FStrProperty _ =>
      match TryGetString E InParsedPropertyValue with
      | None =>
          Some (false, InPropertyData,
                Add pr (IncorrectType Subject "String" ParsedPropertyType))
      | Some PropertyValue =>
          let '(ErrorText, d) :=
            AssignStringToPropertyDirect E PropertyValue InProperty InPropertyData in
          if (0 <? String.length ErrorText)%nat then
            (* Printf of '%s' to entry %d on (InArrayEntryIndex,
               *PropertyValue, ...) *)
            None
          else Some (true, d, pr)
      end
  end

with ReadStruct (InStruct : UScriptStruct) (InParsedObject : FJsonObject)
    (InRowName : FName) (InStructData : FValue) (pr : Problems)
    {struct InStruct} : option FReadResult :=
  match InStruct with
  | MkScriptStruct _ It =>
      match
        ReadProperties E bIgnoreMissingFields ReadStructEntry ReadContainerEntry
          It InParsedObject InRowName (StructSlots InStructData) pr
      with
      | Some (ok, d, pr1) => Some (ok, VStruct d, pr1)
      | None => None
      end
  end.

End Walker.

(** ** The data table and the importer object *)

(** What is done to the rows of a table and to their records. *)
Inductive FTableEvent : Type :=
| RowsEmptied
| RecordAllocated (RowData : nat)
| RowAdded (RowName : FName) (RowData : nat)
| RecordWritten (RowData : nat).

(** [UDataTable] as the importer and the exporter use it. [RowMap] lists
    its pairs in the order [TMap] enumerates them, each row name with the
    address of its record; [Memory] holds the allocated records by
    address; [History] is a ghost record of what was done to the rows, in
    the order it was done. *)
Record UDataTable : Type := {
  RowStruct : option UScriptStruct;
  ImportKeyField : string;
  bIgnoreExtraFields : bool;
  bIgnoreMissingFields : bool;
  AllowDuplicateRowsOnImport : bool;
  RowMap : list (FName * nat);
  Memory : list FValue;
  History : list FTableEvent
}.

Record FGridlyDataTableImporterJSON : Type := {
  DataTable : UDataTable;
  JSONData : string;
  ImportProblems : Problems
}.

(** Returns what string is used as the key/name field for a data table. *)
Definition GetKeyFieldName (InDataTable : UDataTable) : string :=
  let ExplicitString := ImportKeyField InDataTable in
  if IsEmpty ExplicitString then "Name" else ExplicitString.

(** [TMap::Find] on a map keyed by [FName]: two names that differ by the
    case of their letters are one key. *)
Fixpoint Find (Key : FName) (m : list (FName * nat)) : option nat :=
  match m with
  | [] => None
  | (k, v) :: m' => if EqualsIgnoreCase k Key then Some v else Find Key m'
  end.

(** [TMap::Add]: the pair of a key already present is replaced. *)
Fixpoint MapAdd (Key : FName) (Value : nat) (m : list (FName * nat))
    : list (FName * nat) :=
  match m with
  | [] => [(Key, Value)]
  | (k, v) :: m' =>
      if EqualsIgnoreCase k Key then (Key, Value) :: m' else (k, v) :: MapAdd Key Value m'
  end.

(** The table with the rows [m], the records [mem] and the events [ev]
    after those it has. *)
Definition SetTable (T : UDataTable) (m : list (FName * nat)) (mem : list FValue)
    (ev : list FTableEvent) : UDataTable :=
  {| RowStruct := RowStruct T; ImportKeyField := ImportKeyField T;
     bIgnoreExtraFields := bIgnoreExtraFields T;
     bIgnoreMissingFields := bIgnoreMissingFields T;
     AllowDuplicateRowsOnImport := AllowDuplicateRowsOnImport T;
     RowMap := m; Memory := mem; History := History T ++ ev |}.

(** [UDataTable::EmptyTable]: every row is released. *)
Definition EmptyTable (T : UDataTable) : UDataTable := SetTable T [] [] [RowsEmptied].

(** [FMemory::Malloc] and [InitializeStruct]: a new record at a new
    address. *)
Definition MallocRow (Struct : UScriptStruct) (T : UDataTable) : nat * UDataTable :=
  (List.length (Memory T),
   SetTable T (RowMap T) (Memory T ++ [InitializeStruct Struct])
     [RecordAllocated (List.length (Memory T))]).

(** Modelled from the spec: [UGridlyDataTable::AddRowInternal], declared in
    [GridlyDataTable.h]; it registers the pair (key, record instance) in
    the row mapping. *)
Definition AddRowInternal (RowName : FName) (RowData : nat) (T : UDataTable)
    : UDataTable :=
  SetTable T (MapAdd RowName RowData (RowMap T)) (Memory T) [RowAdded RowName RowData].

(** The writes of a struct walk through the address of a record: the
    record as the walk leaves it. *)
Definition StoreRow (RowData : nat) (d : FValue) (T : UDataTable) : UDataTable :=
  SetTable T (RowMap T) (ListSetAt RowData d (Memory T)) [RecordWritten RowData].

Definition SetImporter (I : FGridlyDataTableImporterJSON) (T : UDataTable)
    (pr : Problems) : FGridlyDataTableImporterJSON :=
  {| DataTable := T; JSONData := JSONData I; ImportProblems := pr |}.

(** [FindFProperty<FProperty>(RowStruct, PropName)]: whether the struct has
    a property of that name. *)
Definition FindFProperty (Struct : UScriptStruct) (PropName : FName) : bool :=
  existsb (fun P => EqualsIgnoreCase (GetFName (Field P)) PropName) (TFieldIterator Struct).

(** [TArray<FString>::Contains]. *)
Definition Contains (l : list string) (s : string) : bool :=
  existsb (fun Item => EqualsIgnoreCase Item s) l.

(** The loop of [ReadRow] that reports the members of the row object no
    property is imported from. *)
Fixpoint DetectExtraFields (E : FEngine) (Struct : UScriptStruct)
    (RowKey : string) (RowName : FName) (Values : list (string * FJsonValue))
    (pr : Problems) : Problems :=
  match Values with
  | [] => pr
  | (Key, _) :: rest =>
      if EqualsIgnoreCase Key RowKey then DetectExtraFields E Struct RowKey RowName rest pr
      else
        let PropName := MakeValidName E Key in
        let ColumnProp :=
          FindFProperty Struct PropName
          || existsb (fun It => Contains (GetPropertyImportNames (Field It)) Key)
               (TFieldIterator Struct) in
        DetectExtraFields E Struct RowKey RowName rest
          (if negb ColumnProp then
             Add pr ("Property '" +++ PropName +++ "' on row '" +++ RowName
                     +++ "' cannot be found in struct '" +++ StructName Struct +++ "'.")
           else pr)
  end.

Section Importer.

Variable E : FEngine.

(** [ReadRow]. [ReadTable] has checked [RowStruct] before it calls: without
    one, the row that passes the two checks dereferences a null pointer. *)
Definition ReadRow (InParsedTableRowObject : FJsonObject) (InRowIdx : Z)
    (I : FGridlyDataTableImporterJSON)
    : option (bool * FGridlyDataTableImporterJSON) :=
  let T := DataTable I in
  let pr := ImportProblems I in
  let RowKey := GetKeyFieldName T in
  let RowName := MakeValidName E (GetStringField E InParsedTableRowObject RowKey) in
  if IsNone RowName then
    Some (false, SetImporter I T
                   (Add pr ("Row '" +++ itoa InRowIdx +++ "' missing key field '"
                            +++ RowKey +++ "'.")))
  else if negb (AllowDuplicateRowsOnImport T)
          && (match Find RowName (RowMap T) with Some _ => true | None => false end)
  then
    Some (false, SetImporter I T (Add pr ("Duplicate row name '" +++ RowName +++ "'.")))
  else
    match RowStruct T with
    | None => None
    | Some Struct =>
        let pr1 :=
          if negb (bIgnoreExtraFields T) then
            DetectExtraFields E Struct RowKey RowName InParsedTableRowObject pr
          else pr in
        let '(RowData, T1) := MallocRow Struct T in
        let T2 := AddRowInternal RowName RowData T1 in
        match
          ReadStruct E (bIgnoreMissingFields T2) Struct InParsedTableRowObject RowName
            (nth RowData (Memory T2) (VStruct [])) pr1
        with
        | Some (ok, d, pr2) => Some (ok, SetImporter I (StoreRow RowData d T2) pr2)
        | None => None
        end
    end.

(** The loop of [ReadTable] over the parsed rows, from index [RowIdx]. *)
Fixpoint ReadTableRows (ParsedTableRows : list FJsonValue) (RowIdx : Z)
    (I : FGridlyDataTableImporterJSON) : option FGridlyDataTableImporterJSON :=
  match ParsedTableRows with
  | [] => Some I
  | ParsedTableRowValue :: rest =>
      match AsObject ParsedTableRowValue with
      | None =>
          ReadTableRows rest (RowIdx + 1)
            (SetImporter I (DataTable I)
               (Add (ImportProblems I)
                  ("Row '" +++ itoa RowIdx +++ "' is not a valid JSON object.")))
      | Some ParsedTableRowObject =>
          match ReadRow ParsedTableRowObject RowIdx I with
          | Some (ok, I1) =>
              ReadTableRows rest (RowIdx + 1)
                (if negb ok then
                   SetImporter I1 (DataTable I1)
                     (Add (ImportProblems I1)
                        ("Failed to read row '" +++ itoa RowIdx +++ "'."))
                 else I1)
          | None => None
          end
      end
  end.

Definition ReadTable (I : FGridlyDataTableImporterJSON)
    : option (bool * FGridlyDataTableImporterJSON) :=
  if IsEmpty (JSONData I) then
    Some (false,
          SetImporter I (DataTable I) (Add (ImportProblems I) "Input data is empty."))
  else
    match RowStruct (DataTable I) with
    | None =>
        Some (false, SetImporter I (DataTable I)
                       (Add (ImportProblems I) "No RowStruct specified."))
    | Some _ =>
        match DeserializeArray E (JSONData I) with
        | Some ParsedTableRows =>
            if (List.length ParsedTableRows =? 0)%nat then
              Some (false, SetImporter I (DataTable I)
                             (Add (ImportProblems I)
                                ("Failed to parse the JSON data. Error: "
                                 +++ GetErrorMessage E (JSONData I))))
            else
              match
                ReadTableRows ParsedTableRows 0
                  (SetImporter I (EmptyTable (DataTable I)) (ImportProblems I))
              with
              | Some I1 => Some (true, I1)
              | None => None
              end
        | None =>
            Some (false, SetImporter I (DataTable I)
                           (Add (ImportProblems I)
                              ("Failed to parse the JSON data. Error: "
                               +++ GetErrorMessage E (JSONData I))))
        end
    end.

End Importer.

(** ** FGridlyExporter::ConvertToJson on a data table *)

Definition GetSignedIntPropertyValue (Data : FValue) : Z :=
  match Data with VInt z => z | _ => 0 end.

Definition GetFloatingPointPropertyValue (Data : FValue) : Z :=
  match Data with VDouble z => z | _ => 0 end.

Definition GetPropertyValue (Data : FValue) : bool :=
  match Data with VBool b => b | _ => false end.

Definition ArrayElements (Data : FValue) : list FValue :=
  match Data with VArray a => a | _ => [] end.

Section Exporter.

Variable E : FEngine.

(** The loop over the elements of an array property, on the sub-writer;
    [None] is a failed [checkNoEntry]. *)
Fixpoint WriteArrayElements (Inner : FProperty) (Elements : list FValue)
    (SubJsonWriter : TJsonWriter) : option TJsonWriter :=
  match Elements with
  | [] => Some SubJsonWriter
  | ArrayData :: rest =>
      match Inner with
      | FStructProperty _ Struct =>
          WriteArrayElements Inner rest
            (WriteValue None (JRaw (UStructToFormattedJsonObjectString E Struct ArrayData))
               SubJsonWriter)
      | _ => None
      end
  end.

(** The loop over the elements of a set property, on the sub-writer. *)
Fixpoint WriteSetElements (ElementProp : FProperty) (Elements : list FValue)
    (SubJsonWriter : TJsonWriter) : option TJsonWriter :=
  match Elements with
  | [] => Some SubJsonWriter
  | SetData :: rest =>
      match ElementProp with
      | FNumericProperty _ IsEnum IsInteger =>
          WriteSetElements ElementProp rest
            (WriteValue None
               (if IsEnum then JString (GetPropertyValueAsString E ElementProp SetData)
                else if IsInteger then JInt64 (GetSignedIntPropertyValue SetData)
                else JDouble (GetFloatingPointPropertyValue SetData))
               SubJsonWriter)
      | _ => None
      end
  end.

(** The value of one cell, by the class of the property; [Data] is slot 0
    of the property in the row. *)
Definition WriteCellValue (BaseProp : FProperty) (Data : FValue)
    (JsonWriter : TJsonWriter) : option TJsonWriter :=
  let AsString := JString (GetPropertyValueAsString E BaseProp Data) in
  let Otherwise := Some (WriteValue (Some "value") AsString JsonWriter) in
  match BaseProp with
  | FEnumProperty _ => Some (WriteValue (Some "value") AsString JsonWriter)
  | FNumericProperty _ IsEnum IsInteger =>
      if IsEnum then Some (WriteValue (Some "value") AsString JsonWriter)
      else if IsInteger then
        Some (WriteValue (Some "value") (JInt64 (GetSignedIntPropertyValue Data)) JsonWriter)
      else
        Some (WriteValue (Some "value") (JDouble (GetFloatingPointPropertyValue Data))
                JsonWriter)
  | FBoolProperty _ =>
      Some (WriteValue (Some "value") (JBool (GetPropertyValue Data)) JsonWriter)
  | FArrayProperty _ Inner =>
      if HS_GRIDLY_ALLOW_ARBITARY_STRUCT_IN_TABLE E then
        match WriteArrayElements Inner (ArrayElements Data)
                (WriteArrayStart None CreateWriter) with
        | None => None
        | Some sub =>
            let SubJsonWriter := WriteArrayEnd sub in
            if Close SubJsonWriter then
              Some (WriteValue (Some "value")
                      (JString (WriterString E (Written SubJsonWriter))) JsonWriter)
            else Some JsonWriter
        end
      else Otherwise
  | FSetProperty _ ElementProp =>
      if HS_GRIDLY_ALLOW_SET_PROPERTYTYPE_IN_TABLE E then
        match WriteSetElements ElementProp (Entries (SetHelper Data))
                (WriteArrayStart None CreateWriter) with
        | None => None
        | Some sub =>
            let SubJsonWriter := WriteArrayEnd sub in
            if Close SubJsonWriter then
              Some (WriteValue (Some "value")
                      (JRaw (WriterString E (Written SubJsonWriter))) JsonWriter)
            else Some JsonWriter
        end
      else Otherwise
  | _ => Otherwise
  end.

(** The loop over the properties of one row: the cells written, the path
    value and whether it was found. *)
Fixpoint WriteCells (It : list FProperty) (RowData : list (list FValue))
    (PathValue : string) (bPathFound : bool) (JsonWriter : TJsonWriter)
    : option (TJsonWriter * string * bool) :=
  match It with
  | [] => Some (JsonWriter, PathValue, bPathFound)
  | BaseProp :: rest =>
      let Identifier := GetPropertyExportName (Field BaseProp) in
      let Data := nth 0 (hd [] RowData) (DefaultValue BaseProp) in
      if EqualsIgnoreCase Identifier "_path" then
        WriteCells rest (tl RowData) (GetPropertyValueAsString E BaseProp Data) true
          JsonWriter
      else if ArrayDim (Field BaseProp) =? 1 then
        let ExportId := GetPropertyExportName (Field BaseProp) in
        match
          WriteCellValue BaseProp Data
            (WriteValue (Some "columnId") (JString ExportId) (WriteObjectStart JsonWriter))
        with
        | None => None
        | Some w => WriteCells rest (tl RowData) PathValue bPathFound (WriteObjectEnd w)
        end
      else WriteCells rest (tl RowData) PathValue bPathFound JsonWriter
  end.

(** The body of the loop over the rows: one row object. *)
Definition WriteRow (Struct : UScriptStruct) (RowName : FName) (RowData : FValue)
    (JsonWriter : TJsonWriter) : option TJsonWriter :=
  let w1 := WriteValue (Some "id") (JString RowName) (WriteObjectStart JsonWriter) in
  match
    WriteCells (TFieldIterator Struct) (StructSlots RowData) "" false
      (WriteArrayStart (Some "cells") w1)
  with
  | None => None
  | Some (w2, PathValue, bPathFound) =>
      let w3 := WriteArrayEnd w2 in
      let w4 :=
        if bPathFound then WriteValue (Some "path") (JString PathValue) w3
        else WriteValue (Some "path") (JString "") w3 in
      Some (WriteObjectEnd w4)
  end.

(** The loop [for (size_t i = StartIndex; i < EndIndex; i++)], with
    [count] iterations to go. *)
Fixpoint WriteRows (GridlyDataTable : UDataTable) (Struct : UScriptStruct)
    (Keys : list FName) (count : nat) (i : nat) (JsonWriter : TJsonWriter)
    : option TJsonWriter :=
  match count with
  | O => Some JsonWriter
  | S count' =>
      let RowName := nth i Keys "" in
      let RowData :=
        match Find RowName (RowMap GridlyDataTable) with
        | Some a => nth a (Memory GridlyDataTable) (VStruct [])
        | None => VStruct []
        end in
      match WriteRow Struct RowName RowData JsonWriter with
      | None => None
      | Some w => WriteRows GridlyDataTable Struct Keys count' (S i) w
      end
  end.

(** [size_t] arithmetic. *)
Definition size_t_add (a b : Z) : Z := (a + b) mod 2 ^ 64.

(** [ConvertToJson(GridlyDataTable, OutJsonString, StartIndex, MaxSize)]:
    the return value and the calls made on the writer of [OutJsonString];
    [None] when a [checkNoEntry] fails. *)
Definition ConvertToJson (GridlyDataTable : UDataTable) (StartIndex MaxSize : Z)
    : option (bool * list FJsonWriterCall) :=
  match RowStruct GridlyDataTable with
  | None => Some (false, [])
  | Some Struct =>
      let JsonWriter := WriteArrayStart None CreateWriter in
      let Keys := map fst (RowMap GridlyDataTable) in
      let Num := Z.of_nat (List.length Keys) in
      if StartIndex <? Num then
        let EndIndex := Z.min (size_t_add StartIndex MaxSize) Num in
        match
          WriteRows GridlyDataTable Struct Keys (Z.to_nat (EndIndex - StartIndex))
            (Z.to_nat StartIndex) JsonWriter
        with
        | None => None
        | Some w =>
            let w1 := WriteArrayEnd w in
            if Close w1 then Some (true, Written w1) else Some (false, Written w1)
        end
      else Some (false, Written JsonWriter)
  end.

End Exporter.


(** ** FGridlyExporter::ConvertToJson on polyglot text data *)

(** [FJsonObject::SetField] is [Values.Add]: the member already there
    under the name is replaced, a new member comes last. *)
Fixpoint SetField (o : FJsonObject) (FieldName : string) (Value : FJsonValue)
    : FJsonObject :=
  match o with
  | [] => [(FieldName, Value)]
  | (k, v) :: o' =>
      if EqualsIgnoreCase k FieldName then (FieldName, Value) :: o'
      else (k, v) :: SetField o' FieldName Value
  end.

Definition SetStringField (o : FJsonObject) (FieldName StringValue : string)
    : FJsonObject :=
  SetField o FieldName (FJsonValueString StringValue).

Definition SetNumberField (o : FJsonObject) (FieldName : string) (Number : Z)
    : FJsonObject :=
  SetField o FieldName (FJsonValueNumber Number).

Definition SetArrayField (o : FJsonObject) (FieldName : string)
    (Array : list FJsonValue) : FJsonObject :=
  SetField o FieldName (FJsonValueArray Array).

(** [FPolyglotTextData], by the accessors the exporter calls. *)
Record FPolyglotTextData : Type := {
  GetKey : string;
  GetNamespace : string;
  GetNativeCulture : string;
  GetNativeString : string;
  GetLocalizedString : string -> option string
}.

(** [EGridlyColumnDataType]: the two enumerators the exporter has a case
    for; every other one takes the [default] branch. *)
Inductive EGridlyColumnDataType : Type :=
| EGridlyColumnDataType_String
| EGridlyColumnDataType_Number
| EGridlyColumnDataType_Other.

Record FGridlyColumnInfo : Type := {
  Name : string;
  DataType : EGridlyColumnDataType
}.

(** [UGridlyGameSettings], by the members the exporter reads;
    [MetadataMapping] by its [Find]. *)
Record UGridlyGameSettings : Type := {
  bUseCombinedNamespaceId : bool;
  bAlsoExportNamespaceColumn : bool;
  NamespaceColumnId : string;
  SourceLanguageColumnIdPrefix : string;
  TargetLanguageColumnIdPrefix : string;
  bExportContext : bool;
  ContextColumnId : string;
  bExportMetadata : bool;
  MetadataMapping : string -> option FGridlyColumnInfo
}.

(** [FManifestContext]: the source location and the metadata object, when
    the pointer to it is valid; a metadata value is kept by its [ToString],
    the one thing the exporter asks of it. *)
Record FManifestContext : Type := {
  SourceLocation : string;
  InfoMetadataObj : option (list (string * string))
}.

Record FManifestEntry : Type := {
  FindContextByKey : string -> option FManifestContext
}.

Record FLocTextHelper : Type := {
  FindSourceText : string -> string -> option FManifestEntry
}.

(** What the polyglot exporter calls and the two files do not define: the
    culture converter ([FGridlyCultureConverter], declared in
    [GridlyCultureConverter.h]), the engine's string operations and its
    JSON serializer. [ConvertToGridly] gives the culture it writes to its
    out parameter when it returns true. *)
Record FLocalization : Type := {
  GetTargetCultures : list string;
  ConvertToGridly : string -> option string;
(** [FString::operator==]. *)
  FString_Equals : string -> string -> bool;
(** [FString::Contains], with its default search case. *)
  FString_Contains : string -> string -> bool;
(** [FString::Replace(From, To, ESearchCase::CaseSensitive)]. *)
  FString_Replace : string -> string -> string -> string;
(** [FCString::Atoi]. *)
  Atoi : string -> Z;
(** [FJsonSerializer::Serialize] of an array of values on a writer created
    on a string: its return value and the string. *)
  Serialize : list FJsonValue -> bool * string
}.

Section PolyglotExporter.

Variable L : FLocalization.
Variable GameSettings : UGridlyGameSettings.

(** The loop over the metadata of the item context. *)
Fixpoint AddMetadataCells (Values : list (string * string))
    (CellsJsonArray : list FJsonValue) : list FJsonValue :=
  match Values with
  | [] => CellsJsonArray
  | (KeyName, Value) :: rest =>
      match MetadataMapping GameSettings KeyName with
      | Some GridlyColumnInfo =>
          let CellJsonObject := SetStringField [] "columnId" (Name GridlyColumnInfo) in
          let CellJsonObject :=
            match DataType GridlyColumnInfo with
            | EGridlyColumnDataType_String =>
                SetStringField CellJsonObject "value" Value
            | EGridlyColumnDataType_Number =>
                SetNumberField CellJsonObject "value" (Atoi L Value)
            | EGridlyColumnDataType_Other => CellJsonObject
            end in
          AddMetadataCells rest (CellsJsonArray ++ [FJsonValueObject CellJsonObject])
      | None => AddMetadataCells rest CellsJsonArray
      end
  end.

(** The loop over the target cultures. *)
Fixpoint AddTargetCells (Data : FPolyglotTextData) (NativeCulture : string)
    (TargetCultures : list string) (CellsJsonArray : list FJsonValue)
    : list FJsonValue :=
  match TargetCultures with
  | [] => CellsJsonArray
  | CultureName :: rest =>
      if negb (FString_Equals L CultureName NativeCulture) then
        match GetLocalizedString Data CultureName with
        | Some LocalizedString =>
            match ConvertToGridly L CultureName with
            | Some GridlyCulture =>
                let CellJsonObject :=
                  SetStringField
                    (SetStringField [] "columnId"
                       (TargetLanguageColumnIdPrefix GameSettings +++ GridlyCulture))
                    "value" LocalizedString in
                AddTargetCells Data NativeCulture rest
                  (CellsJsonArray ++ [FJsonValueObject CellJsonObject])
            | None => AddTargetCells Data NativeCulture rest CellsJsonArray
            end
        | None => AddTargetCells Data NativeCulture rest CellsJsonArray
        end
      else AddTargetCells Data NativeCulture rest CellsJsonArray
  end.

(** The body of the loop over the text data: the row object of one entry. *)
Definition PolyglotRow (bIncludeTargetTranslations : bool)
    (LocTextHelperPtr : option FLocTextHelper) (Data : FPolyglotTextData)
    : FJsonValue :=
  let bUseCombinedNamespaceKey := bUseCombinedNamespaceId GameSettings in
  let bExportNamespace :=
    negb bUseCombinedNamespaceKey || bAlsoExportNamespaceColumn GameSettings in
  let bUsePathAsNamespace := FString_Equals L (NamespaceColumnId GameSettings) "path" in
  let RowJsonObject : FJsonObject := [] in
  let CellsJsonArray : list FJsonValue := [] in
  let Key := GetKey Data in
  let Namespace := GetNamespace Data in
  let ItemContext :=
    match LocTextHelperPtr with
    | Some LocTextHelper =>
        match FindSourceText LocTextHelper Namespace Key with
        | Some ManifestEntry => FindContextByKey ManifestEntry Key
        | None => None
        end
    | None => None
    end in
  (* Set record id *)
  let RowJsonObject :=
    if bUseCombinedNamespaceKey then
      if FString_Contains L Namespace "blueprints/" then
        SetStringField RowJsonObject "id" ("" +++ "," +++ Key)
      else SetStringField RowJsonObject "id" (Namespace +++ "," +++ Key)
    else SetStringField RowJsonObject "id" Key in
  (* Set namespace/path *)
  let '(RowJsonObject, CellsJsonArray) :=
    if bExportNamespace then
      if bUsePathAsNamespace then
        (SetStringField RowJsonObject "path" Namespace, CellsJsonArray)
      else if negb (IsEmpty (NamespaceColumnId GameSettings)) then
        (RowJsonObject,
         CellsJsonArray
         ++ [FJsonValueObject
               (SetStringField
                  (SetStringField [] "columnId" (NamespaceColumnId GameSettings))
                  "value" Namespace)])
      else (RowJsonObject, CellsJsonArray)
    else (RowJsonObject, CellsJsonArray) in
  (* Set source language text *)
  let NativeCulture := GetNativeCulture Data in
  let NativeString := GetNativeString Data in
  let CellsJsonArray :=
    match ConvertToGridly L NativeCulture with
    | Some GridlyCulture =>
        CellsJsonArray
        ++ [FJsonValueObject
              (SetStringField
                 (SetStringField [] "columnId"
                    (SourceLanguageColumnIdPrefix GameSettings +++ GridlyCulture))
                 "value" NativeString)]
    | None => CellsJsonArray
    end in
  (* Add context *)
  let CellsJsonArray :=
    match ItemContext with
    | Some Context =>
        if bExportContext GameSettings then
          CellsJsonArray
          ++ [FJsonValueObject
                (SetStringField
                   (SetStringField [] "columnId" (ContextColumnId GameSettings))
                   "value" (FString_Replace L (SourceLocation Context) " - line " ":"))]
        else CellsJsonArray
    | None => CellsJsonArray
    end in
  (* Add metadata *)
  let CellsJsonArray :=
    match ItemContext with
    | Some Context =>
        if bExportMetadata GameSettings then
          match InfoMetadataObj Context with
          | Some Values => AddMetadataCells Values CellsJsonArray
          | None => CellsJsonArray
          end
        else CellsJsonArray
    | None => CellsJsonArray
    end in
  let CellsJsonArray :=
    if bIncludeTargetTranslations then
      AddTargetCells Data NativeCulture (GetTargetCultures L) CellsJsonArray
    else CellsJsonArray in
  (* Assign array *)
  FJsonValueObject (SetArrayField RowJsonObject "cells" CellsJsonArray).

(** [ConvertToJson(PolyglotTextDatas, bIncludeTargetTranslations,
    LocTextHelperPtr, OutJsonString)]: the return value and
    [OutJsonString]. *)
Definition ConvertToJson_PolyglotTextDatas
    (PolyglotTextDatas : list FPolyglotTextData)
    (bIncludeTargetTranslations : bool)
    (LocTextHelperPtr : option FLocTextHelper) : bool * string :=
  let Rows :=
    map (PolyglotRow bIncludeTargetTranslations LocTextHelperPtr) PolyglotTextDatas in
  let '(ok, OutJsonString) := Serialize L Rows in
  if ok then (true, OutJsonString) else (false, OutJsonString).

End PolyglotExporter.
(** * Observations the results are stated with *)

(** ** Steps that only append to the problem array

    A decoding step [f], run from the problems [pr], does what it does from
    the empty array and appends its problems to [pr]; it has no result from
    [pr] when it has none from the empty array. *)
Definition Frame {A : Type} (f : Problems -> option (A * Problems)) : Prop :=
  forall pr, f pr = option_map (fun res => (fst res, pr ++ snd res)) (f []).

(** Both entry decoders are such steps on the property. *)
Definition EntryFrames
    (SE : FProperty -> FJsonValue -> FName -> string -> FValue -> Problems
          -> option FReadResult)
    (CE : FProperty -> FJsonValue -> FName -> string -> Z -> FValue -> Problems
          -> option FReadResult)
    (BaseProp : FProperty) : Prop :=
  (forall v r c d, Frame (SE BaseProp v r c d))
  /\ (forall v r c i d, Frame (CE BaseProp v r c i d)).

(** The property stops [ReadStruct]: its static arity is not 1 and the
    member it is imported from is not an array. *)
Definition StopsReadStruct (o : FJsonObject) (BaseProp : FProperty) : bool :=
  negb (ArrayDim (Field BaseProp) =? 1)
  && match FindImportValue (GetPropertyImportNames (Field BaseProp)) o with
     | Some v => match TryGetArray v with Some _ => false | None => true end
     | None => false
     end.

Definition IsContainerKind (InProperty : FProperty) : bool :=
  match InProperty with
  | FArrayProperty _ _ | FSetProperty _ _ | FMapProperty _ _ _ => true
  | _ => false
  end.

(** ** Strings that cannot be assigned *)

(** The value takes the entry decoders to the string coercion of the
    property: the property is string-like, or it is a struct and the value
    is not an object. *)
Definition HasStringFallback (InProperty : FProperty) (v : FJsonValue) : bool :=
  match InProperty with
  | FStructProperty _ _ => match TryGetObject v with Some _ => false | None => true end
  | FStrProperty _ => true
  | _ => false
  end.

(** The value is a string that the string coercion of the property
    refuses, whatever the slot holds. *)
Definition StringNotAssigned (E : FEngine) (InProperty : FProperty) (v : FJsonValue)
    : Prop :=
  HasStringFallback InProperty v = true
  /\ exists s,
       TryGetString E v = Some s
       /\ forall d, IsEmpty (fst (AssignStringToPropertyDirect E s InProperty d)) = false.

(** The problem [ReadStructEntry] adds for such a string. *)
Definition StringNotAssignedProblem (E : FEngine) (InProperty : FProperty)
    (s : string) (InRowName : FName) (InColumnName : string) (d : FValue) : string :=
  "Problem assigning string '" +++ s +++ "' to property '" +++ InColumnName
  +++ "' on row '" +++ InRowName +++ "' : "
  +++ fst (AssignStringToPropertyDirect E s InProperty d).

(** The property kinds on which [ReadContainerEntry] has no string
    fallback: every class but the struct and the string-like ones. *)
Definition NoStringFallback (InProperty : FProperty) : bool :=
  match InProperty with
  | FStructProperty _ _ | FStrProperty _ => false
  | _ => true
  end.

(** The properties on which [ReadStructEntry] cannot reach the string
    fallback of [ReadContainerEntry], and the record types all of whose
    properties are such: the elements of a container or of a field of
    static arity other than 1 are neither structs nor string-like. *)
Fixpoint ReturnsAsEntry (InProperty : FProperty) : bool :=
  match InProperty with
  | FArrayProperty _ Inner => NoStringFallback Inner
  | FSetProperty _ ElementProp => NoStringFallback ElementProp
  | FMapProperty _ _ ValueProp => NoStringFallback ValueProp
  | FStructProperty _ Struct => ReturnsStruct Struct
  | _ => true
  end
with ReturnsStruct (Struct : UScriptStruct) : bool :=
  match Struct with
  | MkScriptStruct _ ps =>
      forallb (fun P => if ArrayDim (Field P) =? 1 then ReturnsAsEntry P
                        else NoStringFallback P) ps
  end.

(** ** Entries decoded one by one *)

(** The entries of a list with their indices, counted from [k]. *)
Definition IndexedFrom {A : Type} (k : nat) (l : list A) : list (nat * A) :=
  combine (seq k (List.length l)) l.

Definition Indexed {A : Type} (l : list A) : list (nat * A) := IndexedFrom 0 l.

(** What [ReadContainerEntry] returns for entry [i] of a container read
    alone: on a fresh default element, from an empty problem array. *)
Definition EntryDecoded (E : FEngine) (b : bool) (EntryProp : FProperty)
    (r : FName) (c : string) (iv : nat * FJsonValue) (res : FReadResult) : Prop :=
  ReadContainerEntry E b EntryProp (snd iv) r c (Z.of_nat (fst iv))
    (DefaultValue EntryProp) [] = Some res.


(** ** The calls of one exported row *)

(** What may be written between the start and the end of the cells array:
    the braces of a cell, its [columnId], which is not the path name in any
    case of its letters, and its [value]. *)
Definition IsCellCall (call : FJsonWriterCall) : bool :=
  match call with
  | ObjectStart | ObjectEnd => true
  | WrittenValue (Some Identifier) v =>
      String.eqb Identifier "value"
      || (String.eqb Identifier "columnId"
          && match v with JString s => negb (EqualsIgnoreCase s "_path") | _ => false end)
  | _ => false
  end.

Section Path_value.

Variable E : FEngine.

(** The value of [PathValue] after the loop over the properties. *)
Fixpoint PathAfter (It : list FProperty) (RowData : list (list FValue))
    (PathValue : string) : string :=
  match It with
  | [] => PathValue
  | BaseProp :: rest =>
      PathAfter rest (tl RowData)
        (if EqualsIgnoreCase (GetPropertyExportName (Field BaseProp)) "_path"
         then GetPropertyValueAsString E BaseProp
                (nth 0 (hd [] RowData) (DefaultValue BaseProp))
         else PathValue)
  end.

(** The export name of the property is the path name, as the exporter
    compares names. *)
Definition IsPath (BaseProp : FProperty) : bool :=
  EqualsIgnoreCase (GetPropertyExportName (Field BaseProp)) "_path".

Definition NotPath (BaseProp : FProperty) : Prop := IsPath BaseProp = false.

(** The record of a row, as the exporter finds it. *)
Definition RowDataOf (GridlyDataTable : UDataTable) (RowName : FName) : FValue :=
  match Find RowName (RowMap GridlyDataTable) with
  | Some a => nth a (Memory GridlyDataTable) (VStruct [])
  | None => VStruct []
  end.

(** The calls of the row object of a row: [id], the cells array, [path]
    with the path value of the record. *)
Definition RowShape (GridlyDataTable : UDataTable) (Struct : UScriptStruct)
    (RowName : FName) (calls : list FJsonWriterCall) : Prop :=
  exists cells,
    calls
    = [ObjectStart; WrittenValue (Some "id") (JString RowName); ArrayStart (Some "cells")]
      ++ cells
      ++ [ArrayEnd;
          WrittenValue (Some "path")
            (JString (PathAfter (TFieldIterator Struct)
                        (StructSlots (RowDataOf GridlyDataTable RowName)) ""));
          ObjectEnd]
    /\ forallb IsCellCall cells = true.

End Path_value.

(** ** The rows of a table and their records *)

(** The name [ReadRow] gives the row of an object. *)
Definition RowNameOf (E : FEngine) (T : UDataTable) (obj : FJsonObject) : FName :=
  MakeValidName E (GetStringField E obj (GetKeyFieldName T)).

(** Every row has a name that is not [NAME_None] and the address of an
    allocated record; no two rows share a name, in whatever case its
    letters are, or a record. *)
Definition RowsAllocated (T : UDataTable) : Prop :=
  Forall (fun ka => IsNone (fst ka) = false
                    /\ (snd ka < List.length (Memory T))%nat) (RowMap T)
  /\ NoDup (map (fun ka => ToLowerString (fst ka)) (RowMap T))
  /\ NoDup (map snd (RowMap T)).

(** The record of a row, by name. *)
Definition FindRow (T : UDataTable) (RowName : FName) : option FValue :=
  match Find RowName (RowMap T) with
  | Some a => nth_error (Memory T) a
  | None => None
  end.

(** Two importers on the same table and text, the first of which holds the
    problems [pr] before the problems of the second. *)
Definition SameAfter (pr : Problems) (I I0 : FGridlyDataTableImporterJSON) : Prop :=
  DataTable I = DataTable I0
  /\ JSONData I = JSONData I0
  /\ ImportProblems I = pr ++ ImportProblems I0.

(** ** Members and properties without a partner *)

(** A member of a row object that [ReadRow] reports: it is not the key and
    no property has its name or imports from it, names being compared
    without regard to the case of their letters. *)
Definition IsExtraField (E : FEngine) (Struct : UScriptStruct) (RowKey : string)
    (Member : string * FJsonValue) : bool :=
  negb (EqualsIgnoreCase (fst Member) RowKey)
  && negb (FindFProperty Struct (MakeValidName E (fst Member))
           || existsb (fun It => Contains (GetPropertyImportNames (Field It)) (fst Member))
                (TFieldIterator Struct)).

Definition ExtraFieldProblem (E : FEngine) (Struct : UScriptStruct) (RowName : FName)
    (Member : string * FJsonValue) : string :=
  "Property '" +++ MakeValidName E (fst Member) +++ "' on row '" +++ RowName
  +++ "' cannot be found in struct '" +++ StructName Struct +++ "'.".

(** A property [ReadStruct] reports when the object has no member for it. *)
Definition ReportedWhenMissing (E : FEngine) (bIgnoreMissingFields : bool)
    (BaseProp : FProperty) : bool :=
  negb (WITH_EDITOR E && DataTableImportOptional (Field BaseProp))
  && negb bIgnoreMissingFields.

Definition MissingEntryProblem (InRowName : FName) (BaseProp : FProperty) : string :=
  "Row '" +++ InRowName +++ "' is missing an entry for '"
  +++ GetPropertyExportName (Field BaseProp) +++ "'.".

(** The properties that hold one scalar: the classes other than array,
    set, map and struct. *)
Definition IsScalarKind (InProperty : FProperty) : bool :=
  match InProperty with
  | FEnumProperty _ | FNumericProperty _ _ _ | FBoolProperty _ | FStrProperty _ => true
  | _ => false
  end.

(** A map whose values are containers: the one kind of field that
    [ReadStructEntry] can fail on without a problem. *)
Definition IsMapOfContainers (InProperty : FProperty) : bool :=
  match InProperty with
  | FMapProperty _ _ ValueProp => IsContainerKind ValueProp
  | _ => false
  end.

(** ** The calls of an exported page *)

(** The values written under an identifier, in the order written. *)
Fixpoint ValuesOf (Identifier : string) (calls : list FJsonWriterCall)
    : list FJsonWriterValue :=
  match calls with
  | [] => []
  | WrittenValue (Some n) v :: rest =>
      if String.eqb n Identifier then v :: ValuesOf Identifier rest
      else ValuesOf Identifier rest
  | _ :: rest => ValuesOf Identifier rest
  end.

(** The calls between the opening and the closing bracket of a page. *)
Definition PageRows (out : list FJsonWriterCall) : list FJsonWriterCall :=
  removelast (tl out).

(** The writer that has written [calls] before what [w] has written, with
    the stack [st]. *)
Definition Shift (calls : list FJsonWriterCall) (st : list EJson) (w : TJsonWriter)
    : TJsonWriter :=
  {| Written := calls ++ Written w; Stack := st |}.

(** The properties that get a cell: arity 1 and not the path, in any case
    of its letters. *)
Definition ExportedAsCell (BaseProp : FProperty) : bool :=
  negb (EqualsIgnoreCase (GetPropertyExportName (Field BaseProp)) "_path")
  && (ArrayDim (Field BaseProp) =? 1).

Definition IsNil {A : Type} (l : list A) : bool :=
  match l with [] => true | _ :: _ => false end.

(** The cell reaches a [checkNoEntry]: the build exports arrays and the
    array has an element that is not a struct, or the build exports sets
    and the set has an element that is not numeric. *)
Definition ReachesCheckNoEntry (E : FEngine) (BaseProp : FProperty) (Data : FValue)
    : bool :=
  match BaseProp with
  | FArrayProperty _ Inner =>
      HS_GRIDLY_ALLOW_ARBITARY_STRUCT_IN_TABLE E
      && negb (IsNil (ArrayElements Data))
      && match Inner with FStructProperty _ _ => false | _ => true end
  | FSetProperty _ ElementProp =>
      HS_GRIDLY_ALLOW_SET_PROPERTYTYPE_IN_TABLE E
      && negb (IsNil (Entries (SetHelper Data)))
      && match ElementProp with FNumericProperty _ _ _ => false | _ => true end
  | _ => false
  end.

(** ** The rows of the polyglot export *)

(** A cell object with both members. *)
Definition Cell (ColumnId : string) (Value : FJsonValue) : FJsonValue :=
  FJsonValueObject [("columnId", FJsonValueString ColumnId); ("value", Value)].

(** A cell object: a [columnId] and at most a [value], a string or a
    number. *)
Definition IsCell (c : FJsonValue) : Prop :=
  exists ColumnId,
    c = FJsonValueObject [("columnId", FJsonValueString ColumnId)]
    \/ exists Value,
         c = Cell ColumnId Value
         /\ (JsonType Value = EJson_String \/ JsonType Value = EJson_Number).

Section Polyglot_observations.

Variable L : FLocalization.
Variable GameSettings : UGridlyGameSettings.

(** The record id of an entry. *)
Definition RowId (Data : FPolyglotTextData) : string :=
  if bUseCombinedNamespaceId GameSettings then
    (if FString_Contains L (GetNamespace Data) "blueprints/" then ""
     else GetNamespace Data) +++ "," +++ GetKey Data
  else GetKey Data.

(** Whether the namespace is exported, and whether as the path. *)
Definition ExportsNamespace : bool :=
  negb (bUseCombinedNamespaceId GameSettings) || bAlsoExportNamespaceColumn GameSettings.

Definition NamespaceIsPath : bool :=
  ExportsNamespace && FString_Equals L (NamespaceColumnId GameSettings) "path".

Definition NamespaceIsCell : bool :=
  ExportsNamespace
  && negb (FString_Equals L (NamespaceColumnId GameSettings) "path")
  && negb (IsEmpty (NamespaceColumnId GameSettings)).

(** The cell of one target culture, when it gets one. *)
Definition TargetCell (Data : FPolyglotTextData) (CultureName : string)
    : list FJsonValue :=
  if FString_Equals L CultureName (GetNativeCulture Data) then []
  else
    match GetLocalizedString Data CultureName, ConvertToGridly L CultureName with
    | Some LocalizedString, Some GridlyCulture =>
        [Cell (TargetLanguageColumnIdPrefix GameSettings +++ GridlyCulture)
           (FJsonValueString LocalizedString)]
    | _, _ => []
    end.

(** The cell of one metadata value, when its key has a column. *)
Definition MetadataCell (Metadata : string * string) : list FJsonValue :=
  match MetadataMapping GameSettings (fst Metadata) with
  | Some GridlyColumnInfo =>
      match DataType GridlyColumnInfo with
      | EGridlyColumnDataType_String =>
          [Cell (Name GridlyColumnInfo) (FJsonValueString (snd Metadata))]
      | EGridlyColumnDataType_Number =>
          [Cell (Name GridlyColumnInfo) (FJsonValueNumber (Atoi L (snd Metadata)))]
      | EGridlyColumnDataType_Other =>
          [FJsonValueObject [("columnId", FJsonValueString (Name GridlyColumnInfo))]]
      end
  | None => []
  end.

(** The cells of an item context: the source location, then the
    metadata. *)
Definition ContextCells (Context : FManifestContext) : list FJsonValue :=
  (if bExportContext GameSettings
   then [Cell (ContextColumnId GameSettings)
           (FJsonValueString (FString_Replace L (SourceLocation Context) " - line " ":"))]
   else [])
  ++ (if bExportMetadata GameSettings
      then match InfoMetadataObj Context with
           | Some Values => flat_map MetadataCell Values
           | None => []
           end
      else []).

(** The row object of an entry: its [id], its [path] when the namespace is
    exported as the path, its [cells]. *)
Definition IsRowOf (Data : FPolyglotTextData) (Row : FJsonValue) : Prop :=
  exists cells,
    Row = FJsonValueObject
            ([("id", FJsonValueString (RowId Data))]
             ++ (if NamespaceIsPath
                 then [("path", FJsonValueString (GetNamespace Data))] else [])
             ++ [("cells", FJsonValueArray cells)])
    /\ Forall IsCell cells.

(** The [cells] member of a row object. *)
Definition CellsOf (Row : FJsonValue) : list FJsonValue :=
  match Row with
  | FJsonValueObject o =>
      match TryGetField o "cells" with
      | Some (FJsonValueArray cells) => cells
      | _ => []
      end
  | _ => []
  end.

End Polyglot_observations.


(** * A sample engine

    A small JSON text reader, a string coercion and a compact writer
    rendering, to run the importer and the exporter on concrete inputs. *)

Module SampleEngine.

Definition quote : ascii := ascii_of_nat 34.

Definition is_space (a : ascii) : bool :=
  match nat_of_ascii a with
  | 32%nat | 9%nat | 10%nat | 13%nat => true
  | _ => false
  end.

Fixpoint skip_space (s : string) : string :=
  match s with
  | String a s' => if is_space a then skip_space s' else s
  | EmptyString => s
  end.

Definition digit (a : ascii) : option Z :=
  let n := nat_of_ascii a in
  if ((48 <=? n) && (n <=? 57))%nat then Some (Z.of_nat n - 48) else None.

Fixpoint read_digits (acc : Z) (s : string) : Z * string :=
  match s with
  | String a s' =>
      match digit a with
      | Some d => read_digits (10 * acc + d) s'
      | None => (acc, s)
      end
  | EmptyString => (acc, s)
  end.

(** A decimal integer literal, with an optional sign. *)
Definition read_number (s : string) : option (Z * string) :=
  match s with
  | String "-" (String a s' as t) =>
      match digit a with
      | Some _ => let '(z, rest) := read_digits 0 t in Some (- z, rest)
      | None => None
      end
  | String a _ =>
      match digit a with
      | Some _ => Some (read_digits 0 s)
      | None => None
      end
  | EmptyString => None
  end.

(** The characters up to the closing quote (no escapes). *)
Fixpoint read_string (s : string) : option (string * string) :=
  match s with
  | String a s' =>
      if Ascii.eqb a quote then Some (EmptyString, s')
      else
        match read_string s' with
        | Some (t, rest) => Some (String a t, rest)
        | None => None
        end
  | EmptyString => None
  end.

Definition read_literal (lit : string) (v : FJsonValue) (s : string)
    : option (FJsonValue * string) :=
  if String.prefix lit s
  then Some (v, substring (String.length lit) (String.length s - String.length lit) s)
  else None.

Section read_sequences.

Variable read_value : string -> option (FJsonValue * string).

(** The elements after an opening bracket, up to the closing one. *)
Fixpoint read_elements (fuel : nat) (s : string) : option (list FJsonValue * string) :=
  match fuel with
  | O => None
  | S fuel' =>
      match read_value s with
      | Some (v, rest) =>
          match skip_space rest with
          | String "," rest' =>
              match read_elements fuel' rest' with
              | Some (vs, r) => Some (v :: vs, r)
              | None => None
              end
          | String "]" rest' => Some ([v], rest')
          | _ => None
          end
      | None => None
      end
  end.

(** The members after an opening brace, up to the closing one. *)
Fixpoint read_members (fuel : nat) (s : string)
    : option (list (string * FJsonValue) * string) :=
  match fuel with
  | O => None
  | S fuel' =>
      match skip_space s with
      | String a rest =>
          if Ascii.eqb a quote then
            match read_string rest with
            | Some (k, rest1) =>
                match skip_space rest1 with
                | String ":" rest2 =>
                    match read_value rest2 with
                    | Some (v, rest3) =>
                        match skip_space rest3 with
                        | String "," rest4 =>
                            match read_members fuel' rest4 with
                            | Some (kvs, r) => Some ((k, v) :: kvs, r)
                            | None => None
                            end
                        | String "}" rest4 => Some ([(k, v)], rest4)
                        | _ => None
                        end
                    | None => None
                    end
                | _ => None
                end
            | None => None
            end
          else None
      | EmptyString => None
      end
  end.

End read_sequences.

Fixpoint read_value (fuel : nat) (s : string) : option (FJsonValue * string) :=
  match fuel with
  | O => None
  | S fuel' =>
      match skip_space s with
      | String "[" rest =>
          match skip_space rest with
          | String "]" rest' => Some (FJsonValueArray [], rest')
          | _ =>
              match read_elements (read_value fuel') fuel' rest with
              | Some (vs, r) => Some (FJsonValueArray vs, r)
              | None => None
              end
          end
      | String "{" rest =>
          match skip_space rest with
          | String "}" rest' => Some (FJsonValueObject [], rest')
          | _ =>
              match read_members (read_value fuel') fuel' rest with
              | Some (kvs, r) => Some (FJsonValueObject kvs, r)
              | None => None
              end
          end
      | String "t" _ as t => read_literal "true" (FJsonValueBoolean true) t
      | String "f" _ as t => read_literal "false" (FJsonValueBoolean false) t
      | String "n" _ as t => read_literal "null" FJsonValueNull t
      | String a rest as t =>
          if Ascii.eqb a quote then
            match read_string rest with
            | Some (str, r) => Some (FJsonValueString str, r)
            | None => None
            end
          else
            match read_number t with
            | Some (z, r) => Some (FJsonValueNumber z, r)
            | None => None
            end
      | EmptyString => None
      end
  end.

(** One JSON value and nothing after it. *)
Definition Deserialize (s : string) : option FJsonValue :=
  match read_value (S (String.length s)) s with
  | Some (v, rest) =>
      match skip_space rest with
      | EmptyString => Some v
      | _ => None
      end
  | None => None
  end.

Definition DeserializeRows (s : string) : option (list FJsonValue) :=
  match Deserialize s with
  | Some (FJsonValueArray vs) => Some vs
  | _ => None
  end.

(** String coercion: text for the string-like classes, a decimal literal
    for the integer-like ones, [true] or [false] for a boolean; a struct
    is written between parentheses, and the sample reads none. *)
Definition AssignString (s : string) (InProperty : FProperty) (d : FValue)
    : string * FValue :=
  match InProperty with
  | FStrProperty _ => ("", VString s)
  | FEnumProperty _ | FNumericProperty _ _ _ =>
      match read_number s with
      | Some (z, EmptyString) => ("", VInt z)
      | _ => ("Invalid value", d)
      end
  | FBoolProperty _ =>
      if EqualsIgnoreCase s "true" then ("", VBool true)
      else if EqualsIgnoreCase s "false" then ("", VBool false)
      else ("Invalid value", d)
  | FStructProperty _ _ => ("Missing opening parenthesis: " +++ s, d)
  | _ => ("Unsupported property type", d)
  end.

(** The integer properties of the samples are [int32]. *)
Definition SetInt32 (InProperty : FProperty) (z : Z) : FValue :=
  VInt ((z + 2 ^ 31) mod 2 ^ 32 - 2 ^ 31).

Definition ValueAsString (InProperty : FProperty) (d : FValue) : string :=
  match d with
  | VString s => s
  | VInt z | VDouble z => itoa z
  | VBool true => "True"
  | VBool false => "False"
  | _ => ""
  end.

Definition quoted (s : string) : string :=
  String quote s +++ String quote "".

Definition render_value (v : FJsonWriterValue) : string :=
  match v with
  | JString s => quoted s
  | JInt64 z | JDouble z => itoa z
  | JBool true => "true"
  | JBool false => "false"
  | JRaw s => s
  end.

Definition render_name (Identifier : option string) : string :=
  match Identifier with
  | Some n => quoted n +++ ":"
  | None => ""
  end.

(** The calls rendered without white space; [comma] tells whether a value
    was written before in the open container. *)
Fixpoint render (comma : bool) (calls : list FJsonWriterCall) : string :=
  let sep := if comma then "," else "" in
  match calls with
  | [] => ""
  | ArrayStart n :: rest => sep +++ render_name n +++ "[" +++ render false rest
  | ObjectStart :: rest => sep +++ "{" +++ render false rest
  | ArrayEnd :: rest => "]" +++ render true rest
  | ObjectEnd :: rest => "}" +++ render true rest
  | WrittenValue n v :: rest => sep +++ render_name n +++ render_value v +++ render true rest
  end.

(** Accessors that succeed on their own kind only. *)
Definition GetString (v : FJsonValue) : option string :=
  match v with FJsonValueString s => Some s | _ => None end.

Definition GetNumber (v : FJsonValue) : option Z :=
  match v with FJsonValueNumber n => Some n | _ => None end.

Definition GetBool (v : FJsonValue) : option bool :=
  match v with FJsonValueBoolean b => Some b | _ => None end.

Definition Engine (ArbitraryStruct SetProperty : bool) : FEngine :=
  {| TryGetString := GetString;
     TryGetNumber := GetNumber;
     TryGetNumberDouble := GetNumber;
     TryGetBool := GetBool;
     SetIntPropertyValue := SetInt32;
     SetFloatingPointPropertyValue := fun _ z => VDouble z;
     AssignStringToPropertyDirect := AssignString;
     MakeValidName := fun s => s;
     DeserializeArray := DeserializeRows;
     GetErrorMessage := fun _ => "Invalid Json";
     DeserializeValue := Deserialize;
     HS_GRIDLY_ALLOW_ARBITARY_STRUCT_IN_TABLE := ArbitraryStruct;
     HS_GRIDLY_ALLOW_SET_PROPERTYTYPE_IN_TABLE := SetProperty;
     WITH_EDITOR := true;
     GetPropertyValueAsString := ValueAsString;
     UStructToFormattedJsonObjectString := fun _ _ => "{}";
     WriterString := render false |}.

Definition Named (n : string) (dim : Z) : FField :=
  {| GetFName := n; ArrayDim := dim; GetPropertyExportName := n;
     GetPropertyImportNames := [n]; DataTableImportOptional := false |}.

End SampleEngine.

(** * Sample tables *)

Module Sample.

Import SampleEngine.

Definition E : FEngine := Engine false false.

Definition Table (Struct : UScriptStruct) (rows : list (FName * FValue)) : UDataTable :=
  {| RowStruct := Some Struct; ImportKeyField := ""; bIgnoreExtraFields := false;
     bIgnoreMissingFields := false; AllowDuplicateRowsOnImport := false;
     RowMap := combine (map fst rows) (seq 0 (List.length rows));
     Memory := map snd rows;
     History := [] |}.

Definition Importer (T : UDataTable) (text : string) : FGridlyDataTableImporterJSON :=
  {| DataTable := T; JSONData := text; ImportProblems := [] |}.

Definition Hp : FProperty := FNumericProperty (Named "hp" 1) false true.
Definition Stats : FProperty := FNumericProperty (Named "stats" 3) false true.
Definition Tag : FProperty := FStrProperty (Named "tag" 1).

(** A row type with a fixed array of three integers between two scalars. *)
Definition StatsRow : UScriptStruct := MkScriptStruct "FStatsRow" [Hp; Stats; Tag].

(** A row type with one integer. *)
Definition HpRow : UScriptStruct := MkScriptStruct "FHpRow" [Hp].


(** Ten rows [r0] .. [r9] of [HpRow]. *)
Definition TenRows : UDataTable :=
  Table HpRow
    (map (fun i => ("r" +++ itoa (Z.of_nat i), VStruct [[VInt (Z.of_nat i)]])) (seq 0 10)).

(** The text of a row object of [HpRow]. *)
Definition RowText (name : string) (hp : Z) : string :=
  "{" +++ quoted "Name" +++ ":" +++ quoted name +++ "," +++ quoted "hp" +++ ":"
  +++ itoa hp +++ "}".

(** Five elements, the third of which is a string. *)
Definition FiveRows : string :=
  "[" +++ RowText "r0" 10 +++ "," +++ RowText "r1" 11 +++ "," +++ quoted "oops" +++ ","
  +++ RowText "r3" 13 +++ "," +++ RowText "r4" 14 +++ "]".

(** A row of [StatsRow] whose [stats] member is not an array. *)
Definition BadStats : FJsonObject :=
  [("Name", FJsonValueString "r0"); ("hp", FJsonValueNumber 7);
   ("stats", FJsonValueString "oops"); ("tag", FJsonValueString "x")].

Definition IntMap : FProperty :=
  FMapProperty (Named "m" 1) (FStrProperty (Named "m_Key" 1))
    (FNumericProperty (Named "m" 1) false true).

(** A struct-typed element, and an array, a set, a map and a fixed array
    of three of them. *)
Definition Unit_ (n : string) (dim : Z) : FProperty := FStructProperty (Named n dim) HpRow.

Definition Units : FProperty := FArrayProperty (Named "units" 1) (Unit_ "units" 1).

Definition UnitSet : FProperty := FSetProperty (Named "unitset" 1) (Unit_ "unitset" 1).

Definition UnitMap : FProperty :=
  FMapProperty (Named "unitmap" 1) (FStrProperty (Named "unitmap_Key" 1))
    (Unit_ "unitmap" 1).

Definition Squad : FProperty := Unit_ "squad" 3.

(** A row type with such an array before an integer. *)
Definition UnitsRow : UScriptStruct := MkScriptStruct "FUnitsRow" [Units; Hp].

(** Three entries, the second of which is a string where a struct is
    read. *)
Definition UnitValues : list FJsonValue :=
  [FJsonValueObject [("hp", FJsonValueNumber 1)]; FJsonValueString "oops";
   FJsonValueObject [("hp", FJsonValueNumber 3)]].

(** A row of [UnitsRow] and an object with a [squad] member, with these
    entries. *)
Definition UnitsObject : FJsonObject :=
  [("Name", FJsonValueString "r0"); ("units", FJsonValueArray UnitValues);
   ("hp", FJsonValueNumber 7)].

Definition SquadObject : FJsonObject :=
  [("Name", FJsonValueString "r0"); ("squad", FJsonValueArray UnitValues);
   ("hp", FJsonValueNumber 7)].

(** An array and a set of integers, and three entries for them, the second
    of which is a string that is not a number. *)
Definition Scores : FProperty := FArrayProperty (Named "scores" 1) Hp.

Definition ScoreSet : FProperty := FSetProperty (Named "scores" 1) Hp.

Definition ScoreValues : list FJsonValue :=
  [FJsonValueNumber 4; FJsonValueString "x"; FJsonValueNumber 6].


(** Two values for the three slots of [Stats], and a row with them. *)
Definition ShortStats : list FJsonValue :=
  [FJsonValueNumber 1; FJsonValueString "x"].

Definition ShortStatsObject : FJsonObject :=
  [("Name", FJsonValueString "r0"); ("stats", FJsonValueArray ShortStats)].

(** A row type whose path field is spelled [_Path]. *)
Definition UpperPath : FProperty :=
  FStrProperty
    {| GetFName := "Path"; ArrayDim := 1; GetPropertyExportName := "_Path";
       GetPropertyImportNames := ["_Path"]; DataTableImportOptional := false |}.

Definition UpperPathRow : UScriptStruct := MkScriptStruct "FUpperPathRow" [Hp; UpperPath].

End Sample.

(** * Sample text data *)

Module SampleLocalization.

Import SampleEngine.

(** Whether [sub] occurs in [s]. *)
Fixpoint contains (sub s : string) : bool :=
  String.prefix sub s
  || match s with
     | String _ s' => contains sub s'
     | EmptyString => false
     end.

(** [s] with every occurrence of [from] replaced by [to]; [fuel] bounds
    the characters looked at. *)
Fixpoint replace (fuel : nat) (from to s : string) : string :=
  match fuel with
  | O => s
  | S fuel' =>
      match s with
      | EmptyString => EmptyString
      | String a s' =>
          if negb (String.eqb from "") && String.prefix from s then
            to +++ replace fuel' from to
                     (substring (String.length from)
                        (String.length s - String.length from) s)
          else String a (replace fuel' from to s')
      end
  end.

Fixpoint join (sep : string) (l : list string) : string :=
  match l with
  | [] => ""
  | [x] => x
  | x :: l' => x +++ sep +++ join sep l'
  end.

(** A JSON value rendered without white space. *)
Fixpoint render_json (v : FJsonValue) : string :=
  match v with
  | FJsonValueNull => "null"
  | FJsonValueString s => quoted s
  | FJsonValueNumber z => itoa z
  | FJsonValueBoolean true => "true"
  | FJsonValueBoolean false => "false"
  | FJsonValueArray l => "[" +++ join "," (map render_json l) +++ "]"
  | FJsonValueObject o =>
      "{" +++ join ","
                (map (fun kv => quoted (fst kv) +++ ":" +++ render_json (snd kv)) o)
      +++ "}"
  end.

(** English and French have a Gridly culture, German has none. *)
Definition Cultures : FLocalization :=
  {| GetTargetCultures := ["en"; "fr"; "de"];
     ConvertToGridly :=
       fun c => if String.eqb c "en" then Some "enUS"
                else if String.eqb c "fr" then Some "frFR" else None;
     FString_Equals := EqualsIgnoreCase;
     FString_Contains := fun s sub => contains (ToLowerString sub) (ToLowerString s);
     FString_Replace := fun s from to => replace (String.length s) from to s;
     Atoi := fun s => match read_number s with Some (z, _) => z | None => 0 end;
     Serialize := fun Rows => (true, render_json (FJsonValueArray Rows)) |}.

(** Settings that combine namespace and key, and also export the namespace
    as the column [ns]. *)
Definition Settings : UGridlyGameSettings :=
  {| bUseCombinedNamespaceId := true;
     bAlsoExportNamespaceColumn := true;
     NamespaceColumnId := "ns";
     SourceLanguageColumnIdPrefix := "src_";
     TargetLanguageColumnIdPrefix := "tg_";
     bExportContext := true;
     ContextColumnId := "ctx";
     bExportMetadata := true;
     MetadataMapping := fun _ => None |}.

(** An English entry with a French and a German translation. *)
Definition Greeting : FPolyglotTextData :=
  {| GetKey := "Greeting";
     GetNamespace := "Menu";
     GetNativeCulture := "en";
     GetNativeString := "Hello";
     GetLocalizedString :=
       fun c => if String.eqb c "en" then Some "Hello"
                else if String.eqb c "fr" then Some "Bonjour"
                else if String.eqb c "de" then Some "Hallo" else None |}.

(** The same settings with a number column for [MaxLen] and a column of
    another type for [Tag]. *)
Definition SettingsWithMetadata : UGridlyGameSettings :=
  {| bUseCombinedNamespaceId := true;
     bAlsoExportNamespaceColumn := true;
     NamespaceColumnId := "ns";
     SourceLanguageColumnIdPrefix := "src_";
     TargetLanguageColumnIdPrefix := "tg_";
     bExportContext := true;
     ContextColumnId := "ctx";
     bExportMetadata := true;
     MetadataMapping :=
       fun k =>
         if EqualsIgnoreCase k "MaxLen"
         then Some {| Name := "max_len"; DataType := EGridlyColumnDataType_Number |}
         else if EqualsIgnoreCase k "Tag"
         then Some {| Name := "tag"; DataType := EGridlyColumnDataType_Other |}
         else None |}.

(** The item context of the greeting, with three metadata values. *)
Definition GreetingContext : FManifestContext :=
  {| SourceLocation := "Menu.cpp - line 12";
     InfoMetadataObj := Some [("MaxLen", "20"); ("Note", "n"); ("Tag", "t")] |}.

Definition GreetingEntry : FManifestEntry :=
  {| FindContextByKey := fun _ => Some GreetingContext |}.

Definition Helper : FLocTextHelper :=
  {| FindSourceText := fun _ _ => Some GreetingEntry |}.

End SampleLocalization.

Module SampleRows.

Import SampleEngine.

(** Two elements with the same row name. *)
Definition First : FJsonValue :=
  FJsonValueObject [("Name", FJsonValueString "r0"); ("hp", FJsonValueNumber 10)].

Definition Second : FJsonValue :=
  FJsonValueObject [("Name", FJsonValueString "r0"); ("hp", FJsonValueNumber 99)].

(** A row of [HpRow] with a member no property is imported from, its
    other members spelled in another case than the key and the property. *)
Definition Bogus : FJsonObject :=
  [("NAME", FJsonValueString "r0"); ("HP", FJsonValueNumber 7);
   ("bogus", FJsonValueNumber 1)].

(** A struct-typed field and the text of a struct in a string. *)
Definition Inner : FProperty := FStructProperty (Named "inner" 1) Sample.HpRow.

Definition InnerText : string := "{" +++ quoted "hp" +++ ":5}".

End SampleRows.


(** ** Induction on property descriptors *)

Section FProperty_induction.

Variable P : FProperty -> Prop.
Variable Q : UScriptStruct -> Prop.
Hypothesis HEnum : forall F, P (FEnumProperty F).
Hypothesis HNumeric : forall F e i, P (FNumericProperty F e i).
Hypothesis HBool : forall F, P (FBoolProperty F).
Hypothesis HArray : forall F Inner, P Inner -> P (FArrayProperty F Inner).
Hypothesis HSet : forall F El, P El -> P (FSetProperty F El).
Hypothesis HMap : forall F K V, P K -> P V -> P (FMapProperty F K V).
Hypothesis HStruct : forall F St, Q St -> P (FStructProperty F St).
Hypothesis HStr : forall F, P (FStrProperty F).
Hypothesis HScript : forall n ps, Forall P ps -> Q (MkScriptStruct n ps).

Fixpoint FProperty_both (p : FProperty) : P p :=
  match p with
  | FEnumProperty F => HEnum F
  | FNumericProperty F e i => HNumeric F e i
  | FBoolProperty F => HBool F
  | FArrayProperty F Inner => HArray F Inner (FProperty_both Inner)
  | FSetProperty F El => HSet F El (FProperty_both El)
  | FMapProperty F K V => HMap F K V (FProperty_both K) (FProperty_both V)
  | FStructProperty F St => HStruct F St (UScriptStruct_both St)
  | FStrProperty F => HStr F
  end
with UScriptStruct_both (s : UScriptStruct) : Q s :=
  match s with
  | MkScriptStruct n ps =>
      HScript n ps
        ((fix all (l : list FProperty) : Forall P l :=
            match l with
            | [] => Forall_nil P
            | p :: l' => Forall_cons p (FProperty_both p) (all l')
            end) ps)
  end.

End FProperty_induction.

(** * Properties *)

(** ** Names compared without case *)

Lemma EqualsIgnoreCase_eq (a b : string) :
  EqualsIgnoreCase a b = true <-> ToLowerString a = ToLowerString b.
Proof. unfold EqualsIgnoreCase. apply String.eqb_eq. Qed.


Lemma IsEmpty_false (s : string) :
  IsEmpty s = false -> (0 <? String.length s)%nat = true.
Proof.
  unfold IsEmpty. intros H. apply Nat.eqb_neq in H. apply Nat.ltb_lt. lia.
Qed.

(** Case analysis on the branches of a decoder. *)
Ltac frame_leaf :=
  cbn [option_map fst snd app]; unfold Add; cbn [app];
  solve [ reflexivity | now rewrite app_nil_r | now rewrite app_assoc ].

Ltac frame_scalar :=
  repeat match goal with
         | |- context [match ?x with _ => _ end] =>
             match x with
             | context [match _ with _ => _ end] => fail 1
             | _ => destruct x eqn:?
             end
         end; frame_leaf.

(** ** The problem array is only appended to *)

Section Frame_loops.

Variable E : FEngine.
Variable EntryProp : FProperty.
Variable CE : FJsonValue -> FName -> string -> Z -> FValue -> Problems -> option FReadResult.
Variable KeyProp : FProperty.
Variables (InRowName : FName) (InColumnName : string).
Hypothesis HCE : forall v r c i d, Frame (CE v r c i d).

Lemma ReadArrayValues_frame (vals : list FJsonValue) :
  forall a, Frame (ReadArrayValues EntryProp CE InRowName InColumnName vals a).
Proof.
  induction vals as [|v vals IH]; intros a pr.
  - cbn. now rewrite app_nil_r.
  - cbn [ReadArrayValues AddValue]. rewrite (HCE v _ _ _ _ pr).
    destruct (CE v InRowName InColumnName _ _ []) as [[[ok d] n]|];
      cbn [option_map fst snd]; [|reflexivity].
    rewrite (IH _ (pr ++ n)), (IH _ n).
    destruct (ReadArrayValues _ _ _ _ vals _ []) as [[a' n']|];
      cbn [option_map fst snd]; [|reflexivity].
    now rewrite app_assoc.
Qed.

Lemma ReadSetValues_frame (vals : list FJsonValue) :
  forall s, Frame (ReadSetValues EntryProp CE InRowName InColumnName vals s).
Proof.
  induction vals as [|v vals IH]; intros s pr.
  - cbn. now rewrite app_nil_r.
  - cbn [ReadSetValues AddDefaultValue_Invalid_NeedsRehash]. rewrite (HCE v _ _ _ _ pr).
    destruct (CE v InRowName InColumnName _ _ []) as [[[ok d] n]|];
      cbn [option_map fst snd]; [|reflexivity].
    rewrite (IH _ (pr ++ n)), (IH _ n).
    destruct (ReadSetValues _ _ _ _ vals _ []) as [[s' n']|];
      cbn [option_map fst snd]; [|reflexivity].
    now rewrite app_assoc.
Qed.

Lemma ReadMapValues_frame (kvs : list (string * FJsonValue)) :
  forall m, Frame (ReadMapValues E EntryProp CE KeyProp InRowName InColumnName kvs m).
Proof.
  induction kvs as [|[k v] kvs IH]; intros m pr.
  - cbn. now rewrite app_nil_r.
  - cbn [ReadMapValues AddDefaultValue_Invalid_NeedsRehash].
    destruct (nth _ _ _) as [k0 v0].
    destruct (AssignStringToPropertyDirect E k KeyProp k0) as [KeyError kd].
    destruct (0 <? String.length KeyError)%nat; [reflexivity|].
    rewrite (HCE v _ _ _ _ pr).
    destruct (CE v InRowName InColumnName _ _ []) as [[[ok d] n]|];
      cbn [option_map fst snd]; [|reflexivity].
    destruct ok; cbn [negb].
    + rewrite (IH _ (pr ++ n)), (IH _ n).
      destruct (ReadMapValues _ _ _ _ _ _ kvs _ []) as [[okm n']|];
        cbn [option_map fst snd]; [|reflexivity].
      now rewrite app_assoc.
    + reflexivity.
Qed.

Lemma ReadStaticArray_frame (vals : list FJsonValue) (count : nat) :
  forall i slots,
    Frame (ReadStaticArray EntryProp CE InRowName InColumnName vals count i slots).
Proof.
  induction count as [|count IH]; intros i slots pr.
  - cbn. now rewrite app_nil_r.
  - cbn [ReadStaticArray]. destruct (nth_error vals i) as [v|].
    + rewrite (HCE v _ _ _ _ pr).
      destruct (CE v InRowName InColumnName _ _ []) as [[[ok d] n]|];
        cbn [option_map fst snd]; [|reflexivity].
      rewrite (IH _ _ (pr ++ n)), (IH _ _ n).
      destruct (ReadStaticArray _ _ _ _ vals count _ _ []) as [[s' n']|];
        cbn [option_map fst snd]; [|reflexivity].
      now rewrite app_assoc.
    + apply IH.
Qed.

End Frame_loops.

Section Frame_struct.

Variable E : FEngine.
Variable bIgnoreMissingFields : bool.
Variable SE :
  FProperty -> FJsonValue -> FName -> string -> FValue -> Problems -> option FReadResult.
Variable CE :
  FProperty -> FJsonValue -> FName -> string -> Z -> FValue -> Problems
  -> option FReadResult.

Lemma ReadSingleSlot_frame BaseProp v r c d :
  EntryFrames SE CE BaseProp -> Frame (ReadSingleSlot E SE BaseProp v r c d).
Proof.
  intros [HSE _] pr. unfold ReadSingleSlot.
  rewrite (HSE v r c d pr).
  destruct (SE BaseProp v r c d []) as [[[ok d1] n1]|]; cbn [option_map fst snd];
    [|reflexivity].
  destruct (HS_GRIDLY_ALLOW_ARBITARY_STRUCT_IN_TABLE E && negb ok);
    [|reflexivity].
  destruct (JsonType v); try reflexivity.
  destruct (DeserializeValue E _) as [parsed|]; [|reflexivity].
  rewrite (HSE parsed r c d1 (pr ++ n1)), (HSE parsed r c d1 n1).
  destruct (SE BaseProp parsed r c d1 []) as [[[ok2 d2] n2]|]; cbn [option_map fst snd];
    [|reflexivity].
  now rewrite app_assoc.
Qed.

Lemma ReadProperty_frame BaseProp o r slots :
  EntryFrames SE CE BaseProp ->
  Frame (ReadProperty E bIgnoreMissingFields SE CE BaseProp o r slots).
Proof.
  intros HF pr. unfold ReadProperty.
  destruct (FindImportValue _ o) as [v|].
  - destruct (ArrayDim (Field BaseProp) =? 1).
    + rewrite (ReadSingleSlot_frame BaseProp v r _ _ HF pr).
      destruct (ReadSingleSlot E SE BaseProp v r _ _ []) as [[d n]|]; reflexivity.
    + destruct (TryGetArray v) as [vals|]; [|reflexivity].
      destruct HF as [_ HCE].
      pose proof (ReadStaticArray_frame BaseProp (CE BaseProp) r
                    (GetPropertyExportName (Field BaseProp)) (HCE) vals
                    (Z.to_nat (ArrayDim (Field BaseProp))) 0%nat slots) as HS.
      destruct (negb (ArrayDim (Field BaseProp) =? Z.of_nat (List.length vals))).
      * rewrite (HS (Add pr _)), (HS (Add [] _)).
        destruct (ReadStaticArray _ _ _ _ vals _ _ _ []) as [[s' n']|];
          cbn [option_map fst snd]; [|reflexivity].
        unfold Add. cbn [app]. now rewrite <- !app_assoc.
      * rewrite (HS pr).
        destruct (ReadStaticArray _ _ _ _ vals _ _ _ []) as [[d n]|]; reflexivity.
  - destruct (WITH_EDITOR E && DataTableImportOptional (Field BaseProp)).
    + cbn. now rewrite app_nil_r.
    + destruct (negb bIgnoreMissingFields); cbn; [reflexivity|now rewrite app_nil_r].
Qed.

Lemma ReadProperties_frame (It : list FProperty) o r :
  Forall (EntryFrames SE CE) It ->
  forall data, Frame (ReadProperties E bIgnoreMissingFields SE CE It o r data).
Proof.
  induction 1 as [|BaseProp It HF _ IH]; intros data pr.
  - cbn. now rewrite app_nil_r.
  - cbn [ReadProperties]. rewrite (ReadProperty_frame BaseProp o r _ HF pr).
    destruct (ReadProperty E bIgnoreMissingFields SE CE BaseProp o r _ [])
      as [[[slots|] n]|]; cbn [option_map fst snd]; try reflexivity.
    rewrite (IH _ (pr ++ n)), (IH _ n).
    destruct (ReadProperties E bIgnoreMissingFields SE CE It o r _ [])
      as [[[ok d] n2]|]; cbn [option_map fst snd]; [|reflexivity].
    now rewrite app_assoc.
Qed.

End Frame_struct.

(** ** Unfolding equations of the walker *)

Section Walker_equations.

Variable E : FEngine.
Variable b : bool.

Lemma ReadStructEntry_array F Inner v r c d pr :
  ReadStructEntry E b (FArrayProperty F Inner) v r c d pr =
  match TryGetArray v with
  | None =>
      Some (false, d, Add pr (IncorrectType (PropertyOnRow c r) "Array"
                                (JSONTypeToString (JsonType v))))
  | Some vals =>
      match ReadArrayValues Inner (ReadContainerEntry E b Inner) r c vals [] pr with
      | Some (a, pr1) => Some (true, VArray a, pr1)
      | None => None
      end
  end.
Proof. reflexivity. Qed.

Lemma ReadStructEntry_set F El v r c d pr :
  ReadStructEntry E b (FSetProperty F El) v r c d pr =
  match TryGetArray v with
  | None =>
      Some (false, d, Add pr (IncorrectType (PropertyOnRow c r) "Array"
                                (JSONTypeToString (JsonType v))))
  | Some vals =>
      match
        ReadSetValues El (ReadContainerEntry E b El) r c vals
          (EmptyValues (SetHelper d)) pr
      with
      | Some (s, pr1) => Some (true, VSet (Rehash s), pr1)
      | None => None
      end
  end.
Proof. reflexivity. Qed.

Lemma ReadStructEntry_map F K V v r c d pr :
  ReadStructEntry E b (FMapProperty F K V) v r c d pr =
  match TryGetObject v with
  | None =>
      Some (false, d, Add pr (IncorrectType (PropertyOnRow c r) "Object"
                                (JSONTypeToString (JsonType v))))
  | Some kvs =>
      match
        ReadMapValues E V (ReadContainerEntry E b V) K r c kvs
          (EmptyValues (MapHelper d)) pr
      with
      | Some (false, m, pr1) => Some (false, VMap m, pr1)
      | Some (true, m, pr1) => Some (true, VMap (Rehash m), pr1)
      | None => None
      end
  end.
Proof. reflexivity. Qed.

Lemma ReadStructEntry_struct_object F St o r c d pr :
  ReadStructEntry E b (FStructProperty F St) (FJsonValueObject o) r c d pr =
  ReadStruct E b St o r d pr.
Proof. reflexivity. Qed.

Lemma ReadContainerEntry_struct_object F St o r c i d pr :
  ReadContainerEntry E b (FStructProperty F St) (FJsonValueObject o) r c i d pr =
  ReadStruct E b St o r d pr.
Proof. reflexivity. Qed.

Lemma ReadStruct_eq n It o r d pr :
  ReadStruct E b (MkScriptStruct n It) o r d pr =
  match
    ReadProperties E b (ReadStructEntry E b) (ReadContainerEntry E b) It o r
      (StructSlots d) pr
  with
  | Some (ok, d', pr1) => Some (ok, VStruct d', pr1)
  | None => None
  end.
Proof. reflexivity. Qed.

End Walker_equations.

Section Frame_walker.

Variable E : FEngine.
Variable bIgnoreMissingFields : bool.

Lemma Walker_frame :
  (forall BaseProp, EntryFrames (ReadStructEntry E bIgnoreMissingFields)
     (ReadContainerEntry E bIgnoreMissingFields) BaseProp)
  /\ (forall Struct o r d, Frame (ReadStruct E bIgnoreMissingFields Struct o r d)).
Proof.
  assert (H : forall BaseProp, EntryFrames (ReadStructEntry E bIgnoreMissingFields)
     (ReadContainerEntry E bIgnoreMissingFields) BaseProp).
  { apply (FProperty_both (EntryFrames (ReadStructEntry E bIgnoreMissingFields)
     (ReadContainerEntry E bIgnoreMissingFields))
             (fun Struct => forall o r d,
                  Frame (ReadStruct E bIgnoreMissingFields Struct o r d)));
      unfold EntryFrames.
    - intros F; split; intros; intro pr; cbn; unfold AssignStringToProperty; frame_scalar.
    - intros F e i; split; intros; intro pr; cbn; unfold AssignStringToProperty;
        frame_scalar.
    - intros F; split; intros; intro pr; cbn; frame_scalar.
    - intros F Inner [_ HC]; split; intros v r c; intros; intro pr;
        [|cbn; frame_leaf].
      rewrite !ReadStructEntry_array.
      destruct (TryGetArray v) as [vals|]; [|frame_leaf].
      rewrite (ReadArrayValues_frame Inner _ r c HC vals [] pr).
      destruct (ReadArrayValues _ _ _ _ _ _ []) as [[a n]|]; reflexivity.
    - intros F El [_ HC]; split; intros v r c; intros; intro pr;
        [|cbn; frame_leaf].
      rewrite !ReadStructEntry_set.
      destruct (TryGetArray v) as [vals|]; [|frame_leaf].
      rewrite (ReadSetValues_frame El _ r c HC vals _ pr).
      destruct (ReadSetValues _ _ _ _ _ _ []) as [[a n]|]; reflexivity.
    - intros F K V _ [_ HC]; split; intros v r c; intros; intro pr;
        [|cbn; frame_leaf].
      rewrite !ReadStructEntry_map.
      destruct (TryGetObject v) as [kvs|]; [|frame_leaf].
      rewrite (ReadMapValues_frame E V _ K r c HC kvs _ pr).
      destruct (ReadMapValues _ _ _ _ _ _ _ _ []) as [[[[|] m] n]|]; reflexivity.
    - intros F St HS; split; intros v r c; intros; intro pr;
        (destruct v as [| | | | |o];
         [ | | | | |first [ rewrite !ReadStructEntry_struct_object
                          | rewrite !ReadContainerEntry_struct_object ]; apply HS ]);
        cbn; unfold AssignStringToProperty; frame_scalar.
    - intros F; split; intros; intro pr; cbn; unfold AssignStringToProperty;
        frame_scalar.
    - intros n ps HF o r d pr. rewrite !ReadStruct_eq.
      rewrite (ReadProperties_frame E bIgnoreMissingFields _ _ ps o r HF _ pr).
      destruct (ReadProperties _ _ _ _ _ _ _ _ []) as [[[ok d'] n']|]; reflexivity. }
  split; [exact H|].
  intros [n ps] o r d pr. rewrite !ReadStruct_eq.
  rewrite (ReadProperties_frame E bIgnoreMissingFields _ _ ps o r
             (proj2 (Forall_forall _ _) (fun x _ => H x)) _ pr).
  destruct (ReadProperties _ _ _ _ _ _ _ _ []) as [[[ok d'] n']|]; reflexivity.
Qed.

End Frame_walker.

Lemma ReadContainerEntry_frame E b BaseProp v r c i d :
  Frame (ReadContainerEntry E b BaseProp v r c i d).
Proof. apply (proj1 (Walker_frame E b)). Qed.

Lemma ReadStructEntry_frame E b BaseProp v r c d :
  Frame (ReadStructEntry E b BaseProp v r c d).
Proof. apply (proj1 (Walker_frame E b)). Qed.

Lemma ReadStruct_frame E b Struct o r d : Frame (ReadStruct E b Struct o r d).
Proof. apply (proj2 (Walker_frame E b)). Qed.

(** What a step that returns has done to the problems. *)
Lemma Frame_Some {A : Type} (f : Problems -> option (A * Problems)) pr x pr1 :
  Frame f -> f pr = Some (x, pr1) -> exists n, f [] = Some (x, n) /\ pr1 = pr ++ n.
Proof.
  intros HF H. rewrite (HF pr) in H.
  destruct (f []) as [[y n]|]; [|discriminate].
  cbn [option_map fst snd] in H. injection H as <- <-. now exists n.
Qed.

(** ** Lists written through an index *)

Lemma nth_app_last {A : Type} (l : list A) (x d : A) :
  nth (List.length l) (l ++ [x]) d = x.
Proof. induction l; simpl; auto. Qed.

Lemma ListSetAt_app_last {A : Type} (l : list A) (x y : A) :
  ListSetAt (List.length l) y (l ++ [x]) = l ++ [y].
Proof. induction l; simpl; congruence. Qed.

Lemma ListSetAt_length {A : Type} (i : nat) (x : A) (l : list A) :
  List.length (ListSetAt i x l) = List.length l.
Proof. revert i; induction l; intros [|i]; simpl; auto. Qed.

Lemma nth_ListSetAt_same {A : Type} (i : nat) (x d : A) (l : list A) :
  (i < List.length l)%nat -> nth i (ListSetAt i x l) d = x.
Proof.
  revert i; induction l as [|y l IH]; intros [|i] H; simpl in *; try lia; auto.
  apply IH; lia.
Qed.

Lemma nth_ListSetAt_other {A : Type} (i j : nat) (x d : A) (l : list A) :
  i <> j -> nth j (ListSetAt i x l) d = nth j l d.
Proof.
  revert i j; induction l as [|y l IH]; intros [|i] [|j] H; simpl; auto; try congruence.
Qed.

Lemma ListRemoveAt_app_last {A : Type} (l : list A) (x : A) :
  ListRemoveAt (List.length l) (l ++ [x]) = l.
Proof. induction l; simpl; congruence. Qed.

Lemma IndexedFrom_cons {A : Type} (k : nat) (x : A) (l : list A) :
  IndexedFrom k (x :: l) = (k, x) :: IndexedFrom (S k) l.
Proof. reflexivity. Qed.


(** * Main results *)

(** ** Strings that cannot be assigned *)

(** Where [ReadStructEntry] reports the string and returns false,
    [ReadContainerEntry] reaches the call of [FString::Printf] whose
    arguments do not fit its format. *)
Lemma ReadContainerEntry_not_assigned E b InProperty v r c i d pr :
  StringNotAssigned E InProperty v ->
  ReadContainerEntry E b InProperty v r c i d pr = None.
Proof.
  intros [Hk (s & Hs & Hd)]. specialize (Hd d). apply IsEmpty_false in Hd.
  destruct InProperty; try discriminate Hk.
  - destruct v; try discriminate Hk; cbn; rewrite Hs;
      destruct (AssignStringToPropertyDirect E s _ d) as [ErrorText d'];
      cbn [fst] in Hd; (destruct ErrorText; [discriminate Hd|reflexivity]).
  - cbn. rewrite Hs.
    destruct (AssignStringToPropertyDirect E s _ d) as [ErrorText d'].
    cbn [fst] in Hd. destruct ErrorText; [discriminate Hd|reflexivity].
Qed.

Lemma ReadStructEntry_not_assigned E b InProperty v r c d pr s :
  HasStringFallback InProperty v = true ->
  TryGetString E v = Some s ->
  IsEmpty (fst (AssignStringToPropertyDirect E s InProperty d)) = false ->
  ReadStructEntry E b InProperty v r c d pr
  = Some (false, snd (AssignStringToPropertyDirect E s InProperty d),
          pr ++ [StringNotAssignedProblem E InProperty s r c d]).
Proof.
  intros Hk Hs Hd. apply IsEmpty_false in Hd. unfold StringNotAssignedProblem.
  destruct InProperty; try discriminate Hk.
  - destruct v; try discriminate Hk; cbn; unfold AssignStringToProperty; rewrite Hs;
      destruct (AssignStringToPropertyDirect E s _ d) as [ErrorText d'];
      cbn [fst snd] in *; (destruct ErrorText; [discriminate Hd|reflexivity]).
  - cbn. unfold AssignStringToProperty. rewrite Hs.
    destruct (AssignStringToPropertyDirect E s _ d) as [ErrorText d'].
    cbn [fst snd] in *. destruct ErrorText; [discriminate Hd|reflexivity].
Qed.

Section Loops_without_result.

Variable E : FEngine.
Variable EntryProp : FProperty.
Variable CE : FJsonValue -> FName -> string -> Z -> FValue -> Problems -> option FReadResult.
Variable KeyProp : FProperty.
Variables (r : FName) (c : string).
Hypothesis HCE :
  forall v i d pr, StringNotAssigned E EntryProp v -> CE v r c i d pr = None.

Lemma ReadArrayValues_no_result (vals : list FJsonValue) :
  Exists (StringNotAssigned E EntryProp) vals ->
  forall a pr, ReadArrayValues EntryProp CE r c vals a pr = None.
Proof.
  induction 1 as [v vals Hv|v vals _ IH]; intros a pr; cbn [ReadArrayValues AddValue].
  - now rewrite HCE.
  - destruct (CE v r c _ _ pr) as [[[ok d] pr1]|]; [apply IH|reflexivity].
Qed.

Lemma ReadSetValues_no_result (vals : list FJsonValue) :
  Exists (StringNotAssigned E EntryProp) vals ->
  forall s pr, ReadSetValues EntryProp CE r c vals s pr = None.
Proof.
  induction 1 as [v vals Hv|v vals _ IH]; intros s pr;
    cbn [ReadSetValues AddDefaultValue_Invalid_NeedsRehash].
  - now rewrite HCE.
  - destruct (CE v r c _ _ pr) as [[[ok d] pr1]|]; [apply IH|reflexivity].
Qed.

Lemma ReadStaticArray_no_result (vals : list FJsonValue) (j : nat) v :
  nth_error vals j = Some v ->
  StringNotAssigned E EntryProp v ->
  forall count i slots pr,
    (i <= j < i + count)%nat ->
    ReadStaticArray EntryProp CE r c vals count i slots pr = None.
Proof.
  intros Hj Hv. induction count as [|count IH]; intros i slots pr Hi; [lia|].
  cbn [ReadStaticArray]. destruct (Nat.eq_dec i j) as [->|Hne].
  - rewrite Hj. now rewrite HCE.
  - destruct (nth_error vals i) as [vi|]; [|apply IH; lia].
    destruct (CE vi r c _ _ pr) as [[[ok d] pr1]|]; [apply IH; lia|reflexivity].
Qed.

Lemma ReadMapValues_app (kvs1 kvs2 : list (string * FJsonValue)) :
  forall m pr,
    ReadMapValues E EntryProp CE KeyProp r c (kvs1 ++ kvs2) m pr
    = match ReadMapValues E EntryProp CE KeyProp r c kvs1 m pr with
      | Some (true, m1, pr1) => ReadMapValues E EntryProp CE KeyProp r c kvs2 m1 pr1
      | Some (false, m1, pr1) => Some (false, m1, pr1)
      | None => None
      end.
Proof.
  induction kvs1 as [|[k v] kvs1 IH]; intros m pr; cbn [app ReadMapValues];
    [reflexivity|].
  destruct (AddDefaultValue_Invalid_NeedsRehash _ m) as [NewEntryIndex m1].
  destruct (nth NewEntryIndex (Entries m1) _) as [k0 v0].
  destruct (AssignStringToPropertyDirect E k KeyProp k0) as [KeyError kd].
  destruct (0 <? String.length KeyError)%nat; [reflexivity|].
  destruct (CE v r c _ v0 pr) as [[[ok d] pr1]|]; [|reflexivity].
  destruct ok; cbn [negb]; [apply IH|reflexivity].
Qed.

Lemma ReadMapValues_no_result Key Value (rest : list (string * FJsonValue)) m pr :
  IsEmpty (fst (AssignStringToPropertyDirect E Key KeyProp (DefaultValue KeyProp))) = true ->
  StringNotAssigned E EntryProp Value ->
  ReadMapValues E EntryProp CE KeyProp r c ((Key, Value) :: rest) m pr = None.
Proof.
  intros Hkey Hv. cbn [ReadMapValues AddDefaultValue_Invalid_NeedsRehash Entries].
  rewrite nth_app_last.
  destruct (AssignStringToPropertyDirect E Key KeyProp (DefaultValue KeyProp))
    as [KeyError kd].
  cbn [fst] in Hkey. unfold IsEmpty in Hkey. apply Nat.eqb_eq in Hkey. rewrite Hkey.
  cbn [Nat.ltb Nat.leb]. now rewrite HCE.
Qed.

End Loops_without_result.

(** ** Dynamic arrays and sets *)

(** C10. An array-typed or set-typed field whose JSON value is an array
    with an entry that is a string the element type refuses: the loop of
    [ReadStructEntry] over the entries reaches, in [ReadContainerEntry], the
    call of [FString::Printf] whose arguments do not fit its format, and
    the call of [ReadStructEntry] has no result; it does not return true
    with one element for each entry. *)
Theorem ReadStructEntry_array_set_no_result E b F Inner vals r c d pr :
  Exists (StringNotAssigned E Inner) vals ->
  ReadStructEntry E b (FArrayProperty F Inner) (FJsonValueArray vals) r c d pr = None
  /\ ReadStructEntry E b (FSetProperty F Inner) (FJsonValueArray vals) r c d pr = None.
Proof.
  intros H. split.
  - rewrite ReadStructEntry_array. cbn [TryGetArray].
    rewrite (ReadArrayValues_no_result E Inner); auto.
    intros. now apply ReadContainerEntry_not_assigned.
  - rewrite ReadStructEntry_set. cbn [TryGetArray].
    rewrite (ReadSetValues_no_result E Inner); auto.
    intros. now apply ReadContainerEntry_not_assigned.
Qed.

(** ** Maps *)

(** C6. A map-typed field whose JSON value is an object: when the members
    [before] have decoded and the next member has a key that is assigned
    and a value that is a string the value type refuses, the call of
    [ReadStructEntry] reaches the same call of [FString::Printf] and has no
    result; it does not remove the entry and return false. *)
Theorem ReadStructEntry_map_no_result E b F K V before Key Value after r c d pr m pr1 :
  ReadMapValues E V (ReadContainerEntry E b V) K r c before
    (EmptyValues (MapHelper d)) pr = Some (true, m, pr1) ->
  IsEmpty (fst (AssignStringToPropertyDirect E Key K (DefaultValue K))) = true ->
  StringNotAssigned E V Value ->
  ReadStructEntry E b (FMapProperty F K V)
    (FJsonValueObject (before ++ (Key, Value) :: after)) r c d pr = None.
Proof.
  intros Hbefore Hkey Hv. rewrite ReadStructEntry_map. cbn [TryGetObject].
  rewrite ReadMapValues_app, Hbefore.
  rewrite (ReadMapValues_no_result E V); auto.
  intros. now apply ReadContainerEntry_not_assigned.
Qed.

(** ** Container entries *)

Lemma ReadContainerEntry_container_kind E b InProperty v r c i d pr :
  IsContainerKind InProperty = true ->
  ReadContainerEntry E b InProperty v r c i d pr = Some (false, d, pr).
Proof. destruct InProperty; cbn [IsContainerKind]; try discriminate; reflexivity. Qed.

Ltac split_matches :=
  repeat match goal with
         | |- context [match ?x with _ => _ end] =>
             match x with
             | context [match _ with _ => _ end] => fail 1
             | _ => destruct x eqn:?
             end
         end.

(** Where [ReadContainerEntry] returns, [ReadStructEntry] returns the
    same verdict with as many problems. *)
Lemma ReadContainerEntry_as_ReadStructEntry E b InProperty v r c i d pr ok d1 pr1 :
  IsContainerKind InProperty = false ->
  ReadContainerEntry E b InProperty v r c i d pr = Some (ok, d1, pr1) ->
  exists pr2,
    ReadStructEntry E b InProperty v r c d pr = Some (ok, d1, pr2)
    /\ List.length pr2 = List.length pr1.
Proof.
  intros HK.
  destruct InProperty; try discriminate HK.
  - cbn; unfold AssignStringToProperty; split_matches; intros H;
      try discriminate H; injection H as <- <- <-; eexists; split;
      try reflexivity; unfold Add; now rewrite !length_app.
  - cbn; unfold AssignStringToProperty; split_matches; intros H;
      try discriminate H; injection H as <- <- <-; eexists; split;
      try reflexivity; unfold Add; now rewrite !length_app.
  - cbn; split_matches; intros H;
      try discriminate H; injection H as <- <- <-; eexists; split;
      try reflexivity; unfold Add; now rewrite !length_app.
  - destruct v as [| | | | |o].
    6:{ rewrite ReadContainerEntry_struct_object, ReadStructEntry_struct_object.
        intros ->. now eexists. }
    all: cbn; unfold AssignStringToProperty; split_matches; intros H;
      try discriminate H; injection H as <- <- <-; eexists; split;
      try reflexivity; unfold Add; now rewrite !length_app.
  - cbn; unfold AssignStringToProperty; split_matches; intros H;
      try discriminate H; injection H as <- <- <-; eexists; split;
      try reflexivity; unfold Add; now rewrite !length_app.
Qed.

(** C7. [ReadContainerEntry] on a property of array, set or map kind
    returns false and leaves the slot and the problems as they were. A
    string the property refuses makes [ReadStructEntry] return false with
    the slot as the coercion left it and one problem, while
    [ReadContainerEntry] reaches the call of [FString::Printf] whose
    arguments do not fit its format and has no result: on this value the
    two do not decode alike. Wherever [ReadContainerEntry] returns, on a
    kind that is not a container, [ReadStructEntry] returns the same
    verdict and the same slot, with as many problems. *)
Theorem ReadContainerEntry_string_fallback E b InProperty v r c i d pr :
  (IsContainerKind InProperty = true ->
   ReadContainerEntry E b InProperty v r c i d pr = Some (false, d, pr))
  /\ (StringNotAssigned E InProperty v ->
      ReadContainerEntry E b InProperty v r c i d pr = None
      /\ exists s,
           TryGetString E v = Some s
           /\ ReadStructEntry E b InProperty v r c d pr
              = Some (false, snd (AssignStringToPropertyDirect E s InProperty d),
                      pr ++ [StringNotAssignedProblem E InProperty s r c d]))
  /\ (IsContainerKind InProperty = false ->
      forall ok d1 pr1,
        ReadContainerEntry E b InProperty v r c i d pr = Some (ok, d1, pr1) ->
        exists pr2,
          ReadStructEntry E b InProperty v r c d pr = Some (ok, d1, pr2)
          /\ List.length pr2 = List.length pr1).
Proof.
  split; [apply ReadContainerEntry_container_kind|]. split.
  - intros H. split; [now apply ReadContainerEntry_not_assigned|].
    destruct H as [Hk (s & Hs & Hd)]. exists s. split; [exact Hs|].
    now apply ReadStructEntry_not_assigned.
  - intros HK ok d1 pr1. now apply ReadContainerEntry_as_ReadStructEntry.
Qed.

(** ** Fields of static arity greater than 1 *)

(** C8. A field of static arity [N > 1] whose JSON value is an array: when
    an entry below [N] is a string the field type refuses, the loop over
    the indices reaches the same call of [FString::Printf] and the body of
    the loop of [ReadStruct] has no result for the property; the indices
    after that entry are not decoded. *)
Theorem ReadProperty_static_array_no_result E b BaseProp o r slots pr vals j v :
  1 < ArrayDim (Field BaseProp) ->
  FindImportValue (GetPropertyImportNames (Field BaseProp)) o
    = Some (FJsonValueArray vals) ->
  nth_error vals j = Some v ->
  Z.of_nat j < ArrayDim (Field BaseProp) ->
  StringNotAssigned E BaseProp v ->
  ReadProperty E b (ReadStructEntry E b) (ReadContainerEntry E b) BaseProp o r slots pr
  = None.
Proof.
  intros HN Hfind Hj Hlt Hv. unfold ReadProperty. rewrite Hfind.
  replace (ArrayDim (Field BaseProp) =? 1) with false
    by (symmetry; apply Z.eqb_neq; lia).
  cbn [TryGetArray].
  rewrite (ReadStaticArray_no_result E BaseProp (ReadContainerEntry E b BaseProp) r
             (GetPropertyExportName (Field BaseProp))
             (fun v i d pr H => ReadContainerEntry_not_assigned E b BaseProp v r _ i d pr H)
             vals j v Hj Hv); [reflexivity|lia].
Qed.

(** ** The struct walker *)

Lemma ReadProperty_ReturnFalse E b SE CE BaseProp o r slots pr pr1 :
  ReadProperty E b SE CE BaseProp o r slots pr = Some (ReturnFalse, pr1) ->
  StopsReadStruct o BaseProp = true
  /\ pr1 = Add pr (IncorrectType
                     (PropertyOnRow (GetPropertyExportName (Field BaseProp)) r) "Array"
                     (JSONTypeToString
                        (match FindImportValue (GetPropertyImportNames (Field BaseProp)) o
                         with Some v => JsonType v | None => EJson_None end))).
Proof.
  unfold ReadProperty, StopsReadStruct.
  destruct (FindImportValue _ o) as [v|].
  - destruct (ArrayDim (Field BaseProp) =? 1); cbn [negb andb].
    + destruct (ReadSingleSlot E SE BaseProp v r _ _ pr) as [[d n]|]; discriminate.
    + destruct (TryGetArray v) as [vals|].
      * destruct (ReadStaticArray _ _ _ _ _ _ _ _ _) as [[s n]|]; discriminate.
      * intros H. injection H as <-. split; reflexivity.
  - destruct (WITH_EDITOR E && DataTableImportOptional (Field BaseProp));
      [|destruct (negb b)]; discriminate.
Qed.

Lemma ReadProperties_no_result E b (It : list FProperty) o r F Inner vals :
  In (FArrayProperty F Inner) It ->
  ArrayDim F = 1 ->
  FindImportValue (GetPropertyImportNames F) o = Some (FJsonValueArray vals) ->
  Exists (StringNotAssigned E Inner) vals ->
  existsb (StopsReadStruct o) It = false ->
  forall data pr,
    ReadProperties E b (ReadStructEntry E b) (ReadContainerEntry E b) It o r data pr
    = None.
Proof.
  intros Hin Hdim Hfind Hv.
  induction It as [|BaseProp It IH]; [destruct Hin|].
  cbn [existsb]. intros Hstop data pr. apply orb_false_elim in Hstop as [H1 H2].
  cbn [ReadProperties].
  destruct (ReadProperty E b _ _ BaseProp o r (hd [] data) pr) as [[[slots|] pr1]|] eqn:HP;
    [| |reflexivity].
  - destruct Hin as [->|Hin].
    + unfold ReadProperty, ReadSingleSlot in HP. cbn [Field] in HP.
      rewrite Hfind, Hdim in HP. cbn [Z.eqb Pos.eqb] in HP.
      rewrite ReadStructEntry_array in HP. cbn [TryGetArray] in HP.
      rewrite (ReadArrayValues_no_result E Inner) in HP; auto; [discriminate|].
      intros. now apply ReadContainerEntry_not_assigned.
    + now rewrite (IH Hin H2).
  - apply ReadProperty_ReturnFalse in HP as [HP _]. congruence.
Qed.

(** C5. A record type with an array-typed field of static arity 1 whose
    JSON value is an array with an entry that is a string the element type
    refuses, and with no field of static arity other than 1 given a value
    that is not an array: [ReadStruct] does not process all the fields and
    return true; the walk reaches the call of [FString::Printf] whose
    arguments do not fit its format and has no result. *)
Theorem ReadStruct_no_result E b n It o r d pr F Inner vals :
  In (FArrayProperty F Inner) It ->
  ArrayDim F = 1 ->
  FindImportValue (GetPropertyImportNames F) o = Some (FJsonValueArray vals) ->
  Exists (StringNotAssigned E Inner) vals ->
  existsb (StopsReadStruct o) It = false ->
  ReadStruct E b (MkScriptStruct n It) o r d pr = None.
Proof.
  intros Hin Hdim Hfind Hv Hstop. rewrite ReadStruct_eq.
  now rewrite (ReadProperties_no_result E b It o r F Inner vals).
Qed.

(** ** The row driver *)



(** ** The document driver *)

Lemma ReadTableRows_app E (rows1 rows2 : list FJsonValue) :
  forall RowIdx I,
    ReadTableRows E (rows1 ++ rows2) RowIdx I
    = match ReadTableRows E rows1 RowIdx I with
      | Some I1 => ReadTableRows E rows2 (RowIdx + Z.of_nat (List.length rows1)) I1
      | None => None
      end.
Proof.
  induction rows1 as [|v rows1 IH]; intros RowIdx I.
  - cbn. now rewrite Z.add_0_r.
  - cbn [app ReadTableRows List.length].
    replace (RowIdx + Z.of_nat (S (List.length rows1)))
      with (RowIdx + 1 + Z.of_nat (List.length rows1)) by lia.
    destruct (AsObject v) as [obj|].
    + destruct (ReadRow E obj RowIdx I) as [[ok I1]|]; [apply IH|reflexivity].
    + apply IH.
Qed.

(** C2, as the code has it. [ReadTable] returns false exactly when the input
    text is empty, the table has no [RowStruct], the reader fails on the
    text, or the array it reads has no element; no row makes it return
    false. *)
Theorem ReadTable_false_iff E I :
  (exists I', ReadTable E I = Some (false, I'))
  <-> IsEmpty (JSONData I) = true
      \/ RowStruct (DataTable I) = None
      \/ DeserializeArray E (JSONData I) = None
      \/ DeserializeArray E (JSONData I) = Some [].
Proof.
  unfold ReadTable.
  destruct (IsEmpty (JSONData I)); [split; [tauto|eauto]|].
  destruct (RowStruct (DataTable I)) as [Struct|]; [|split; [tauto|eauto]].
  destruct (DeserializeArray E (JSONData I)) as [[|v rows]|];
    [split; [tauto|cbn; eauto]| |split; [tauto|eauto]].
  cbn [List.length Nat.eqb].
  destruct (ReadTableRows E (v :: rows) 0 _) as [I1|]; split.
  - intros [I' H]. discriminate H.
  - intros [H|[H|[H|H]]]; discriminate.
  - intros [I' H]. discriminate H.
  - intros [H|[H|[H|H]]]; discriminate.
Qed.

(** C3. When the reader gives the rows [before ++ bad :: after] and [bad]
    is not an object, [AsObject] hands [ReadTable] the engine's empty
    object, a valid pointer: the test for an invalid one does not fire, the
    element is not skipped, and [ReadRow] is called on the empty object. It
    finds no key, adds its problem and returns false, and [ReadTable] adds
    the problem of a failed row: the element leaves two problems, neither
    of which says that it is not an object. The rows after it are then read
    and the call returns true. *)
Theorem ReadTable_non_object_row E I Struct before bad after I1 :
  let RowIdx := Z.of_nat (List.length before) in
  let I2 :=
    SetImporter I1 (DataTable I1)
      (ImportProblems I1
       ++ ["Row '" +++ itoa RowIdx +++ "' missing key field '"
           +++ GetKeyFieldName (DataTable I1) +++ "'.";
           "Failed to read row '" +++ itoa RowIdx +++ "'."]) in
  IsEmpty (JSONData I) = false ->
  RowStruct (DataTable I) = Some Struct ->
  DeserializeArray E (JSONData I) = Some (before ++ bad :: after) ->
  TryGetObject bad = None ->
  IsNone (MakeValidName E "") = true ->
  ReadTableRows E before 0
    (SetImporter I (EmptyTable (DataTable I)) (ImportProblems I)) = Some I1 ->
  ReadTableRows E [bad] RowIdx I1 = Some I2
  /\ ReadTable E I
     = option_map (pair true) (ReadTableRows E after (RowIdx + 1) I2).
Proof.
  intros RowIdx I2 HE HS HD Hbad Hnone Hbefore.
  assert (Hone : ReadTableRows E [bad] RowIdx I1 = Some I2).
  { cbn [ReadTableRows]. unfold AsObject. rewrite Hbad.
    unfold ReadRow, GetStringField. cbn [TryGetField]. rewrite Hnone.
    cbn [negb SetImporter DataTable ImportProblems JSONData]. subst I2.
    unfold Add, SetImporter. cbn [DataTable JSONData ImportProblems].
    now rewrite <- app_assoc. }
  split; [exact Hone|].
  unfold ReadTable. rewrite HE, HS, HD.
  replace (List.length (before ++ bad :: after) =? 0)%nat with false
    by (rewrite length_app; cbn [List.length]; symmetry; apply Nat.eqb_neq; lia).
  rewrite ReadTableRows_app, Hbefore. cbn [Z.add]. fold RowIdx.
  change (bad :: after) with ([bad] ++ after).
  rewrite ReadTableRows_app, Hone. cbn [List.length Z.of_nat Pos.of_succ_nat].
  destruct (ReadTableRows E after (RowIdx + 1) I2); reflexivity.
Qed.

(** ** The exporter *)

Lemma WriteCellValue_written E BaseProp Data w w' :
  WriteCellValue E BaseProp Data w = Some w' ->
  exists calls,
    Written w' = Written w ++ calls /\ Stack w' = Stack w
    /\ forallb IsCellCall calls = true.
Proof.
  assert (Hone : forall v,
             exists calls,
               Written (WriteValue (Some "value") v w) = Written w ++ calls
               /\ Stack (WriteValue (Some "value") v w) = Stack w
               /\ forallb IsCellCall calls = true).
  { intros v. exists [WrittenValue (Some "value") v]. repeat split. }
  assert (Hnone : exists calls,
             Written w = Written w ++ calls /\ Stack w = Stack w
             /\ forallb IsCellCall calls = true).
  { exists []. rewrite app_nil_r. repeat split. }
  unfold WriteCellValue. intros H.
  destruct BaseProp;
    repeat match type of H with
           | Some _ = Some _ => injection H as <-
           | None = Some _ => discriminate H
           | context [match ?x with _ => _ end] => destruct x
           end; auto.
Qed.

Section Path.

Variable E : FEngine.

Lemma PathAfter_absent (It : list FProperty) :
  Forall NotPath It ->
  forall RowData PathValue, (PathAfter E) It RowData PathValue = PathValue.
Proof.
  induction 1 as [|BaseProp It HP _ IH]; intros RowData PathValue; cbn [PathAfter].
  - reflexivity.
  - rewrite IH. unfold NotPath, IsPath in HP. now rewrite HP.
Qed.


Lemma WriteCells_written (It : list FProperty) :
  forall RowData PathValue bPathFound w w' PathValue' bPathFound',
    WriteCells E It RowData PathValue bPathFound w = Some (w', PathValue', bPathFound') ->
    exists cells,
      Written w' = Written w ++ cells /\ Stack w' = Stack w
      /\ forallb IsCellCall cells = true
      /\ PathValue' = (PathAfter E) It RowData PathValue
      /\ (bPathFound = true -> bPathFound' = true)
      /\ (bPathFound' = false -> Forall NotPath It).
Proof.
  induction It as [|BaseProp It IH];
    intros RowData PathValue bPathFound w w' PathValue' bPathFound' H;
    cbn [WriteCells PathAfter] in *.
  - injection H as <- <- <-. exists []. rewrite app_nil_r. repeat split; auto.
  - destruct (EqualsIgnoreCase (GetPropertyExportName (Field BaseProp)) "_path") eqn:Hp.
    + apply IH in H as (cells & H1 & H2 & H3 & H4 & H5 & H6).
      exists cells. repeat split; auto.
      intros Hf. rewrite (H5 eq_refl) in Hf. discriminate.
    + destruct (ArrayDim (Field BaseProp) =? 1).
      * destruct (WriteCellValue E BaseProp _ _) as [w1|] eqn:Hc; [|discriminate].
        apply WriteCellValue_written in Hc as (calls & C1 & C2 & C3).
        apply IH in H as (cells & H1 & H2 & H3 & H4 & H5 & H6).
        exists ([ObjectStart;
                 WrittenValue (Some "columnId")
                   (JString (GetPropertyExportName (Field BaseProp)))]
                ++ calls ++ [ObjectEnd] ++ cells).
        cbn [WriteObjectEnd WriteValue WriteObjectStart Written Stack] in *.
        rewrite H1, C1, H2, C2. cbn [tl]. repeat split; auto.
        -- now rewrite <- !app_assoc.
        -- cbn [app forallb IsCellCall]. rewrite forallb_app, C3. cbn [forallb IsCellCall].
           rewrite H3, Hp. reflexivity.
      * apply IH in H as (cells & H1 & H2 & H3 & H4 & H5 & H6).
        exists cells. repeat split; auto.
Qed.

End Path.


Lemma WriteRow_written E Struct RowName RowData w w' :
  WriteRow E Struct RowName RowData w = Some w' ->
  exists cells,
    Written w'
    = Written w
      ++ [ObjectStart; WrittenValue (Some "id") (JString RowName);
          ArrayStart (Some "cells")]
      ++ cells
      ++ [ArrayEnd;
          WrittenValue (Some "path")
            (JString (PathAfter E (TFieldIterator Struct) (StructSlots RowData) ""));
          ObjectEnd]
    /\ forallb IsCellCall cells = true
    /\ Stack w' = Stack w.
Proof.
  intros H. unfold WriteRow in H.
  destruct (WriteCells E (TFieldIterator Struct) (StructSlots RowData) "" false _)
    as [[[w2 PathValue] bPathFound]|] eqn:Hc; [|discriminate].
  apply WriteCells_written in Hc as (cells & H1 & H2 & H3 & H4 & H5 & H6).
  injection H as <-.
  set (path := PathAfter E (TFieldIterator Struct) (StructSlots RowData) "").
  assert (Hpath : (if bPathFound then JString PathValue else JString "") = JString path).
  { destruct bPathFound; [now rewrite H4|].
    subst path. now rewrite PathAfter_absent by auto. }
  exists cells.
  replace (if bPathFound
           then WriteValue (Some "path") (JString PathValue) (WriteArrayEnd w2)
           else WriteValue (Some "path") (JString "") (WriteArrayEnd w2))
    with (WriteValue (Some "path")
            (if bPathFound then JString PathValue else JString "")
            (WriteArrayEnd w2)) by now destruct bPathFound.
  rewrite Hpath.
  cbn [WriteObjectEnd WriteValue WriteArrayEnd WriteArrayStart WriteObjectStart
       Written Stack tl] in *.
  rewrite H1, H2. cbn [tl]. repeat split; [|exact H3].
  now rewrite <- !app_assoc.
Qed.

Lemma WriteRows_written E GridlyDataTable Struct Keys (count : nat) :
  forall i w w',
    WriteRows E GridlyDataTable Struct Keys count i w = Some w' ->
    exists rows,
      Written w' = Written w ++ List.concat rows
      /\ Forall2 (RowShape E GridlyDataTable Struct)
           (map (fun k => nth k Keys "") (seq i count)) rows
      /\ Stack w' = Stack w.
Proof.
  induction count as [|count IH]; intros i w w' H; cbn [WriteRows] in H.
  - injection H as <-. exists []. cbn. rewrite app_nil_r. repeat split. constructor.
  - destruct (WriteRow E Struct _ _ w) as [w1|] eqn:Hr; [|discriminate].
    apply WriteRow_written in Hr as (cells & R1 & R2 & R3).
    apply IH in H as (rows & H1 & H2 & H3).
    match type of R1 with
    | _ = _ ++ ?row => exists (row :: rows)
    end.
    cbn [List.concat seq map]. rewrite H1, R1, H3, R3. repeat split.
    + now rewrite <- !app_assoc.
    + constructor; [|exact H2]. exists cells. split; [reflexivity|exact R2].
Qed.

Lemma last_Some_app {A : Type} (l : list A) (x : A) :
  last (map Some (l ++ [x])) None = Some x.
Proof.
  rewrite map_app. cbn [map]. induction (map Some l) as [|y m IH]; [reflexivity|].
  cbn [app last]. destruct (m ++ [Some x]) eqn:Hm; [now destruct m|exact IH].
Qed.



(** C1, as the code has it. When the table has a [RowStruct] and
    [StartIndex] is at least the number of rows, [ConvertToJson] returns
    false and has written no row object. *)
Theorem ConvertToJson_start_past_end E GridlyDataTable Struct StartIndex MaxSize :
  RowStruct GridlyDataTable = Some Struct ->
  Z.of_nat (List.length (RowMap GridlyDataTable)) <= StartIndex ->
  exists out,
    ConvertToJson E GridlyDataTable StartIndex MaxSize = Some (false, out)
    /\ ~ In ObjectStart out.
Proof.
  intros HS Hstart. unfold ConvertToJson. rewrite HS, length_map.
  replace (StartIndex <? Z.of_nat (List.length (RowMap GridlyDataTable))) with false
    by (symmetry; apply Z.ltb_ge; exact Hstart).
  eexists. split; [reflexivity|].
  cbn. intros [H|[]]. discriminate.
Qed.

(** * Further results *)

(** ** What [ReadRow] does to the table *)

Lemma DetectExtraFields_eq E Struct RowKey RowName (Values : list (string * FJsonValue)) :
  forall pr,
    DetectExtraFields E Struct RowKey RowName Values pr
    = pr ++ map (ExtraFieldProblem E Struct RowName)
              (filter (IsExtraField E Struct RowKey) Values).
Proof.
  induction Values as [|[k v] Values IH]; intros pr; cbn [DetectExtraFields filter map].
  - now rewrite app_nil_r.
  - unfold IsExtraField at 1. cbn [fst].
    destruct (EqualsIgnoreCase k RowKey); cbn [negb andb]; [apply IH|].
    rewrite IH.
    destruct (FindFProperty Struct (MakeValidName E k) || _); cbn [negb map];
      [reflexivity|].
    unfold Add, ExtraFieldProblem. cbn [fst]. now rewrite <- app_assoc.
Qed.

(** When [ReadRow] returns, it has either rejected the row and left the
    table alone, or allocated one record at the next address, registered it
    under the row name and written to that record only. *)
Lemma ReadRow_cases E obj idx I ok I' :
  ReadRow E obj idx I = Some (ok, I') ->
  let T := DataTable I in
  let RowName := RowNameOf E T obj in
  (ok = false /\ DataTable I' = T
   /\ exists msg, ImportProblems I' = ImportProblems I ++ [msg])
  \/ (exists Struct d,
        RowStruct T = Some Struct
        /\ IsNone RowName = false
        /\ (AllowDuplicateRowsOnImport T = false -> Find RowName (RowMap T) = None)
        /\ DataTable I'
           = StoreRow (List.length (Memory T)) d
               (AddRowInternal RowName (List.length (Memory T))
                  (snd (MallocRow Struct T)))).
Proof.
  intros H T RowName. unfold ReadRow in H. fold T in H.
  fold (RowNameOf E T obj) in H. fold RowName in H.
  destruct (IsNone RowName) eqn:Hnone.
  { injection H as <- <-. left. cbn. repeat split. eexists; reflexivity. }
  destruct (negb (AllowDuplicateRowsOnImport T)
            && match Find RowName (RowMap T) with Some _ => true | None => false end)
    eqn:Hdup.
  { injection H as <- <-. left. cbn. repeat split. eexists; reflexivity. }
  destruct (RowStruct T) as [Struct|] eqn:HS; [|discriminate].
  right. cbn [MallocRow] in H.
  destruct (ReadStruct E _ Struct obj RowName _ _) as [[[ok' d] pr2]|]; [|discriminate].
  injection H as <- <-.
  exists Struct, d. cbn [snd DataTable SetImporter MallocRow]. repeat split.
  intros Hallow. rewrite Hallow in Hdup. cbn [negb andb] in Hdup.
  now destruct (Find RowName (RowMap T)).
Qed.

(** A property of the importer that every step of the row loop keeps holds
    after the loop, when the loop returns. *)
Lemma ReadTableRows_invariant E (P : FGridlyDataTableImporterJSON -> Prop)
    (All : list FJsonValue) :
  (forall I msg, P I -> P (SetImporter I (DataTable I) (Add (ImportProblems I) msg))) ->
  (forall I v obj idx ok I',
     In v All -> AsObject v = Some obj -> P I ->
     ReadRow E obj idx I = Some (ok, I') -> P I') ->
  forall rows, incl rows All ->
  forall idx I I', P I -> ReadTableRows E rows idx I = Some I' -> P I'.
Proof.
  intros Hadd Hrow.
  induction rows as [|v rows IH]; intros Hincl idx I I' HP H; cbn [ReadTableRows] in H.
  { now injection H as <-. }
  assert (Hv : In v All) by (apply Hincl; now left).
  assert (Hrest : incl rows All) by (intros x Hx; apply Hincl; now right).
  destruct (AsObject v) as [obj|] eqn:Hobj.
  - destruct (ReadRow E obj idx I) as [[ok I1]|] eqn:HR; [|discriminate].
    pose proof (Hrow I v obj idx ok I1 Hv Hobj HP HR) as H1.
    apply (IH Hrest _ _ _) in H; [exact H|].
    destruct ok; cbn [negb]; [exact H1|now apply Hadd].
  - apply (IH Hrest _ _ _) in H; [exact H|]. now apply Hadd.
Qed.

(** ** The row map *)

Lemma In_MapAdd (Key : FName) (Value : nat) (m : list (FName * nat)) x :
  In x (MapAdd Key Value m) -> In x m \/ x = (Key, Value).
Proof.
  induction m as [|[k v] m IH]; cbn [MapAdd].
  - intros [<-|[]]. now right.
  - destruct (EqualsIgnoreCase k Key) eqn:Hk.
    + intros [<-|H]; [now right|left; now right].
    + intros [<-|H]; [left; now left|].
      destruct (IH H) as [H1|H1]; [left; now right|now right].
Qed.

Lemma MapAdd_new (Key : FName) (Value : nat) (m : list (FName * nat)) :
  Find Key m = None -> MapAdd Key Value m = m ++ [(Key, Value)].
Proof.
  induction m as [|[k v] m IH]; cbn [Find MapAdd app]; [reflexivity|].
  destruct (EqualsIgnoreCase k Key); [discriminate|]. intros H. now rewrite IH.
Qed.

Lemma Find_app_Some (Key : FName) (m m' : list (FName * nat)) a :
  Find Key m = Some a -> Find Key (m ++ m') = Some a.
Proof.
  induction m as [|[k v] m IH]; cbn [Find app]; [discriminate|].
  destruct (EqualsIgnoreCase k Key); auto.
Qed.

Lemma Find_None_keys (Key : FName) (m : list (FName * nat)) :
  Find Key m = None -> ~ In (ToLowerString Key) (map (fun ka => ToLowerString (fst ka)) m).
Proof.
  induction m as [|[k v] m IH]; cbn [Find map In fst]; [tauto|].
  destruct (EqualsIgnoreCase k Key) eqn:Hk; [discriminate|].
  intros H [Heq|Hin]; [|now apply IH].
  apply EqualsIgnoreCase_eq in Heq. congruence.
Qed.

Lemma MapAdd_keys (Key : FName) (Value : nat) (m : list (FName * nat)) :
  map (fun ka => ToLowerString (fst ka)) (MapAdd Key Value m)
  = match Find Key m with
    | Some _ => map (fun ka => ToLowerString (fst ka)) m
    | None => map (fun ka => ToLowerString (fst ka)) m ++ [ToLowerString Key]
    end.
Proof.
  induction m as [|[k v] m IH]; cbn [MapAdd Find map fst app]; [reflexivity|].
  destruct (EqualsIgnoreCase k Key) eqn:Hk; cbn [map fst].
  - apply EqualsIgnoreCase_eq in Hk. now rewrite Hk.
  - rewrite IH. now destruct (Find Key m).
Qed.

Lemma MapAdd_keys_NoDup (Key : FName) (Value : nat) (m : list (FName * nat)) :
  NoDup (map (fun ka => ToLowerString (fst ka)) m) ->
  NoDup (map (fun ka => ToLowerString (fst ka)) (MapAdd Key Value m)).
Proof.
  intros H. rewrite MapAdd_keys. destruct (Find Key m) eqn:HF; [exact H|].
  apply NoDup_app; repeat split; auto.
  - constructor; [intros []|constructor].
  - intros x Hx [<-|[]]. now apply (Find_None_keys Key m HF).
Qed.

Lemma MapAdd_values_NoDup (Key : FName) (Value : nat) (m : list (FName * nat)) :
  ~ In Value (map snd m) -> NoDup (map snd m) -> NoDup (map snd (MapAdd Key Value m)).
Proof.
  induction m as [|[k v] m IH]; cbn [MapAdd map snd In]; intros Hnew H.
  - constructor; [intros []|constructor].
  - inversion H as [|? ? Hv Hm]; subst.
    destruct (EqualsIgnoreCase k Key) eqn:Hkk; cbn [map snd].
    + constructor; [tauto|exact Hm].
    + constructor; [|apply IH; tauto].
      intros Hin. apply in_map_iff in Hin as ([k' v'] & <- & Hin).
      apply In_MapAdd in Hin as [Hin|Hin].
      * apply Hv. apply in_map_iff. now exists (k', v').
      * injection Hin as -> ->. cbn [snd] in Hnew. tauto.
Qed.

Lemma nth_error_ListSetAt_last {A : Type} (l : list A) (x y : A) (i : nat) :
  (i < List.length l)%nat ->
  nth_error (ListSetAt (List.length l) y (l ++ [x])) i = nth_error l i.
Proof.
  intros H. rewrite ListSetAt_app_last. now apply nth_error_app1.
Qed.

(** What a step of [ReadRow] keeps of [RowsAllocated]. *)
Lemma ReadRow_RowsAllocated E obj idx I ok I' :
  ReadRow E obj idx I = Some (ok, I') ->
  RowsAllocated (DataTable I) -> RowsAllocated (DataTable I').
Proof.
  intros HR (HF & HK & HV).
  destruct (ReadRow_cases E obj idx I ok I' HR)
    as [(_ & -> & _)|(Struct & d & HS & Hnone & _ & ->)];
    try (repeat split; assumption).
  unfold RowsAllocated.
  cbn [StoreRow AddRowInternal MallocRow snd SetTable RowMap Memory].
  assert (Hlen : List.length (ListSetAt (List.length (Memory (DataTable I))) d
                                (Memory (DataTable I) ++ [InitializeStruct Struct]))
                 = S (List.length (Memory (DataTable I)))).
  { rewrite ListSetAt_length, length_app. cbn. lia. }
  rewrite Hlen. repeat split.
  - apply Forall_forall. intros x Hx. apply In_MapAdd in Hx as [Hx| ->].
    + rewrite Forall_forall in HF. destruct (HF x Hx). split; [assumption|lia].
    + cbn [fst snd]. split; [exact Hnone|lia].
  - now apply MapAdd_keys_NoDup.
  - apply MapAdd_values_NoDup; [|exact HV].
    intros Hin. apply in_map_iff in Hin as (x & Hx1 & Hx2).
    rewrite Forall_forall in HF. destruct (HF x Hx2). lia.
Qed.

Lemma ReadTable_true E I I' :
  ReadTable E I = Some (true, I') ->
  exists rows,
    DeserializeArray E (JSONData I) = Some rows
    /\ ReadTableRows E rows 0
         (SetImporter I (EmptyTable (DataTable I)) (ImportProblems I)) = Some I'.
Proof.
  unfold ReadTable.
  destruct (IsEmpty (JSONData I)); [discriminate|].
  destruct (RowStruct (DataTable I)); [|discriminate].
  destruct (DeserializeArray E (JSONData I)) as [rows|]; [|discriminate].
  destruct (List.length rows =? 0)%nat; [discriminate|].
  destruct (ReadTableRows E rows 0 _) as [I1|] eqn:HR; [|discriminate].
  intros H. injection H as <-. now exists rows.
Qed.

(** X1. After a successful import every row of the table has a name that
    is not [NAME_None] and the address of an allocated record, no two rows
    have the same name, in whatever case its letters are, and no two rows
    share a record. *)
Theorem ReadTable_rows_allocated E I I' :
  ReadTable E I = Some (true, I') -> RowsAllocated (DataTable I').
Proof.
  intros H. apply ReadTable_true in H as (rows & _ & H).
  apply (ReadTableRows_invariant E (fun J => RowsAllocated (DataTable J)) rows) in H;
    [exact H| | |apply incl_refl|].
  - intros J msg HJ. exact HJ.
  - intros J v obj idx ok J' _ _ HJ HR. now apply (ReadRow_RowsAllocated E obj idx J ok J').
  - cbn. repeat split; constructor.
Qed.

(** X2. When duplicate row names are not allowed, a successful import
    leaves as many records allocated as the table has rows: no record is
    allocated for a row that is rejected, and none is left without a row. *)
Theorem ReadTable_no_unreachable_record E I I' :
  AllowDuplicateRowsOnImport (DataTable I) = false ->
  ReadTable E I = Some (true, I') ->
  List.length (Memory (DataTable I')) = List.length (RowMap (DataTable I')).
Proof.
  intros Hallow H. apply ReadTable_true in H as (rows & _ & H).
  apply (ReadTableRows_invariant E
           (fun J => AllowDuplicateRowsOnImport (DataTable J) = false
                     /\ List.length (Memory (DataTable J))
                        = List.length (RowMap (DataTable J))) rows) in H;
    [exact (proj2 H)| | |apply incl_refl|].
  - intros J msg HJ. exact HJ.
  - intros J v obj idx ok J' _ _ [H1 H2] HR.
    destruct (ReadRow_cases E obj idx J ok J' HR)
      as [(_ & -> & _)|(Struct & d & HS & Hnone & Hfind & ->)];
      try (split; assumption).
    cbn [StoreRow AddRowInternal MallocRow snd SetTable RowMap Memory
         AllowDuplicateRowsOnImport].
    split; [exact H1|].
    rewrite (MapAdd_new _ _ _ (Hfind H1)), ListSetAt_length, !length_app, H2.
    reflexivity.
  - cbn. split; [exact Hallow|reflexivity].
Qed.

(** X3. When duplicate row names are not allowed, a row that is in the
    table keeps its record whatever elements the loop of [ReadTable] reads
    after it: of two elements with the same row name the first one stays. *)
Theorem ReadTableRows_keeps_rows E rows idx I I' RowName Record :
  AllowDuplicateRowsOnImport (DataTable I) = false ->
  FindRow (DataTable I) RowName = Some Record ->
  ReadTableRows E rows idx I = Some I' ->
  FindRow (DataTable I') RowName = Some Record.
Proof.
  intros Hallow Hrow H.
  apply (ReadTableRows_invariant E
           (fun J => AllowDuplicateRowsOnImport (DataTable J) = false
                     /\ FindRow (DataTable J) RowName = Some Record) rows) in H;
    [exact (proj2 H)| | |apply incl_refl|now split].
  - intros J msg HJ. exact HJ.
  - intros J v obj idx' ok J' _ _ [H1 H2] HR.
    destruct (ReadRow_cases E obj idx' J ok J' HR)
      as [(_ & -> & _)|(Struct & d & HS & Hnone & Hfind & ->)];
      try (split; assumption).
    cbn [StoreRow AddRowInternal MallocRow snd SetTable AllowDuplicateRowsOnImport].
    split; [exact H1|].
    specialize (Hfind H1). unfold FindRow in *.
    cbn [StoreRow AddRowInternal SetTable RowMap Memory].
    destruct (Find RowName (RowMap (DataTable J))) as [a|] eqn:Ha; [|discriminate].
    rewrite (MapAdd_new _ _ _ Hfind), (Find_app_Some _ _ _ _ Ha).
    rewrite nth_error_ListSetAt_last; [exact H2|].
    apply nth_error_Some. congruence.
Qed.

Lemma ReadRow_SameAfter E obj idx I I0 pr :
  SameAfter pr I I0 ->
  match ReadRow E obj idx I0 with
  | Some (ok, J0) =>
      exists J, ReadRow E obj idx I = Some (ok, J) /\ SameAfter pr J J0
  | None => ReadRow E obj idx I = None
  end.
Proof.
  destruct I as [T J p], I0 as [T0 J0 p0]. unfold SameAfter.
  cbn [DataTable JSONData ImportProblems]. intros (-> & -> & ->).
  unfold ReadRow. cbn [DataTable ImportProblems JSONData SetImporter].
  destruct (IsNone _).
  { eexists. split; [reflexivity|]. cbn. unfold Add. now rewrite app_assoc. }
  destruct (negb _ && _).
  { eexists. split; [reflexivity|]. cbn. unfold Add. now rewrite app_assoc. }
  destruct (RowStruct T0) as [Struct|]; [|reflexivity].
  cbn [MallocRow AddRowInternal SetTable bIgnoreMissingFields RowMap Memory].
  set (q0 := if negb (bIgnoreExtraFields T0) then _ else p0).
  match goal with
  | |- context [if negb (bIgnoreExtraFields T0) then ?x else pr ++ p0] =>
      replace (if negb (bIgnoreExtraFields T0) then x else pr ++ p0) with (pr ++ q0)
  end.
  2:{ subst q0. destruct (negb (bIgnoreExtraFields T0)); [|reflexivity].
      now rewrite !DetectExtraFields_eq, app_assoc. }
  match goal with
  | |- context [ReadStruct ?e ?b ?s ?o ?r ?d (pr ++ q0)] =>
      rewrite (ReadStruct_frame e b s o r d (pr ++ q0)),
              (ReadStruct_frame e b s o r d q0);
      destruct (ReadStruct e b s o r d []) as [[[ok d'] n]|]
  end; cbn [option_map fst snd]; [|reflexivity].
  eexists. split; [reflexivity|]. cbn. now rewrite app_assoc.
Qed.

Lemma ReadTableRows_SameAfter E (rows : list FJsonValue) pr :
  forall idx I I0,
    SameAfter pr I I0 ->
    match ReadTableRows E rows idx I0 with
    | Some J0 => exists J, ReadTableRows E rows idx I = Some J /\ SameAfter pr J J0
    | None => ReadTableRows E rows idx I = None
    end.
Proof.
  induction rows as [|v rows IH]; intros idx I I0 H; cbn [ReadTableRows].
  { now exists I. }
  assert (Hadd : forall I I0 msg,
             SameAfter pr I I0 ->
             SameAfter pr (SetImporter I (DataTable I) (Add (ImportProblems I) msg))
               (SetImporter I0 (DataTable I0) (Add (ImportProblems I0) msg))).
  { intros J J0 msg (H1 & H2 & H3). unfold SameAfter, Add. cbn.
    rewrite H3, app_assoc. auto. }
  destruct (AsObject v) as [obj|].
  - pose proof (ReadRow_SameAfter E obj idx I I0 pr H) as HR.
    destruct (ReadRow E obj idx I0) as [[ok J0]|].
    + destruct HR as (J & -> & HS). apply IH. destruct ok; cbn [negb]; auto.
    + now rewrite HR.
  - apply IH. now apply Hadd.
Qed.

(** X4. What [ReadTable] returns, the table it leaves and the problems it
    adds do not depend on the problems the array held before the call, and
    those problems are still there, in the same order, before the ones the
    call adds; the call has a result from one array when it has one from
    the other. *)
Theorem ReadTable_ignores_earlier_problems E I pr :
  let I0 := SetImporter I (DataTable I) [] in
  let I1 := SetImporter I (DataTable I) pr in
  match ReadTable E I0 with
  | Some (ok, J0) =>
      exists J1,
        ReadTable E I1 = Some (ok, J1)
        /\ DataTable J1 = DataTable J0
        /\ ImportProblems J1 = pr ++ ImportProblems J0
  | None => ReadTable E I1 = None
  end.
Proof.
  intros I0 I1. subst I0 I1. unfold ReadTable.
  cbn [JSONData DataTable ImportProblems SetImporter].
  destruct (IsEmpty (JSONData I)).
  { eexists. split; [reflexivity|]. cbn. auto. }
  destruct (RowStruct (DataTable I)).
  2:{ eexists. split; [reflexivity|]. cbn. auto. }
  destruct (DeserializeArray E (JSONData I)) as [rows|].
  2:{ eexists. split; [reflexivity|]. cbn. auto. }
  destruct (List.length rows =? 0)%nat.
  { eexists. split; [reflexivity|]. cbn. auto. }
  pose proof (ReadTableRows_SameAfter E rows pr 0
                {| DataTable := EmptyTable (DataTable I); JSONData := JSONData I;
                   ImportProblems := pr |}
                {| DataTable := EmptyTable (DataTable I); JSONData := JSONData I;
                   ImportProblems := [] |}) as H.
  unfold SetImporter. cbn [DataTable JSONData ImportProblems].
  destruct (ReadTableRows E rows 0
              {| DataTable := EmptyTable (DataTable I); JSONData := JSONData I;
                 ImportProblems := [] |}) as [J0|].
  - destruct H as (J & -> & H1 & _ & H3).
    + unfold SameAfter. cbn. now rewrite app_nil_r.
    + exists J. auto.
  - rewrite H; [reflexivity|]. unfold SameAfter. cbn. now rewrite app_nil_r.
Qed.

(** X5. An import that fails leaves the table as it was. After one that
    succeeds, every row of the table was named by an element of the
    document: the rows the table held before are gone. *)
Theorem ReadTable_rows_from_document E I :
  (forall I', ReadTable E I = Some (false, I') -> DataTable I' = DataTable I)
  /\ (forall I',
        ReadTable E I = Some (true, I') ->
        forall RowName,
          In RowName (map fst (RowMap (DataTable I'))) ->
          exists rows v obj,
            DeserializeArray E (JSONData I) = Some rows
            /\ In v rows /\ AsObject v = Some obj
            /\ RowName = RowNameOf E (DataTable I) obj).
Proof.
  split.
  - intros I'. unfold ReadTable.
    destruct (IsEmpty (JSONData I)); [intros H; now injection H as <-|].
    destruct (RowStruct (DataTable I)); [|intros H; now injection H as <-].
    destruct (DeserializeArray E (JSONData I)) as [rows|];
      [|intros H; now injection H as <-].
    destruct (List.length rows =? 0)%nat; [intros H; now injection H as <-|].
    destruct (ReadTableRows E rows 0 _); discriminate.
  - intros I' H. apply ReadTable_true in H as (rows & HD & H).
    apply (ReadTableRows_invariant E
             (fun J => ImportKeyField (DataTable J) = ImportKeyField (DataTable I)
                       /\ forall RowName,
                            In RowName (map fst (RowMap (DataTable J))) ->
                            exists v obj,
                              In v rows /\ AsObject v = Some obj
                              /\ RowName = RowNameOf E (DataTable I) obj) rows) in H;
      [| | |apply incl_refl|].
    + intros RowName Hin. destruct (proj2 H RowName Hin) as (v & obj & H1 & H2 & H3).
      now exists rows, v, obj.
    + intros J msg HP. exact HP.
    + intros J v obj idx ok J' Hv Hobj [HK HP] HR.
      destruct (ReadRow_cases E obj idx J ok J' HR)
        as [(_ & -> & _)|(Struct & d & HS & Hnone & Hfind & ->)];
        try (split; assumption).
      cbn [StoreRow AddRowInternal MallocRow snd SetTable RowMap ImportKeyField].
      split; [exact HK|].
      intros RowName Hin. apply in_map_iff in Hin as ([k a] & <- & Hin).
      apply In_MapAdd in Hin as [Hin|Hin].
      * apply HP. apply in_map_iff. now exists (k, a).
      * injection Hin as -> _. exists v, obj. repeat split; [exact Hv|exact Hobj|].
        unfold RowNameOf, GetKeyFieldName. now rewrite HK.
    + cbn. split; [reflexivity|intros ? []].
Qed.

(** ** Members without a property, properties without a member *)

(** X6. For a row that passes the key and the duplicate checks, what
    [ReadRow] adds to the problem array is one problem for each member of
    the row object that is not the key and that no property is named after
    or imported from, in document order (none when extra fields are
    ignored), followed by the problems of the struct walk on a default
    record; names are compared without regard to case. [ReadRow] has no
    result exactly when the walk has none. *)
Theorem ReadRow_extra_fields E obj idx I Struct :
  let T := DataTable I in
  let RowName := RowNameOf E T obj in
  RowStruct T = Some Struct ->
  IsNone RowName = false ->
  AllowDuplicateRowsOnImport T = true \/ Find RowName (RowMap T) = None ->
  match
    ReadStruct E (bIgnoreMissingFields T) Struct obj RowName (InitializeStruct Struct) []
  with
  | Some (ok, d, n) =>
      exists I',
        ReadRow E obj idx I = Some (ok, I')
        /\ ImportProblems I'
           = ImportProblems I
             ++ (if bIgnoreExtraFields T then []
                 else map (ExtraFieldProblem E Struct RowName)
                        (filter (IsExtraField E Struct (GetKeyFieldName T)) obj))
             ++ n
  | None => ReadRow E obj idx I = None
  end.
Proof.
  intros T RowName HS Hnone Hdup. unfold ReadRow. fold T.
  fold (RowNameOf E T obj). fold RowName. rewrite Hnone, HS.
  assert (Hd : negb (AllowDuplicateRowsOnImport T)
               && match Find RowName (RowMap T) with Some _ => true | None => false end
               = false).
  { destruct Hdup as [-> | ->]; [reflexivity|apply andb_false_r]. }
  rewrite Hd.
  cbn [MallocRow AddRowInternal SetTable bIgnoreMissingFields RowMap Memory].
  rewrite nth_app_last.
  match goal with
  | |- context [ReadStruct ?e ?b ?s ?o ?r ?d (if ?c then ?x else ?y)] =>
      rewrite (ReadStruct_frame e b s o r d (if c then x else y))
  end.
  destruct (ReadStruct E (bIgnoreMissingFields T) Struct obj RowName
              (InitializeStruct Struct) []) as [[[ok d] n]|];
    cbn [option_map fst snd]; [|reflexivity].
  eexists. split; [reflexivity|]. cbn [ImportProblems SetImporter].
  destruct (bIgnoreExtraFields T); cbn [negb app].
  - reflexivity.
  - now rewrite DetectExtraFields_eq, <- app_assoc.
Qed.

Lemma ReadProperties_missing E b SE CE (It : list FProperty) o r :
  Forall (fun P => FindImportValue (GetPropertyImportNames (Field P)) o = None) It ->
  forall slots pr,
    List.length slots = List.length It ->
    ReadProperties E b SE CE It o r slots pr
    = Some (true, slots,
            pr ++ map (MissingEntryProblem r) (filter (ReportedWhenMissing E b) It)).
Proof.
  induction 1 as [|BaseProp It HP _ IH]; intros [|s slots] pr Hlen;
    try discriminate; cbn [ReadProperties filter map].
  - now rewrite app_nil_r.
  - unfold ReadProperty. rewrite HP. cbn [hd tl].
    assert (Hl : List.length slots = List.length It) by now injection Hlen.
    unfold ReportedWhenMissing at 1.
    destruct (WITH_EDITOR E && DataTableImportOptional (Field BaseProp));
      cbn [negb andb]; [now rewrite IH|].
    destruct b; cbn [negb]; rewrite IH by exact Hl; [reflexivity|].
    cbn [map]. unfold Add, MissingEntryProblem. now rewrite <- app_assoc.
Qed.

(** X7. When the object has no member for any import name of any property
    of the struct, whatever the case of the letters, [ReadStruct] returns
    true, leaves the record as it was and adds one problem for each
    property, in declaration order, that is not marked optional for import;
    it adds none when missing fields are ignored. *)
Theorem ReadStruct_missing_fields E b n It o r slots pr :
  Forall (fun P => FindImportValue (GetPropertyImportNames (Field P)) o = None) It ->
  List.length slots = List.length It ->
  ReadStruct E b (MkScriptStruct n It) o r (VStruct slots) pr
  = Some (true, VStruct slots,
          pr ++ map (MissingEntryProblem r) (filter (ReportedWhenMissing E b) It)).
Proof.
  intros HF Hlen. rewrite ReadStruct_eq. cbn [StructSlots].
  now rewrite (ReadProperties_missing E b _ _ It o r HF slots pr Hlen).
Qed.

(** ** Failures and the problem array *)

Ltac logged_scalar :=
  repeat match goal with
         | |- context [match ?x with _ => _ end] =>
             match x with
             | context [match _ with _ => _ end] => fail 1
             | _ => destruct x eqn:?
             end
         end;
  let H := fresh "H" in
  intros H; try discriminate H; injection H as <- <-;
  unfold Add; rewrite length_app; cbn [List.length]; lia.

Lemma Frame_length {A : Type} (f : Problems -> option (A * Problems)) pr x pr1 :
  Frame f -> f pr = Some (x, pr1) -> (List.length pr <= List.length pr1)%nat.
Proof.
  intros HF H. destruct (Frame_Some f pr x pr1 HF H) as (n & _ & ->).
  rewrite length_app. lia.
Qed.

Lemma ReadProperties_failure_logged E b SE CE (It : list FProperty) o r :
  Forall (EntryFrames SE CE) It ->
  forall data pr d' pr',
    ReadProperties E b SE CE It o r data pr = Some (false, d', pr') ->
    (List.length pr < List.length pr')%nat.
Proof.
  induction 1 as [|BaseProp It HF _ IH]; intros data pr d' pr'; cbn [ReadProperties].
  - discriminate.
  - destruct (ReadProperty E b SE CE BaseProp o r (hd [] data) pr)
      as [[[slots|] pr1]|] eqn:HP; [| |discriminate].
    + apply (Frame_length _ pr _ pr1 (ReadProperty_frame E b SE CE BaseProp o r _ HF))
        in HP.
      destruct (ReadProperties E b SE CE It o r (tl data) pr1) as [[[ok d] pr2]|] eqn:HR;
        [|discriminate].
      intros H. injection H as -> _ <-. apply IH in HR. lia.
    + apply ReadProperty_ReturnFalse in HP as [_ ->].
      intros H. injection H as _ <-. unfold Add. rewrite length_app. cbn. lia.
Qed.

Lemma ReadStruct_failure_logged E b Struct o r d pr d' pr' :
  ReadStruct E b Struct o r d pr = Some (false, d', pr') ->
  (List.length pr < List.length pr')%nat.
Proof.
  destruct Struct as [n It]. rewrite ReadStruct_eq.
  destruct (ReadProperties _ _ _ _ _ _ _ _ _) as [[[ok d1] pr1]|] eqn:HR; [|discriminate].
  intros H. injection H as -> _ <-.
  apply (ReadProperties_failure_logged E b (ReadStructEntry E b)
           (ReadContainerEntry E b) It o r
           (proj2 (Forall_forall _ _) (fun x _ => proj1 (Walker_frame E b) x))) in HR.
  exact HR.
Qed.

Lemma ReadContainerEntry_failure_logged E b InProperty v r c i d pr d' pr' :
  IsContainerKind InProperty = false ->
  ReadContainerEntry E b InProperty v r c i d pr = Some (false, d', pr') ->
  (List.length pr < List.length pr')%nat.
Proof.
  intros HK. destruct InProperty; try discriminate HK.
  - cbn. logged_scalar.
  - cbn. logged_scalar.
  - cbn. logged_scalar.
  - destruct v; try (cbn; logged_scalar).
    rewrite ReadContainerEntry_struct_object. apply ReadStruct_failure_logged.
  - cbn. logged_scalar.
Qed.

Lemma ReadMapValues_failure_logged E EntryProp CE KeyProp r c :
  (forall v i d, Frame (CE v r c i d)) ->
  (forall v i d pr d' pr',
     CE v r c i d pr = Some (false, d', pr') -> (List.length pr < List.length pr')%nat) ->
  forall kvs m pr m' pr',
    ReadMapValues E EntryProp CE KeyProp r c kvs m pr = Some (false, m', pr') ->
    (List.length pr < List.length pr')%nat.
Proof.
  intros HF HL. induction kvs as [|[k v] kvs IH]; intros m pr m' pr';
    cbn [ReadMapValues AddDefaultValue_Invalid_NeedsRehash]; [discriminate|].
  destruct (nth _ _ _) as [k0 v0].
  destruct (AssignStringToPropertyDirect E k KeyProp k0) as [KeyError kd].
  destruct (0 <? String.length KeyError)%nat.
  { intros H. injection H as _ <-. unfold Add. rewrite length_app. cbn. lia. }
  destruct (CE v r c (Z.of_nat (List.length (Entries m))) v0 pr) as [[[ok vd] pr1]|] eqn:HC;
    [|discriminate].
  destruct ok; cbn [negb].
  - intros H. apply IH in H. apply (Frame_length _ pr _ pr1 (HF _ _ _)) in HC. lia.
  - intros H. injection H as _ <-. now apply HL in HC.
Qed.

Lemma ReadStructEntry_failure_logged E b InProperty v r c d pr d' pr' :
  IsMapOfContainers InProperty = false ->
  ReadStructEntry E b InProperty v r c d pr = Some (false, d', pr') ->
  (List.length pr < List.length pr')%nat.
Proof.
  intros HK. destruct InProperty.
  - cbn. unfold AssignStringToProperty. logged_scalar.
  - cbn. unfold AssignStringToProperty. logged_scalar.
  - cbn. logged_scalar.
  - rewrite ReadStructEntry_array. destruct (TryGetArray v).
    + destruct (ReadArrayValues _ _ _ _ _ _ _) as [[a n]|]; discriminate.
    + logged_scalar.
  - rewrite ReadStructEntry_set. destruct (TryGetArray v).
    + destruct (ReadSetValues _ _ _ _ _ _ _) as [[a n]|]; discriminate.
    + logged_scalar.
  - rewrite ReadStructEntry_map. destruct (TryGetObject v) as [kvs|]; [|logged_scalar].
    cbn [IsMapOfContainers] in HK.
    destruct (ReadMapValues _ _ _ _ _ _ _ _ _) as [[[[|] m] pr1]|] eqn:HM;
      try discriminate.
    intros H. injection H as _ <-.
    apply (ReadMapValues_failure_logged E InProperty2
             (ReadContainerEntry E b InProperty2) InProperty1 r c
             (fun v i d => ReadContainerEntry_frame E b InProperty2 v r c i d)
             (fun v i d pr d' pr' =>
                ReadContainerEntry_failure_logged E b InProperty2 v r c i d pr d' pr' HK))
      in HM.
    exact HM.
  - destruct v; try (cbn; unfold AssignStringToProperty; logged_scalar).
    rewrite ReadStructEntry_struct_object. apply ReadStruct_failure_logged.
  - cbn. unfold AssignStringToProperty. logged_scalar.
Qed.

(** X8. A decoder that returns false has added a problem: [ReadStruct]
    always, [ReadContainerEntry] on every property that is not an array, a
    set or a map (those it rejects without a word), [ReadStructEntry] on
    every property that is not a map of arrays, sets or maps. *)
Theorem Failure_is_logged E b InProperty v r c i d pr Struct o d' pr' :
  (ReadStruct E b Struct o r d pr = Some (false, d', pr') ->
   (List.length pr < List.length pr')%nat)
  /\ (IsContainerKind InProperty = false ->
      ReadContainerEntry E b InProperty v r c i d pr = Some (false, d', pr') ->
      (List.length pr < List.length pr')%nat)
  /\ (IsMapOfContainers InProperty = false ->
      ReadStructEntry E b InProperty v r c d pr = Some (false, d', pr') ->
      (List.length pr < List.length pr')%nat).
Proof.
  split; [apply ReadStruct_failure_logged|].
  split; [apply ReadContainerEntry_failure_logged|apply ReadStructEntry_failure_logged].
Qed.

(** X9. On an enum, a numeric, a boolean or a string-like property
    [ReadStructEntry] returns, and it returns true exactly when it adds no
    problem; so does [ReadContainerEntry] wherever it returns. *)
Theorem Scalar_true_iff_no_problem E b InProperty v r c i d pr :
  IsScalarKind InProperty = true ->
  (exists ok d' pr',
     ReadStructEntry E b InProperty v r c d pr = Some (ok, d', pr')
     /\ (ok = true <-> pr' = pr))
  /\ (forall ok d' pr',
        ReadContainerEntry E b InProperty v r c i d pr = Some (ok, d', pr') ->
        (ok = true <-> pr' = pr)).
Proof.
  assert (Hne : forall x : string, pr ++ [x] <> pr).
  { intros x H. apply (f_equal (@List.length string)) in H.
    rewrite length_app in H. cbn in H. lia. }
  intros HK. destruct InProperty; try discriminate HK; split.
  all: try (cbn; unfold AssignStringToProperty, Add;
            repeat match goal with
                   | |- context [match ?x with _ => _ end] =>
                       match x with
                       | context [match _ with _ => _ end] => fail 1
                       | _ => destruct x eqn:?
                       end
                   end;
            eexists; eexists; eexists; (split; [reflexivity|]);
            split; intros H;
            solve [ reflexivity | discriminate H | now apply Hne in H ]).
  all: intros ok d' pr'; cbn; unfold AssignStringToProperty, Add;
    repeat match goal with
           | |- context [match ?x with _ => _ end] =>
               match x with
               | context [match _ with _ => _ end] => fail 1
               | _ => destruct x eqn:?
               end
           end;
    intros H0; try discriminate H0; injection H0 as <- <- <-;
    split; intros H;
    solve [ reflexivity | discriminate H | now apply Hne in H ].
Qed.

Lemma ReadStructEntry_string_failure_logged E b InProperty v r c d pr d' pr' :
  JsonType v = EJson_String ->
  ReadStructEntry E b InProperty v r c d pr = Some (false, d', pr') ->
  (List.length pr < List.length pr')%nat.
Proof.
  intros Hty. destruct (IsMapOfContainers InProperty) eqn:HK;
    [|now apply ReadStructEntry_failure_logged].
  destruct InProperty; try discriminate HK.
  destruct v; try discriminate Hty.
  rewrite ReadStructEntry_map. cbn [TryGetObject].
  intros H. injection H as _ <-. unfold Add. rewrite length_app. cbn. lia.
Qed.

(** X10. In a build that allows arbitrary structs, a field of static arity
    1 whose string value does not decode and whose text parses as JSON is
    decoded once more, from the parsed value, into the slot as the first
    attempt left it. The slot is the one the second attempt leaves; the
    problems of the first attempt, of which there is at least one, stay in
    the array before those of the second. *)
Theorem ReadSingleSlot_reparse E b BaseProp v text parsed r c d pr d1 n1 :
  HS_GRIDLY_ALLOW_ARBITARY_STRUCT_IN_TABLE E = true ->
  JsonType v = EJson_String ->
  TryGetString E v = Some text ->
  DeserializeValue E text = Some parsed ->
  ReadStructEntry E b BaseProp v r c d [] = Some (false, d1, n1) ->
  ReadSingleSlot E (ReadStructEntry E b) BaseProp v r c d pr
  = option_map (fun second => (snd (fst second), pr ++ n1 ++ snd second))
      (ReadStructEntry E b BaseProp parsed r c d1 [])
  /\ n1 <> [].
Proof.
  intros HS Hty Hstr Hparse Hfirst.
  pose proof (ReadStructEntry_string_failure_logged E b BaseProp v r c d [] d1 n1
                Hty Hfirst) as Hlog.
  split; [|intros ->; cbn in Hlog; lia].
  unfold ReadSingleSlot.
  rewrite (ReadStructEntry_frame E b BaseProp v r c d pr), Hfirst.
  cbn [option_map fst snd]. rewrite HS, Hty, Hstr, Hparse. cbn [negb andb].
  rewrite (ReadStructEntry_frame E b BaseProp parsed r c d1 (pr ++ n1)).
  destruct (ReadStructEntry E b BaseProp parsed r c d1 []) as [[[ok2 d2] n2]|];
    cbn [option_map fst snd]; [|reflexivity].
  now rewrite app_assoc.
Qed.

(** X11. When [ReadRow] returns false, it has added at least one problem
    of its own, before the problem [ReadTable] adds for the row. *)
Theorem ReadRow_failure_logged E obj idx I I' :
  ReadRow E obj idx I = Some (false, I') ->
  (List.length (ImportProblems I) < List.length (ImportProblems I'))%nat.
Proof.
  unfold ReadRow.
  destruct (IsNone _).
  { intros H. injection H as <-. cbn. unfold Add. rewrite length_app. cbn. lia. }
  destruct (negb _ && _).
  { intros H. injection H as <-. cbn. unfold Add. rewrite length_app. cbn. lia. }
  destruct (RowStruct (DataTable I)) as [Struct|]; [|discriminate].
  cbn [MallocRow AddRowInternal SetTable bIgnoreMissingFields RowMap Memory].
  match goal with
  | |- context [ReadStruct ?e ?b ?s ?o ?r ?d ?p] =>
      destruct (ReadStruct e b s o r d p) as [[[ok d'] pr2]|] eqn:HR; [|discriminate]
  end.
  intros H. injection H as -> <-. apply ReadStruct_failure_logged in HR.
  cbn [ImportProblems SetImporter].
  destruct (negb (bIgnoreExtraFields (DataTable I))); [|exact HR].
  rewrite DetectExtraFields_eq, length_app in HR. lia.
Qed.

(** ** Containers whose elements have no string fallback *)

Lemma ReadContainerEntry_returns E b InProperty v r c i d pr :
  NoStringFallback InProperty = true ->
  exists res, ReadContainerEntry E b InProperty v r c i d pr = Some res.
Proof.
  intros HK. destruct InProperty; try discriminate HK;
    cbn; split_matches; eexists; reflexivity.
Qed.

Lemma length_zero_empty (s : string) : (0 <? String.length s)%nat = false -> s = "".
Proof. destruct s; [reflexivity|discriminate]. Qed.

Section Loops_that_return.

Variable E : FEngine.
Variable EntryProp : FProperty.
Variable CE : FJsonValue -> FName -> string -> Z -> FValue -> Problems -> option FReadResult.
Variable KeyProp : FProperty.
Variables (r : FName) (c : string).
Hypothesis HCE : forall v i d, Frame (CE v r c i d).
Hypothesis Hret : forall v i d pr, exists res, CE v r c i d pr = Some res.

Lemma ContainerEntry_step v i d pr :
  exists ok x n,
    CE v r c i d [] = Some (ok, x, n) /\ CE v r c i d pr = Some (ok, x, pr ++ n).
Proof.
  destruct (Hret v i d []) as [[[ok x] n] H]. exists ok, x, n. split; [exact H|].
  now rewrite (HCE v i d pr), H.
Qed.

Lemma ReadArrayValues_elements (vals : list FJsonValue) :
  forall a pr,
    exists results,
      Forall2 (fun iv res =>
                 CE (snd iv) r c (Z.of_nat (fst iv)) (DefaultValue EntryProp) [] = Some res)
        (IndexedFrom (List.length a) vals) results
      /\ ReadArrayValues EntryProp CE r c vals a pr
         = Some (a ++ map (fun res => snd (fst res)) results,
                 pr ++ List.concat (map snd results)).
Proof.
  induction vals as [|v vals IH]; intros a pr.
  - exists []. split; [constructor|]. cbn. now rewrite !app_nil_r.
  - cbn [ReadArrayValues AddValue]. rewrite nth_app_last.
    destruct (ContainerEntry_step v (Z.of_nat (List.length a)) (DefaultValue EntryProp) pr)
      as (ok & x & n & H0 & H1).
    rewrite H1, ListSetAt_app_last.
    destruct (IH (a ++ [x]) (pr ++ n)) as (results & HF & HR).
    exists ((ok, x, n) :: results). split.
    + rewrite IndexedFrom_cons. constructor; [exact H0|].
      rewrite length_app in HF. cbn [List.length] in HF.
      now replace (List.length a + 1)%nat with (S (List.length a)) in HF by lia.
    + rewrite HR. cbn [map List.concat fst snd]. now rewrite <- !app_assoc.
Qed.

Lemma ReadSetValues_elements (vals : list FJsonValue) :
  forall s pr,
    exists results s',
      Forall2 (fun iv res =>
                 CE (snd iv) r c (Z.of_nat (fst iv)) (DefaultValue EntryProp) [] = Some res)
        (IndexedFrom (List.length (Entries s)) vals) results
      /\ ReadSetValues EntryProp CE r c vals s pr
         = Some (s', pr ++ List.concat (map snd results))
      /\ Entries s' = Entries s ++ map (fun res => snd (fst res)) results
      /\ Rehashes s' = Rehashes s.
Proof.
  induction vals as [|v vals IH]; intros s pr.
  - exists [], s. split; [constructor|]. cbn. now rewrite !app_nil_r.
  - cbn [ReadSetValues AddDefaultValue_Invalid_NeedsRehash Entries]. rewrite nth_app_last.
    destruct (ContainerEntry_step v (Z.of_nat (List.length (Entries s)))
                (DefaultValue EntryProp) pr) as (ok & x & n & H0 & H1).
    rewrite H1.
    match goal with
    | |- context [ReadSetValues _ _ _ _ vals ?s1 _] =>
        destruct (IH s1 (pr ++ n)) as (results & s' & HF & HR & HE & HH)
    end.
    cbn [WriteEntry Entries Rehashes] in HF, HE, HH.
    rewrite ListSetAt_app_last in HF, HE.
    exists ((ok, x, n) :: results), s'. repeat split.
    + rewrite IndexedFrom_cons. constructor; [exact H0|].
      rewrite length_app in HF. cbn [List.length] in HF.
      now replace (List.length (Entries s) + 1)%nat
        with (S (List.length (Entries s))) in HF by lia.
    + rewrite HR. cbn [map List.concat fst snd]. now rewrite <- !app_assoc.
    + rewrite HE. cbn [map fst snd]. now rewrite <- app_assoc.
    + exact HH.
Qed.

Lemma ReadMapValues_entries (kvs : list (string * FJsonValue)) :
  forall m pr,
    exists ok m' pr' decoded,
      ReadMapValues E EntryProp CE KeyProp r c kvs m pr = Some (ok, m', pr')
      /\ Entries m' = Entries m ++ decoded
      /\ Forall2 (fun ikv Pair =>
                    AssignStringToPropertyDirect E (fst (snd ikv)) KeyProp
                      (DefaultValue KeyProp) = ("", fst Pair)
                    /\ exists n,
                         CE (snd (snd ikv)) r c (Z.of_nat (fst ikv))
                           (DefaultValue EntryProp) [] = Some (true, snd Pair, n))
           (firstn (List.length decoded) (IndexedFrom (List.length (Entries m)) kvs))
           decoded
      /\ Rehashes m' = Rehashes m
      /\ (if ok then List.length decoded = List.length kvs
          else (List.length decoded < List.length kvs)%nat).
Proof.
  induction kvs as [|[Key Value] kvs IH]; intros m pr.
  - exists true, m, pr, []. cbn. rewrite app_nil_r. repeat split. constructor.
  - cbn [ReadMapValues AddDefaultValue_Invalid_NeedsRehash Entries]. rewrite nth_app_last.
    destruct (AssignStringToPropertyDirect E Key KeyProp (DefaultValue KeyProp))
      as [KeyError kd] eqn:HK.
    destruct (0 <? String.length KeyError)%nat eqn:HE.
    + eexists false, _, _, []. split; [reflexivity|].
      cbn [RemoveAt WriteEntry Entries Rehashes List.length firstn].
      rewrite ListSetAt_app_last, ListRemoveAt_app_last, app_nil_r.
      repeat split; [constructor|lia].
    + apply length_zero_empty in HE. subst KeyError.
      destruct (ContainerEntry_step Value (Z.of_nat (List.length (Entries m)))
                  (DefaultValue EntryProp) pr) as (ok & x & n & H0 & H1).
      rewrite H1. destruct ok; cbn [negb].
      * match goal with
        | |- context [ReadMapValues _ _ _ _ _ _ kvs ?m3 _] =>
            destruct (IH m3 (pr ++ n)) as (ok' & m' & pr' & decoded & HR & HEn & HF & HRe & Hl)
        end.
        cbn [WriteEntry Entries Rehashes] in HEn, HF, HRe.
        rewrite !ListSetAt_app_last in HEn. rewrite !ListSetAt_app_last in HF.
        exists ok', m', pr', ((kd, x) :: decoded). repeat split.
        -- exact HR.
        -- rewrite HEn. now rewrite <- app_assoc.
        -- cbn [List.length firstn]. rewrite IndexedFrom_cons. constructor.
           ++ cbn [fst snd]. split; [exact HK|]. now exists n.
           ++ rewrite length_app in HF. cbn [List.length] in HF.
              now replace (List.length (Entries m) + 1)%nat
                with (S (List.length (Entries m))) in HF by lia.
        -- exact HRe.
        -- destruct ok'; cbn [List.length]; lia.
      * eexists false, _, _, []. split; [reflexivity|].
        cbn [RemoveAt WriteEntry Entries Rehashes List.length firstn].
        rewrite !ListSetAt_app_last, ListRemoveAt_app_last, app_nil_r.
        repeat split; [constructor|lia].
Qed.

Lemma ReadStaticArray_slots (vals : list FJsonValue) (count : nat) :
  forall i slots pr,
    (i + count <= List.length slots)%nat ->
    exists slots' n,
      ReadStaticArray EntryProp CE r c vals count i slots pr = Some (slots', pr ++ n)
      /\ List.length slots' = List.length slots
      /\ (forall j, (j < i \/ i + count <= j)%nat ->
            nth j slots' (DefaultValue EntryProp) = nth j slots (DefaultValue EntryProp))
      /\ (forall j, (i <= j < i + count)%nat ->
            match nth_error vals j with
            | Some v =>
                exists ok nj,
                  CE v r c (Z.of_nat j) (nth j slots (DefaultValue EntryProp)) []
                  = Some (ok, nth j slots' (DefaultValue EntryProp), nj)
            | None =>
                nth j slots' (DefaultValue EntryProp) = nth j slots (DefaultValue EntryProp)
            end).
Proof.
  induction count as [|count IH]; intros i slots pr Hlen.
  - exists slots, []. cbn. rewrite app_nil_r. repeat split. intros j Hj. lia.
  - cbn [ReadStaticArray]. destruct (nth_error vals i) as [v|] eqn:Hv.
    + destruct (ContainerEntry_step v (Z.of_nat i) (nth i slots (DefaultValue EntryProp)) pr)
        as (ok & x & n & H0 & H1).
      rewrite H1.
      destruct (IH (S i) (ListSetAt i x slots) (pr ++ n)) as (slots' & n' & HR & HL & HO & HI).
      { rewrite ListSetAt_length. lia. }
      exists slots', (n ++ n'). rewrite ListSetAt_length in HL. repeat split.
      * rewrite HR. now rewrite app_assoc.
      * exact HL.
      * intros j Hj. rewrite HO by lia. apply nth_ListSetAt_other. lia.
      * intros j Hj. destruct (Nat.eq_dec j i) as [->|Hne].
        -- rewrite Hv. exists ok, n. rewrite HO by lia.
           rewrite nth_ListSetAt_same by lia. exact H0.
        -- specialize (HI j). rewrite nth_ListSetAt_other in HI by lia. apply HI. lia.
    + destruct (IH (S i) slots pr) as (slots' & n' & HR & HL & HO & HI); [lia|].
      exists slots', n'. repeat split; auto.
      * intros j Hj. apply HO. lia.
      * intros j Hj. destruct (Nat.eq_dec j i) as [->|Hne].
        -- rewrite Hv. apply HO. lia.
        -- apply HI. lia.
Qed.

End Loops_that_return.

Lemma ReadStaticArray_returns EntryProp
    (CE : FJsonValue -> FName -> string -> Z -> FValue -> Problems -> option FReadResult)
    (r : FName) (c : string) :
  (forall v i d pr, exists res, CE v r c i d pr = Some res) ->
  forall vals count i slots pr,
    exists res, ReadStaticArray EntryProp CE r c vals count i slots pr = Some res.
Proof.
  intros Hret vals count.
  induction count as [|count IH]; intros i slots pr; cbn [ReadStaticArray];
    [eexists; reflexivity|].
  destruct (nth_error vals i) as [v|]; [|apply IH].
  destruct (Hret v (Z.of_nat i) (nth i slots (DefaultValue EntryProp)) pr)
    as [[[ok x] p1] ->].
  apply IH.
Qed.

(** X22. An array-typed or set-typed field whose elements are neither
    structs nor string-like, given a JSON array: [ReadStructEntry] returns
    true. Whatever the slot held before, the container ends with one
    element for each entry of the JSON array, in order: the element
    [ReadContainerEntry] leaves for the entry on a fresh default element,
    whether it returned true or false; the problems are those of the
    entries, in order; and the set is rehashed once, after the loop. *)
Theorem ReadStructEntry_array_set_elements E b F Inner vals r c d pr :
  NoStringFallback Inner = true ->
  exists results,
    Forall2 (EntryDecoded E b Inner r c) (Indexed vals) results
    /\ ReadStructEntry E b (FArrayProperty F Inner) (FJsonValueArray vals) r c d pr
       = Some (true, VArray (map (fun res => snd (fst res)) results),
               pr ++ List.concat (map snd results))
    /\ ReadStructEntry E b (FSetProperty F Inner) (FJsonValueArray vals) r c d pr
       = Some (true,
               VSet {| Entries := map (fun res => snd (fst res)) results;
                       HashValid := true;
                       Rehashes := S (Rehashes (SetHelper d)) |},
               pr ++ List.concat (map snd results)).
Proof.
  intros HK.
  assert (HF : forall v i d, Frame (ReadContainerEntry E b Inner v r c i d))
    by (intros; apply ReadContainerEntry_frame).
  assert (HR : forall v i d pr, exists res, ReadContainerEntry E b Inner v r c i d pr = Some res)
    by (intros; now apply ReadContainerEntry_returns).
  destruct (ReadArrayValues_elements Inner (ReadContainerEntry E b Inner) r c HF HR vals [] pr)
    as (results & HA1 & HA2).
  destruct (ReadSetValues_elements Inner (ReadContainerEntry E b Inner) r c HF HR vals
              (EmptyValues (SetHelper d)) pr) as (results' & s' & HS1 & HS2 & HS3 & HS4).
  cbn [EmptyValues Entries Rehashes List.length app] in *.
  assert (Heq : results' = results).
  { revert HS1 HA1. generalize (IndexedFrom 0 vals). clear.
    intros l H1. revert results.
    induction H1 as [|iv res l results' H _ IH]; intros results H2; inversion H2; subst.
    - reflexivity.
    - f_equal; [congruence|now apply IH]. }
  subst results'. exists results. split; [exact HA1|]. split.
  - rewrite ReadStructEntry_array. cbn [TryGetArray]. now rewrite HA2.
  - rewrite ReadStructEntry_set. cbn [TryGetArray]. rewrite HS2.
    unfold Rehash. now rewrite HS3, HS4.
Qed.


(** X24. A field of static arity [N > 1] whose entries are neither structs
    nor string-like, given a JSON array: the body of the loop of
    [ReadStruct] goes on to the next property. When the length of the array
    is not [N], one size-mismatch problem is logged first and the decoding
    goes on all the same. Every index below [N] that the array has an entry
    for is decoded by [ReadContainerEntry] into its own slot, whether or
    not another index failed; the slots the array has no entry for are left
    as they were. *)
Theorem Static_array_slots_decoded E b BaseProp o r slots pr vals :
  let N := ArrayDim (Field BaseProp) in
  let ColumnName := GetPropertyExportName (Field BaseProp) in
  let mismatch :=
    if N =? Z.of_nat (List.length vals) then []
    else [PropertyOnRow ColumnName r +++ " is a static sized array with "
          +++ itoa N +++ " elements, but we have "
          +++ itoa (Z.of_nat (List.length vals)) +++ " values to import"] in
  NoStringFallback BaseProp = true ->
  1 < N ->
  FindImportValue (GetPropertyImportNames (Field BaseProp)) o
    = Some (FJsonValueArray vals) ->
  List.length slots = Z.to_nat N ->
  exists slots' n,
    ReadProperty E b (ReadStructEntry E b) (ReadContainerEntry E b) BaseProp o r slots pr
    = Some (NextProperty slots', pr ++ mismatch ++ n)
    /\ List.length slots' = List.length slots
    /\ forall j,
         (j < Z.to_nat N)%nat ->
         match nth_error vals j with
         | Some v =>
             exists ok nj,
               ReadContainerEntry E b BaseProp v r ColumnName (Z.of_nat j)
                 (nth j slots (DefaultValue BaseProp)) []
               = Some (ok, nth j slots' (DefaultValue BaseProp), nj)
         | None =>
             nth j slots' (DefaultValue BaseProp) = nth j slots (DefaultValue BaseProp)
         end.
Proof.
  intros N ColumnName mismatch HK HN Hfind Hlen.
  unfold ReadProperty. rewrite Hfind. fold N ColumnName.
  replace (N =? 1) with false by (symmetry; apply Z.eqb_neq; lia).
  cbn [TryGetArray].
  match goal with
  | |- context [ReadStaticArray _ _ _ _ _ _ _ _ ?p] => set (pr1 := p)
  end.
  assert (Hpr1 : pr1 = pr ++ mismatch).
  { subst pr1 mismatch. destruct (N =? Z.of_nat (List.length vals)); cbn [negb].
    - now rewrite app_nil_r.
    - reflexivity. }
  destruct (ReadStaticArray_slots BaseProp (ReadContainerEntry E b BaseProp) r ColumnName
              (fun v i d => ReadContainerEntry_frame E b BaseProp v r ColumnName i d)
              (fun v i d pr =>
                 ReadContainerEntry_returns E b BaseProp v r ColumnName i d pr HK)
              vals (Z.to_nat N) 0%nat slots pr1) as (slots' & n & HR & HL & _ & HI); [lia|].
  exists slots', n. rewrite HR, Hpr1, <- app_assoc. repeat split; [exact HL|].
  intros j Hj. apply HI. lia.
Qed.

(** ** Record types whose walk returns *)

Section Struct_that_returns.

Variable E : FEngine.
Variable b : bool.

Lemma ReadProperty_returns BaseProp o r slots pr :
  (ArrayDim (Field BaseProp) = 1 ->
   forall v d pr, exists res, ReadStructEntry E b BaseProp v r
                                (GetPropertyExportName (Field BaseProp)) d pr = Some res) ->
  (ArrayDim (Field BaseProp) <> 1 -> NoStringFallback BaseProp = true) ->
  exists step pr1,
    ReadProperty E b (ReadStructEntry E b) (ReadContainerEntry E b) BaseProp o r slots pr
    = Some (step, pr1)
    /\ (step = ReturnFalse <-> StopsReadStruct o BaseProp = true).
Proof.
  intros H1 HN. unfold ReadProperty, StopsReadStruct.
  destruct (FindImportValue _ o) as [v|].
  - destruct (ArrayDim (Field BaseProp) =? 1) eqn:Hdim; cbn [negb andb].
    + apply Z.eqb_eq in Hdim. specialize (H1 Hdim). unfold ReadSingleSlot.
      destruct (H1 v (nth 0 slots (DefaultValue BaseProp)) pr) as [[[ok d1] pr1] ->].
      destruct (HS_GRIDLY_ALLOW_ARBITARY_STRUCT_IN_TABLE E && negb ok).
      2:{ eexists _, _. split; [reflexivity|]. split; discriminate. }
      destruct (JsonType v);
        try (eexists _, _; split; [reflexivity|]; split; discriminate).
      destruct (DeserializeValue E _) as [parsed|].
      2:{ eexists _, _. split; [reflexivity|]. split; discriminate. }
      destruct (H1 parsed d1 pr1) as [[[ok2 d2] pr2] ->].
      eexists _, _. split; [reflexivity|]. split; discriminate.
    + apply Z.eqb_neq in Hdim. specialize (HN Hdim).
      destruct (TryGetArray v) as [vals|].
      2:{ eexists _, _. split; [reflexivity|]. split; reflexivity. }
      match goal with
      | |- context [ReadStaticArray ?P ?CE ?rn ?cn ?vs ?count ?i ?sl ?p] =>
          destruct (ReadStaticArray_returns P CE rn cn
                      (fun v0 i0 d0 pr0 =>
                         ReadContainerEntry_returns E b BaseProp v0 rn cn i0 d0 pr0 HN)
                      vs count i sl p) as [[slots' pr2] ->]
      end.
      eexists _, _. split; [reflexivity|]. split; discriminate.
  - rewrite andb_false_r.
    destruct (WITH_EDITOR E && DataTableImportOptional (Field BaseProp));
      [|destruct (negb b)]; eexists _, _; (split; [reflexivity|]); split; discriminate.
Qed.

Lemma ReadProperties_returns (It : list FProperty) o r :
  Forall (fun BaseProp =>
            (ArrayDim (Field BaseProp) = 1 ->
             forall v d pr, exists res, ReadStructEntry E b BaseProp v r
                                          (GetPropertyExportName (Field BaseProp)) d pr
                                        = Some res)
            /\ (ArrayDim (Field BaseProp) <> 1 -> NoStringFallback BaseProp = true)) It ->
  forall data pr,
    exists d' pr',
      ReadProperties E b (ReadStructEntry E b) (ReadContainerEntry E b) It o r data pr
      = Some (negb (existsb (StopsReadStruct o) It), d', pr').
Proof.
  induction 1 as [|BaseProp It [H1 HN] _ IH]; intros data pr; cbn [ReadProperties existsb].
  - eexists _, _. reflexivity.
  - destruct (ReadProperty_returns BaseProp o r (hd [] data) pr H1 HN)
      as (step & pr1 & -> & Hstep).
    destruct step as [slots|].
    + destruct (StopsReadStruct o BaseProp) eqn:Hs;
        [discriminate (proj2 Hstep eq_refl)|].
      destruct (IH (tl data) pr1) as (d' & pr' & ->). cbn [orb].
      eexists _, _. reflexivity.
    + rewrite (proj1 Hstep eq_refl). cbn [orb negb]. eexists _, _. reflexivity.
Qed.

Lemma Walker_returns :
  forall BaseProp,
    ReturnsAsEntry BaseProp = true ->
    forall v r c d pr, exists res, ReadStructEntry E b BaseProp v r c d pr = Some res.
Proof.
  apply (FProperty_both
           (fun BaseProp =>
              ReturnsAsEntry BaseProp = true ->
              forall v r c d pr, exists res, ReadStructEntry E b BaseProp v r c d pr = Some res)
           (fun Struct =>
              ReturnsStruct Struct = true ->
              forall o r d pr,
                exists d' pr',
                  ReadStruct E b Struct o r d pr
                  = Some (negb (existsb (StopsReadStruct o) (TFieldIterator Struct)),
                          d', pr'))).
  - intros F _ v r c d pr. cbn. unfold AssignStringToProperty. split_matches;
      eexists; reflexivity.
  - intros F e i _ v r c d pr. cbn. unfold AssignStringToProperty. split_matches;
      eexists; reflexivity.
  - intros F _ v r c d pr. cbn. split_matches; eexists; reflexivity.
  - intros F Inner _ HK v r c d pr. cbn [ReturnsAsEntry] in HK.
    rewrite ReadStructEntry_array. destruct (TryGetArray v) as [vals|];
      [|eexists; reflexivity].
    destruct (ReadArrayValues_elements Inner (ReadContainerEntry E b Inner) r c
                (fun v i d => ReadContainerEntry_frame E b Inner v r c i d)
                (fun v i d pr => ReadContainerEntry_returns E b Inner v r c i d pr HK)
                vals [] pr) as (results & _ & ->).
    eexists; reflexivity.
  - intros F El _ HK v r c d pr. cbn [ReturnsAsEntry] in HK.
    rewrite ReadStructEntry_set. destruct (TryGetArray v) as [vals|];
      [|eexists; reflexivity].
    destruct (ReadSetValues_elements El (ReadContainerEntry E b El) r c
                (fun v i d => ReadContainerEntry_frame E b El v r c i d)
                (fun v i d pr => ReadContainerEntry_returns E b El v r c i d pr HK)
                vals (EmptyValues (SetHelper d)) pr) as (results & s' & _ & -> & _).
    eexists; reflexivity.
  - intros F K V _ _ HK v r c d pr. cbn [ReturnsAsEntry] in HK.
    rewrite ReadStructEntry_map. destruct (TryGetObject v) as [kvs|];
      [|eexists; reflexivity].
    destruct (ReadMapValues_entries E V (ReadContainerEntry E b V) K r c
                (fun v i d => ReadContainerEntry_frame E b V v r c i d)
                (fun v i d pr => ReadContainerEntry_returns E b V v r c i d pr HK)
                kvs (EmptyValues (MapHelper d)) pr) as (ok & m' & pr' & dec & -> & _).
    destruct ok; eexists; reflexivity.
  - intros F St HQ HK v r c d pr. cbn [ReturnsAsEntry] in HK.
    destruct v as [| | | | |o].
    6:{ rewrite ReadStructEntry_struct_object.
        destruct (HQ HK o r d pr) as (d' & pr' & ->). eexists; reflexivity. }
    all: cbn; unfold AssignStringToProperty; split_matches; eexists; reflexivity.
  - intros F _ v r c d pr. cbn. unfold AssignStringToProperty. split_matches;
      eexists; reflexivity.
  - intros n ps HF HK o r d pr. rewrite ReadStruct_eq. cbn [TFieldIterator].
    cbn [ReturnsStruct] in HK. rewrite forallb_forall in HK.
    destruct (ReadProperties_returns ps o r) with (data := StructSlots d) (pr := pr)
      as (d' & pr' & ->).
    + apply Forall_forall. intros BaseProp Hin. rewrite Forall_forall in HF.
      specialize (HK BaseProp Hin). specialize (HF BaseProp Hin). split.
      * intros Hdim. rewrite Hdim in HK. cbn [Z.eqb Pos.eqb] in HK.
        intros v d0 pr0. now apply HF.
      * intros Hdim. apply Z.eqb_neq in Hdim. now rewrite Hdim in HK.
    + eexists _, _. reflexivity.
Qed.

End Struct_that_returns.

(** X25. On a record type in which the elements of every container and
    of every field of static arity other than 1 are neither structs nor
    string-like, at any depth of nested structs, [ReadStruct] returns; and it
    returns false exactly when some property of static arity other than 1
    is imported from a member that is not an array. A property no import
    name of which is a member of the object never makes it return false. *)
Theorem ReadStruct_returns E b n It o r d pr :
  ReturnsStruct (MkScriptStruct n It) = true ->
  exists ok d' pr',
    ReadStruct E b (MkScriptStruct n It) o r d pr = Some (ok, d', pr')
    /\ (ok = false <-> Exists (fun BaseProp => StopsReadStruct o BaseProp = true) It)
    /\ (forall BaseProp,
          FindImportValue (GetPropertyImportNames (Field BaseProp)) o = None ->
          StopsReadStruct o BaseProp = false).
Proof.
  intros HK. rewrite ReadStruct_eq.
  assert (HF : Forall (fun BaseProp =>
                 (ArrayDim (Field BaseProp) = 1 ->
                  forall v d pr, exists res, ReadStructEntry E b BaseProp v r
                                               (GetPropertyExportName (Field BaseProp)) d pr
                                             = Some res)
                 /\ (ArrayDim (Field BaseProp) <> 1 -> NoStringFallback BaseProp = true)) It).
  { cbn [ReturnsStruct] in HK. rewrite forallb_forall in HK.
    apply Forall_forall. intros BaseProp Hin. specialize (HK BaseProp Hin). split.
    - intros Hdim. rewrite Hdim in HK. cbn [Z.eqb Pos.eqb] in HK.
      intros v d0 pr0. now apply Walker_returns.
    - intros Hdim. apply Z.eqb_neq in Hdim. now rewrite Hdim in HK. }
  destruct (ReadProperties_returns E b It o r HF (StructSlots d) pr) as (d' & pr' & ->).
  eexists _, _, _. split; [reflexivity|]. split.
  - rewrite negb_false_iff, existsb_exists, Exists_exists. reflexivity.
  - intros BaseProp Hnone. unfold StopsReadStruct. rewrite Hnone. apply andb_false_r.
Qed.

(** ** The writer of the data-table export *)

Lemma Shift_WriteValue p st n v w :
  WriteValue n v (Shift p st w) = Shift p st (WriteValue n v w).
Proof. unfold WriteValue, Shift. cbn. now rewrite app_assoc. Qed.

Lemma Shift_WriteObjectStart p st w :
  WriteObjectStart (Shift p st w) = Shift p (EJson_Object :: st) (WriteObjectStart w).
Proof. unfold WriteObjectStart, Shift. cbn. now rewrite app_assoc. Qed.

Lemma Shift_WriteArrayStart p st n w :
  WriteArrayStart n (Shift p st w) = Shift p (EJson_Array :: st) (WriteArrayStart n w).
Proof. unfold WriteArrayStart, Shift. cbn. now rewrite app_assoc. Qed.

Lemma Shift_WriteObjectEnd p st w :
  WriteObjectEnd (Shift p st w) = Shift p (tl st) (WriteObjectEnd w).
Proof. unfold WriteObjectEnd, Shift. cbn. now rewrite app_assoc. Qed.

Lemma Shift_WriteArrayEnd p st w :
  WriteArrayEnd (Shift p st w) = Shift p (tl st) (WriteArrayEnd w).
Proof. unfold WriteArrayEnd, Shift. cbn. now rewrite app_assoc. Qed.

Lemma Shift_CreateWriter w : Shift (Written w) (Stack w) CreateWriter = w.
Proof. destruct w. unfold Shift. cbn. now rewrite app_nil_r. Qed.

Lemma WriteCellValue_cases E BaseProp Data w w' :
  WriteCellValue E BaseProp Data w = Some w' ->
  w' = w \/ exists v, w' = WriteValue (Some "value") v w.
Proof.
  unfold WriteCellValue. intros H.
  destruct BaseProp;
    repeat match type of H with
           | Some _ = Some _ => injection H as <-
           | None = Some _ => discriminate H
           | context [match ?x with _ => _ end] => destruct x
           end; eauto.
Qed.

Lemma WriteCellValue_shift E BaseProp Data p st w :
  WriteCellValue E BaseProp Data (Shift p st w)
  = option_map (Shift p st) (WriteCellValue E BaseProp Data w).
Proof.
  unfold WriteCellValue.
  destruct BaseProp;
    repeat match goal with
           | |- context [match ?x with _ => _ end] => destruct x
           end; cbn [option_map]; rewrite ?Shift_WriteValue; reflexivity.
Qed.

Section Writer_shift.

Variable E : FEngine.

Lemma WriteCells_shift (It : list FProperty) :
  forall RowData PathValue bPathFound p st w,
    WriteCells E It RowData PathValue bPathFound (Shift p st w)
    = option_map (fun r => (Shift p st (fst (fst r)), snd (fst r), snd r))
        (WriteCells E It RowData PathValue bPathFound w).
Proof.
  induction It as [|BaseProp It IH]; intros RowData PathValue bPathFound p st w;
    cbn [WriteCells]; [reflexivity|].
  destruct (EqualsIgnoreCase _ "_path"); [apply IH|].
  destruct (ArrayDim (Field BaseProp) =? 1); [|apply IH].
  rewrite Shift_WriteObjectStart, Shift_WriteValue, WriteCellValue_shift.
  destruct (WriteCellValue E BaseProp _ _) as [w1|]; cbn [option_map]; [|reflexivity].
  rewrite Shift_WriteObjectEnd. cbn [tl]. apply IH.
Qed.

Lemma WriteRow_shift Struct RowName RowData p st w :
  WriteRow E Struct RowName RowData (Shift p st w)
  = option_map (Shift p st) (WriteRow E Struct RowName RowData w).
Proof.
  unfold WriteRow.
  rewrite Shift_WriteObjectStart, Shift_WriteValue, Shift_WriteArrayStart, WriteCells_shift.
  destruct (WriteCells E _ _ _ _ _) as [[[w2 pv] bf]|]; cbn [option_map fst snd];
    [|reflexivity].
  rewrite Shift_WriteArrayEnd. cbn [tl].
  destruct bf; now rewrite Shift_WriteValue, Shift_WriteObjectEnd.
Qed.

Lemma WriteRows_shift GridlyDataTable Struct Keys (count : nat) :
  forall i p st w,
    WriteRows E GridlyDataTable Struct Keys count i (Shift p st w)
    = option_map (Shift p st) (WriteRows E GridlyDataTable Struct Keys count i w).
Proof.
  induction count as [|count IH]; intros i p st w; cbn [WriteRows]; [reflexivity|].
  rewrite WriteRow_shift.
  destruct (WriteRow E Struct _ _ w) as [w1|]; cbn [option_map]; [apply IH|reflexivity].
Qed.

Lemma WriteRows_app GridlyDataTable Struct Keys (c1 c2 : nat) :
  forall i w,
    WriteRows E GridlyDataTable Struct Keys (c1 + c2) i w
    = match WriteRows E GridlyDataTable Struct Keys c1 i w with
      | Some w1 => WriteRows E GridlyDataTable Struct Keys c2 (i + c1) w1
      | None => None
      end.
Proof.
  induction c1 as [|c1 IH]; intros i w; cbn [WriteRows Nat.add].
  - now rewrite Nat.add_0_r.
  - destruct (WriteRow E Struct _ _ w) as [w1|]; [|reflexivity].
    rewrite IH. now replace (S i + c1)%nat with (i + S c1)%nat by lia.
Qed.

End Writer_shift.

Lemma ValuesOf_app Identifier (l1 l2 : list FJsonWriterCall) :
  ValuesOf Identifier (l1 ++ l2) = ValuesOf Identifier l1 ++ ValuesOf Identifier l2.
Proof.
  induction l1 as [|call l1 IH]; [reflexivity|].
  destruct call as [n| | | |[n|] v]; cbn [ValuesOf app]; try exact IH.
  destruct (String.eqb n Identifier); cbn [app]; now rewrite IH.
Qed.

Lemma ValuesOf_id_cells (cells : list FJsonWriterCall) :
  forallb IsCellCall cells = true -> ValuesOf "id" cells = [].
Proof.
  induction cells as [|call cells IH]; [reflexivity|].
  cbn [forallb]. intros H. apply andb_prop in H as [H1 H2].
  destruct call as [n| | | |[n|] v]; cbn [ValuesOf]; try discriminate; auto.
  destruct (String.eqb n "id") eqn:Hn; [|auto].
  apply String.eqb_eq in Hn as ->. discriminate H1.
Qed.

(** What [ConvertToJson] does when the table has a row struct and
    [StartIndex] is below the number of rows. *)
Lemma ConvertToJson_in_range E GridlyDataTable Struct StartIndex MaxSize :
  RowStruct GridlyDataTable = Some Struct ->
  StartIndex < Z.of_nat (List.length (RowMap GridlyDataTable)) ->
  ConvertToJson E GridlyDataTable StartIndex MaxSize
  = match
      WriteRows E GridlyDataTable Struct (map fst (RowMap GridlyDataTable))
        (Z.to_nat (Z.min (size_t_add StartIndex MaxSize)
                     (Z.of_nat (List.length (RowMap GridlyDataTable))) - StartIndex))
        (Z.to_nat StartIndex) CreateWriter
    with
    | Some w => Some (true, [ArrayStart None] ++ Written w ++ [ArrayEnd])
    | None => None
    end.
Proof.
  intros HS Hstart. unfold ConvertToJson. rewrite HS, length_map.
  replace (StartIndex <? Z.of_nat (List.length (RowMap GridlyDataTable))) with true
    by (symmetry; apply Z.ltb_lt; exact Hstart).
  rewrite <- (Shift_CreateWriter (WriteArrayStart None CreateWriter)), WriteRows_shift.
  destruct (WriteRows E GridlyDataTable Struct _ _ _ CreateWriter) as [w|] eqn:Hw;
    cbn [option_map]; [|reflexivity].
  apply WriteRows_written in Hw as (rows & H1 & _ & H4).
  unfold Close. cbn [WriteArrayEnd Shift Written Stack WriteArrayStart CreateWriter tl app].
  change (ArrayStart None :: Written w ++ [ArrayEnd])
    with ((ArrayStart None :: Written w) ++ [ArrayEnd]).
  now rewrite last_Some_app.
Qed.

Lemma firstn_skipn_cons {A : Type} (d : A) (l : list A) (i count : nat) :
  (i < List.length l)%nat ->
  firstn (S count) (skipn i l) = nth i l d :: firstn count (skipn (S i) l).
Proof.
  revert i. induction l as [|x l IH]; intros [|i] H; cbn in H; try lia.
  - reflexivity.
  - cbn [skipn nth]. apply IH. lia.
Qed.

Lemma WriteRows_ids E GridlyDataTable Struct Keys (count : nat) :
  forall i w w',
    (i + count <= List.length Keys)%nat ->
    WriteRows E GridlyDataTable Struct Keys count i w = Some w' ->
    ValuesOf "id" (Written w')
    = ValuesOf "id" (Written w) ++ map JString (firstn count (skipn i Keys)).
Proof.
  induction count as [|count IH]; intros i w w' Hlen H; cbn [WriteRows] in H.
  - injection H as <-. cbn. now rewrite app_nil_r.
  - destruct (WriteRow E Struct _ _ w) as [w1|] eqn:Hr; [|discriminate].
    apply WriteRow_written in Hr as (cells & R1 & R2 & _).
    apply IH in H; [|lia]. rewrite H, R1.
    rewrite (@firstn_skipn_cons FName "" Keys i count) by lia.
    rewrite !ValuesOf_app, (ValuesOf_id_cells cells R2). cbn [map].
    cbn. now rewrite <- app_assoc.
Qed.

Lemma firstn_min_length {A : Type} (l : list A) (n : nat) :
  firstn (Nat.min n (List.length l)) l = firstn n l.
Proof.
  destruct (Nat.le_ge_cases n (List.length l)) as [H|H].
  - now rewrite Nat.min_l.
  - rewrite Nat.min_r by exact H. now rewrite !firstn_all2 by lia.
Qed.

(** ** Pages of the data-table export *)

(** X12. [ConvertToJson] on a data table returns false in two cases only:
    the table has no row struct, and nothing is written; or [StartIndex] is
    not below the number of rows, and the opening bracket alone is
    written. *)
Theorem ConvertToJson_false_iff E GridlyDataTable StartIndex MaxSize out :
  ConvertToJson E GridlyDataTable StartIndex MaxSize = Some (false, out)
  <-> (RowStruct GridlyDataTable = None /\ out = [])
      \/ (RowStruct GridlyDataTable <> None
          /\ Z.of_nat (List.length (RowMap GridlyDataTable)) <= StartIndex
          /\ out = [ArrayStart None]).
Proof.
  destruct (RowStruct GridlyDataTable) as [Struct|] eqn:HS.
  - destruct (Z.lt_ge_cases StartIndex (Z.of_nat (List.length (RowMap GridlyDataTable))))
      as [Hlt|Hge].
    + rewrite (ConvertToJson_in_range E GridlyDataTable Struct StartIndex MaxSize HS Hlt).
      destruct (WriteRows _ _ _ _ _ _ _); split;
        try discriminate; intros [[H _]|(_ & H & _)]; try discriminate; lia.
    + unfold ConvertToJson. rewrite HS, length_map.
      replace (StartIndex <? Z.of_nat (List.length (RowMap GridlyDataTable))) with false
        by (symmetry; apply Z.ltb_ge; exact Hge).
      cbn. split.
      * intros H. injection H as <-. right. repeat split; [discriminate|exact Hge].
      * intros [[H _]|(_ & _ & ->)]; [discriminate|reflexivity].
  - unfold ConvertToJson. rewrite HS. split.
    + intros H. injection H as <-. now left.
    + intros [[_ ->]|(H & _)]; [reflexivity|congruence].
Qed.

(** X13. A page that starts below the number of rows, with a size that
    does not take the end index past [SIZE_MAX], holds the rows
    [StartIndex], [StartIndex + 1], ... of the row map, in the order of the
    map, [MaxSize] of them or as many as are left; and [ConvertToJson]
    returns true. *)
Theorem ConvertToJson_page_rows E GridlyDataTable Struct StartIndex MaxSize ok out :
  RowStruct GridlyDataTable = Some Struct ->
  0 <= StartIndex < Z.of_nat (List.length (RowMap GridlyDataTable)) ->
  0 <= MaxSize ->
  StartIndex + MaxSize < 2 ^ 64 ->
  ConvertToJson E GridlyDataTable StartIndex MaxSize = Some (ok, out) ->
  ok = true
  /\ ValuesOf "id" out
     = map JString
         (firstn (Z.to_nat MaxSize)
            (skipn (Z.to_nat StartIndex) (map fst (RowMap GridlyDataTable)))).
Proof.
  intros HS Hstart Hmax Hsum H.
  rewrite (ConvertToJson_in_range E GridlyDataTable Struct StartIndex MaxSize HS
             (proj2 Hstart)) in H.
  destruct (WriteRows _ _ _ _ _ _ _) as [w|] eqn:Hw; [|discriminate].
  injection H as <- <-. split; [reflexivity|].
  unfold size_t_add in Hw. rewrite Z.mod_small in Hw by lia.
  apply WriteRows_ids in Hw; [|rewrite length_map; lia].
  cbn [app ValuesOf]. rewrite ValuesOf_app, Hw.
  cbn [CreateWriter Written ValuesOf app]. rewrite app_nil_r. f_equal.
  set (l := skipn (Z.to_nat StartIndex) (map fst (RowMap GridlyDataTable))).
  assert (Hl : List.length l
               = (List.length (RowMap GridlyDataTable) - Z.to_nat StartIndex)%nat).
  { subst l. now rewrite length_skipn, length_map. }
  rewrite <- (firstn_min_length l (Z.to_nat MaxSize)). f_equal. rewrite Hl. lia.
Qed.

(** X14. [StartIndex + MaxSize] is computed in [size_t]: when the sum
    passes [SIZE_MAX] the end index wraps below [StartIndex], no row is
    written, and [ConvertToJson] returns true with an empty array. *)
Theorem ConvertToJson_size_wraps E GridlyDataTable Struct StartIndex MaxSize :
  RowStruct GridlyDataTable = Some Struct ->
  0 <= StartIndex < Z.of_nat (List.length (RowMap GridlyDataTable)) ->
  StartIndex < 2 ^ 64 ->
  MaxSize < 2 ^ 64 ->
  2 ^ 64 <= StartIndex + MaxSize ->
  ConvertToJson E GridlyDataTable StartIndex MaxSize
  = Some (true, [ArrayStart None; ArrayEnd]).
Proof.
  intros HS Hstart Hsize Hmax Hsum.
  rewrite (ConvertToJson_in_range E GridlyDataTable Struct StartIndex MaxSize HS
             (proj2 Hstart)).
  assert (Hwrap : size_t_add StartIndex MaxSize = StartIndex + MaxSize - 2 ^ 64).
  { unfold size_t_add. symmetry. apply (Z.mod_unique _ _ 1); lia. }
  rewrite Hwrap.
  replace (Z.to_nat (Z.min (StartIndex + MaxSize - 2 ^ 64)
                       (Z.of_nat (List.length (RowMap GridlyDataTable))) - StartIndex))
    with 0%nat by lia.
  reflexivity.
Qed.

(** X15. Two pages that follow one another make the page of both: when
    the second page starts below the number of rows, the rows of the page
    of size [a + b] at [StartIndex] are the rows of the page of size [a] at
    [StartIndex] followed by the rows of the page of size [b] at
    [StartIndex + a]. *)
Theorem ConvertToJson_pages_compose E GridlyDataTable Struct StartIndex a b
    ok1 out1 ok2 out2 :
  RowStruct GridlyDataTable = Some Struct ->
  0 <= StartIndex -> 0 <= a -> 0 <= b ->
  StartIndex + a < Z.of_nat (List.length (RowMap GridlyDataTable)) ->
  StartIndex + a + b < 2 ^ 64 ->
  ConvertToJson E GridlyDataTable StartIndex a = Some (ok1, out1) ->
  ConvertToJson E GridlyDataTable (StartIndex + a) b = Some (ok2, out2) ->
  ConvertToJson E GridlyDataTable StartIndex (a + b)
  = Some (true, [ArrayStart None] ++ PageRows out1 ++ PageRows out2 ++ [ArrayEnd]).
Proof.
  intros HS H0 Ha Hb Hnum Hsum H1 H2.
  rewrite (ConvertToJson_in_range E GridlyDataTable Struct) in H1, H2 |- * by (auto; lia).
  unfold size_t_add in *. rewrite Z.mod_small in H1, H2 |- * by lia.
  set (Num := Z.of_nat (List.length (RowMap GridlyDataTable))) in *.
  set (Keys := map fst (RowMap GridlyDataTable)) in *.
  replace (Z.to_nat (Z.min (StartIndex + a) Num - StartIndex))
    with (Z.to_nat a) in H1 by lia.
  set (c2 := Z.to_nat (Z.min (StartIndex + a + b) Num - (StartIndex + a))) in *.
  replace (Z.to_nat (Z.min (StartIndex + (a + b)) Num - StartIndex))
    with (Z.to_nat a + c2)%nat by lia.
  replace (Z.to_nat (StartIndex + a)) with (Z.to_nat StartIndex + Z.to_nat a)%nat
    in H2 by lia.
  rewrite WriteRows_app.
  destruct (WriteRows E GridlyDataTable Struct Keys (Z.to_nat a) _ CreateWriter)
    as [w1|]; [|discriminate].
  rewrite <- (Shift_CreateWriter w1), WriteRows_shift.
  destruct (WriteRows E GridlyDataTable Struct Keys c2 _ CreateWriter)
    as [w2|]; [|discriminate].
  injection H1 as _ <-. injection H2 as _ <-.
  cbn [option_map Shift Written app]. unfold PageRows. cbn [tl].
  rewrite !removelast_last. now rewrite <- app_assoc.
Qed.

(** ** Cells of the data-table export *)

Lemma WriteCells_columns E (It : list FProperty) :
  forall RowData PathValue bPathFound w w' PathValue' bPathFound',
    WriteCells E It RowData PathValue bPathFound w = Some (w', PathValue', bPathFound') ->
    exists cells,
      Written w' = Written w ++ cells
      /\ ValuesOf "columnId" cells
         = map (fun P => JString (GetPropertyExportName (Field P)))
             (filter ExportedAsCell It).
Proof.
  induction It as [|BaseProp It IH];
    intros RowData PathValue bPathFound w w' PathValue' bPathFound' H;
    cbn [WriteCells] in H.
  - injection H as <- _ _. exists []. now rewrite app_nil_r.
  - cbn [filter]. unfold ExportedAsCell at 1.
    destruct (EqualsIgnoreCase _ "_path"); cbn [negb andb]; [now apply IH in H|].
    destruct (ArrayDim (Field BaseProp) =? 1); [|now apply IH in H].
    destruct (WriteCellValue E BaseProp _ _) as [w1|] eqn:Hc; [|discriminate].
    apply IH in H as (cells & H1 & H2).
    apply WriteCellValue_cases in Hc as [->|[v ->]].
    + eexists. split.
      * rewrite H1. cbn [WriteObjectEnd WriteValue WriteObjectStart Written].
        rewrite <- !app_assoc. reflexivity.
      * rewrite !ValuesOf_app, H2. reflexivity.
    + eexists. split.
      * rewrite H1. cbn [WriteObjectEnd WriteValue WriteObjectStart Written].
        rewrite <- !app_assoc. reflexivity.
      * rewrite !ValuesOf_app, H2. reflexivity.
Qed.

(** X16. The cells of an exported row are those of the properties of
    static arity 1 that are not exported as [_path], one cell each, in
    declaration order. A property of any other static arity gets no cell. *)
Theorem WriteRow_columns E Struct RowName RowData w w' :
  WriteRow E Struct RowName RowData w = Some w' ->
  exists calls,
    Written w' = Written w ++ calls
    /\ ValuesOf "columnId" calls
       = map (fun P => JString (GetPropertyExportName (Field P)))
           (filter ExportedAsCell (TFieldIterator Struct)).
Proof.
  unfold WriteRow. intros H.
  destruct (WriteCells E _ _ _ _ _) as [[[w2 pv] bf]|] eqn:Hc; [|discriminate].
  apply WriteCells_columns in Hc as (cells & H1 & H2). injection H as <-.
  destruct bf;
    (eexists; split;
     [ cbn [WriteObjectEnd WriteValue WriteArrayEnd WriteArrayStart WriteObjectStart
            Written] in *; rewrite H1, <- !app_assoc; reflexivity
     | rewrite !ValuesOf_app, H2; cbn -[map filter]; now rewrite app_nil_r ]).
Qed.

Lemma WriteArrayElements_None E Inner (Elements : list FValue) :
  forall w,
    WriteArrayElements E Inner Elements w = None
    <-> negb (IsNil Elements)
        && match Inner with FStructProperty _ _ => false | _ => true end = true.
Proof.
  induction Elements as [|x Elements IH]; intros w; cbn [WriteArrayElements IsNil negb andb].
  - split; discriminate.
  - destruct Inner; try (split; reflexivity).
    rewrite IH. rewrite andb_false_r. split; discriminate.
Qed.

Lemma WriteSetElements_None E ElementProp (Elements : list FValue) :
  forall w,
    WriteSetElements E ElementProp Elements w = None
    <-> negb (IsNil Elements)
        && match ElementProp with FNumericProperty _ _ _ => false | _ => true end = true.
Proof.
  induction Elements as [|x Elements IH]; intros w; cbn [WriteSetElements IsNil negb andb].
  - split; discriminate.
  - destruct ElementProp; try (split; reflexivity).
    rewrite IH. rewrite andb_false_r. split; discriminate.
Qed.

(** X17. Writing the value of a cell reaches a [checkNoEntry] in two
    cases only: the build exports arrays of structs and the cell is a
    non-empty array whose elements are not structs, or the build exports
    sets and the cell is a non-empty set whose elements are not numeric.
    An empty array or set never does. *)
Theorem WriteCellValue_checkNoEntry E BaseProp Data w :
  WriteCellValue E BaseProp Data w = None
  <-> ReachesCheckNoEntry E BaseProp Data = true.
Proof.
  unfold WriteCellValue, ReachesCheckNoEntry.
  destruct BaseProp; try (split; discriminate).
  - destruct IsEnum; [|destruct IsInteger]; split; discriminate.
  - destruct (HS_GRIDLY_ALLOW_ARBITARY_STRUCT_IN_TABLE E); cbn [andb];
      [|split; discriminate].
    rewrite <- (WriteArrayElements_None E BaseProp (ArrayElements Data)
                  (WriteArrayStart None CreateWriter)).
    destruct (WriteArrayElements E BaseProp _ _) as [sub|]; [|tauto].
    destruct (Close _); split; discriminate.
  - destruct (HS_GRIDLY_ALLOW_SET_PROPERTYTYPE_IN_TABLE E); cbn [andb];
      [|split; discriminate].
    rewrite <- (WriteSetElements_None E BaseProp (Entries (SetHelper Data))
                  (WriteArrayStart None CreateWriter)).
    destruct (WriteSetElements E BaseProp _ _) as [sub|]; [|tauto].
    destruct (Close _); split; discriminate.
Qed.

(** ** The polyglot export *)

Section Polyglot_results.

Variable L : FLocalization.
Variable GameSettings : UGridlyGameSettings.

Lemma IsCell_both ColumnId StringValue :
  IsCell (FJsonValueObject
            (SetStringField (SetStringField [] "columnId" ColumnId) "value" StringValue)).
Proof.
  exists ColumnId. right. exists (FJsonValueString StringValue).
  split; [reflexivity|now left].
Qed.

Lemma AddMetadataCells_IsCell (Values : list (string * string)) :
  forall cells,
    Forall IsCell cells -> Forall IsCell (AddMetadataCells L GameSettings Values cells).
Proof.
  induction Values as [|[k v] Values IH]; intros cells H; cbn [AddMetadataCells];
    [exact H|].
  destruct (MetadataMapping GameSettings k) as [info|]; [|now apply IH].
  apply IH. apply Forall_app. split; [exact H|]. constructor; [|constructor].
  exists (Name info).
  destruct (DataType info).
  - right. exists (FJsonValueString v). split; [reflexivity|now left].
  - right. exists (FJsonValueNumber (Atoi L v)). split; [reflexivity|now right].
  - now left.
Qed.

Lemma AddTargetCells_eq Data (TargetCultures : list string) :
  forall cells,
    AddTargetCells L GameSettings Data (GetNativeCulture Data) TargetCultures cells
    = cells ++ flat_map (TargetCell L GameSettings Data) TargetCultures.
Proof.
  induction TargetCultures as [|CultureName rest IH]; intros cells;
    cbn [AddTargetCells flat_map].
  - now rewrite app_nil_r.
  - unfold TargetCell at 1.
    destruct (FString_Equals L CultureName (GetNativeCulture Data)); cbn [negb app];
      [apply IH|].
    destruct (GetLocalizedString Data CultureName) as [LocalizedString|]; [|apply IH].
    destruct (ConvertToGridly L CultureName) as [GridlyCulture|]; [|apply IH].
    rewrite IH, <- app_assoc. reflexivity.
Qed.

Lemma TargetCell_IsCell Data (TargetCultures : list string) :
  Forall IsCell (flat_map (TargetCell L GameSettings Data) TargetCultures).
Proof.
  induction TargetCultures as [|CultureName rest IH]; cbn [flat_map]; [constructor|].
  apply Forall_app. split; [|exact IH]. unfold TargetCell.
  destruct (FString_Equals L CultureName (GetNativeCulture Data)); [constructor|].
  destruct (GetLocalizedString Data CultureName); [|constructor].
  destruct (ConvertToGridly L CultureName); constructor; [|constructor].
  eexists. right. eexists. split; [reflexivity|now left].
Qed.

Ltac cells_are_cells :=
  repeat first
    [ apply Forall_nil
    | apply IsCell_both
    | apply TargetCell_IsCell
    | apply AddMetadataCells_IsCell
    | apply Forall_cons
    | apply Forall_app; split
    | match goal with
      | |- Forall IsCell (match ?x with _ => _ end) => destruct x
      | |- Forall IsCell (if ?x then _ else _) => destruct x
      end ].

Lemma PolyglotRow_IsRowOf bIncludeTargetTranslations LocTextHelperPtr Data :
  IsRowOf L GameSettings Data
    (PolyglotRow L GameSettings bIncludeTargetTranslations LocTextHelperPtr Data).
Proof.
  unfold PolyglotRow, IsRowOf, RowId, NamespaceIsPath, ExportsNamespace. cbv zeta.
  destruct (bUseCombinedNamespaceId GameSettings);
    destruct (bAlsoExportNamespaceColumn GameSettings);
    destruct (FString_Equals L (NamespaceColumnId GameSettings) "path");
    destruct (IsEmpty (NamespaceColumnId GameSettings));
    try destruct (FString_Contains L (GetNamespace Data) "blueprints/");
    cbn [negb orb andb app];
    rewrite ?AddTargetCells_eq;
    (eexists; split; [reflexivity|]); cells_are_cells.
Qed.

(** X18. The polyglot export serializes one row object for each text
    entry, in the order of the entries, and returns what the serializer
    returns. A row object has an [id], a [path] when the namespace is
    exported as the path, and [cells], in this order; the [id] is the key,
    or the namespace and the key joined by a comma when the settings
    combine them, with an empty namespace for a blueprint namespace; every
    cell is an object with a [columnId] and at most a [value], a string or
    a number. *)
Theorem ConvertToJson_PolyglotTextDatas_rows
    (PolyglotTextDatas : list FPolyglotTextData) bIncludeTargetTranslations
    LocTextHelperPtr :
  exists Rows,
    ConvertToJson_PolyglotTextDatas L GameSettings PolyglotTextDatas
      bIncludeTargetTranslations LocTextHelperPtr
    = Serialize L Rows
    /\ Forall2 (IsRowOf L GameSettings) PolyglotTextDatas Rows.
Proof.
  exists (map (PolyglotRow L GameSettings bIncludeTargetTranslations LocTextHelperPtr)
            PolyglotTextDatas).
  split.
  - unfold ConvertToJson_PolyglotTextDatas.
    destruct (Serialize L _) as [[|] OutJsonString]; reflexivity.
  - induction PolyglotTextDatas as [|Data rest IH]; cbn [map]; constructor;
      [apply PolyglotRow_IsRowOf|exact IH].
Qed.

Lemma CellsOf_row (RowJsonObject : FJsonObject) (cells : list FJsonValue) :
  TryGetField RowJsonObject "cells" = None ->
  CellsOf (FJsonValueObject (SetArrayField RowJsonObject "cells" cells)) = cells.
Proof.
  unfold CellsOf, SetArrayField.
  induction RowJsonObject as [|[k v] o IH]; cbn [SetField TryGetField]; intros H.
  - reflexivity.
  - destruct (EqualsIgnoreCase k "cells") eqn:Hk; [discriminate H|]. cbn [TryGetField].
    rewrite Hk. exact (IH H).
Qed.

(** X19. With the target translations included, the cells of a row are the
    cells written without them followed by one cell for each target
    culture, in the order of the target cultures, that is not the native
    culture of the entry, has a localized string and has a Gridly culture;
    the cell has the target prefix and the Gridly culture for its
    [columnId] and the localized string for its [value]. *)
Theorem PolyglotRow_target_cells LocTextHelperPtr Data :
  CellsOf (PolyglotRow L GameSettings true LocTextHelperPtr Data)
  = CellsOf (PolyglotRow L GameSettings false LocTextHelperPtr Data)
    ++ flat_map (TargetCell L GameSettings Data) (GetTargetCultures L).
Proof.
  unfold PolyglotRow. cbv zeta.
  destruct (bUseCombinedNamespaceId GameSettings);
    destruct (bAlsoExportNamespaceColumn GameSettings);
    destruct (FString_Equals L (NamespaceColumnId GameSettings) "path");
    destruct (IsEmpty (NamespaceColumnId GameSettings));
    try destruct (FString_Contains L (GetNamespace Data) "blueprints/");
    cbn [negb orb andb]; rewrite AddTargetCells_eq, !CellsOf_row by reflexivity;
    reflexivity.
Qed.

(** X20. Without a text helper, or when the settings export neither the
    context nor the metadata, and without the target translations, a row
    has at most two cells: the namespace, when it is exported as a column
    that is not the path and has a name, and then the native string, when
    the native culture has a Gridly culture. *)
Theorem PolyglotRow_plain_cells LocTextHelperPtr Data :
  LocTextHelperPtr = None
  \/ (bExportContext GameSettings = false /\ bExportMetadata GameSettings = false) ->
  CellsOf (PolyglotRow L GameSettings false LocTextHelperPtr Data)
  = (if NamespaceIsCell L GameSettings
     then [Cell (NamespaceColumnId GameSettings) (FJsonValueString (GetNamespace Data))]
     else [])
    ++ match ConvertToGridly L (GetNativeCulture Data) with
       | Some GridlyCulture =>
           [Cell (SourceLanguageColumnIdPrefix GameSettings +++ GridlyCulture)
              (FJsonValueString (GetNativeString Data))]
       | None => []
       end.
Proof.
  intros Hctx. unfold PolyglotRow, NamespaceIsCell, ExportsNamespace. cbv zeta.
  destruct Hctx as [-> | [HC HM]].
  - destruct (bUseCombinedNamespaceId GameSettings);
      destruct (bAlsoExportNamespaceColumn GameSettings);
      destruct (FString_Equals L (NamespaceColumnId GameSettings) "path");
      destruct (IsEmpty (NamespaceColumnId GameSettings));
      try destruct (FString_Contains L (GetNamespace Data) "blueprints/");
      destruct (ConvertToGridly L (GetNativeCulture Data));
      cbn [negb orb andb app]; rewrite !CellsOf_row by reflexivity; reflexivity.
  - rewrite HC, HM.
    destruct (match LocTextHelperPtr with
              | Some LocTextHelper =>
                  match FindSourceText LocTextHelper (GetNamespace Data) (GetKey Data) with
                  | Some ManifestEntry => FindContextByKey ManifestEntry (GetKey Data)
                  | None => None
                  end
              | None => None
              end);
      destruct (bUseCombinedNamespaceId GameSettings);
      destruct (bAlsoExportNamespaceColumn GameSettings);
      destruct (FString_Equals L (NamespaceColumnId GameSettings) "path");
      destruct (IsEmpty (NamespaceColumnId GameSettings));
      try destruct (FString_Contains L (GetNamespace Data) "blueprints/");
      destruct (ConvertToGridly L (GetNativeCulture Data));
      cbn [negb orb andb app]; rewrite !CellsOf_row by reflexivity; reflexivity.
Qed.

Lemma AddMetadataCells_eq (Values : list (string * string)) :
  forall cells,
    AddMetadataCells L GameSettings Values cells
    = cells ++ flat_map (MetadataCell L GameSettings) Values.
Proof.
  induction Values as [|[k v] Values IH]; intros cells;
    cbn [AddMetadataCells flat_map].
  - now rewrite app_nil_r.
  - unfold MetadataCell at 1. cbn [fst snd].
    destruct (MetadataMapping GameSettings k) as [info|]; [|apply IH].
    rewrite IH, <- app_assoc. now destruct (DataType info).
Qed.

(** X21. When the text helper has an item context for the entry, the
    cells of the row are the cells written without a helper followed by
    the cells of the context: the source location under the context
    column, with its line separator replaced by a colon, when the settings
    export the context; then, when they export the metadata and the
    context has a metadata object, one cell for each metadata value whose
    key has a column, in the order of the object, with a string value, a
    number value, or no value at all for a column of another type. *)
Theorem PolyglotRow_context_cells LocTextHelper ManifestEntry Context Data :
  FindSourceText LocTextHelper (GetNamespace Data) (GetKey Data) = Some ManifestEntry ->
  FindContextByKey ManifestEntry (GetKey Data) = Some Context ->
  CellsOf (PolyglotRow L GameSettings false (Some LocTextHelper) Data)
  = CellsOf (PolyglotRow L GameSettings false None Data)
    ++ ContextCells L GameSettings Context.
Proof.
  intros Hentry Hctx. unfold PolyglotRow, ContextCells. cbv zeta.
  rewrite Hentry, Hctx.
  destruct (bUseCombinedNamespaceId GameSettings);
    destruct (bAlsoExportNamespaceColumn GameSettings);
    destruct (FString_Equals L (NamespaceColumnId GameSettings) "path");
    destruct (IsEmpty (NamespaceColumnId GameSettings));
    try destruct (FString_Contains L (GetNamespace Data) "blueprints/");
    destruct (bExportContext GameSettings);
    destruct (bExportMetadata GameSettings);
    destruct (InfoMetadataObj Context) as [Values|];
    cbn [negb orb andb]; rewrite ?AddMetadataCells_eq, !CellsOf_row by reflexivity;
    rewrite ?app_nil_r, <- ?app_assoc; reflexivity.
Qed.

End Polyglot_results.


(** * The results on sample tables *)

(** The spec's pagination example: ten rows, [StartIndex = 20]. The writer
    got the array start only and the call returned false, so the result is
    not the empty array with [ok = true]; rows 5, 6 and 7 are what
    [StartIndex = 5], [MaxSize = 3] exports. *)
Lemma ConvertToJson_empty_array_counterexample :
  RowStruct Sample.TenRows = Some Sample.HpRow
  /\ Z.of_nat (List.length (RowMap Sample.TenRows)) <= 20
  /\ ConvertToJson Sample.E Sample.TenRows 20 3 = Some (false, [ArrayStart None])
  /\ ConvertToJson Sample.E Sample.TenRows 20 3 <> Some (true, [ArrayStart None; ArrayEnd]).
Proof. repeat split; try discriminate. Qed.

Lemma ConvertToJson_start_past_end_witness :
  exists out,
    ConvertToJson Sample.E Sample.TenRows 20 3 = Some (false, out) /\ ~ In ObjectStart out.
Proof.
  apply (ConvertToJson_start_past_end Sample.E Sample.TenRows Sample.HpRow 20 3).
  - reflexivity.
  - discriminate.
Defined.

Example ConvertToJson_page :
  option_map (fun res => (fst res, SampleEngine.render false (snd res)))
    (ConvertToJson Sample.E Sample.TenRows 5 3)
  = Some (true,
          SampleEngine.render false
            [ArrayStart None;
             ObjectStart; WrittenValue (Some "id") (JString "r5");
             ArrayStart (Some "cells");
             ObjectStart; WrittenValue (Some "columnId") (JString "hp");
             WrittenValue (Some "value") (JInt64 5); ObjectEnd;
             ArrayEnd; WrittenValue (Some "path") (JString ""); ObjectEnd;
             ObjectStart; WrittenValue (Some "id") (JString "r6");
             ArrayStart (Some "cells");
             ObjectStart; WrittenValue (Some "columnId") (JString "hp");
             WrittenValue (Some "value") (JInt64 6); ObjectEnd;
             ArrayEnd; WrittenValue (Some "path") (JString ""); ObjectEnd;
             ObjectStart; WrittenValue (Some "id") (JString "r7");
             ArrayStart (Some "cells");
             ObjectStart; WrittenValue (Some "columnId") (JString "hp");
             WrittenValue (Some "value") (JInt64 7); ObjectEnd;
             ArrayEnd; WrittenValue (Some "path") (JString ""); ObjectEnd;
             ArrayEnd]).
Proof. vm_compute. reflexivity. Qed.

(** The text [[]]: it is not empty, the table has a [RowStruct], the reader
    succeeds, and [ReadTable] returns false. *)
Lemma ReadTable_empty_array_counterexample :
  let I := Sample.Importer Sample.TenRows "[]" in
  ~ ((exists I', ReadTable Sample.E I = Some (false, I'))
     <-> IsEmpty (JSONData I) = true
         \/ RowStruct (DataTable I) = None
         \/ DeserializeArray Sample.E (JSONData I) = None).
Proof.
  intros I [H _].
  assert (Hf : exists I', ReadTable Sample.E I = Some (false, I'))
    by (eexists; reflexivity).
  destruct (H Hf) as [A|[A|A]]; discriminate A.
Qed.

Lemma ReadTable_false_iff_witness :
  (exists I', ReadTable Sample.E (Sample.Importer Sample.TenRows "[]") = Some (false, I'))
  /\ ~ (exists I',
          ReadTable Sample.E (Sample.Importer Sample.TenRows Sample.FiveRows)
          = Some (false, I')).
Proof.
  split.
  - apply (proj2 (ReadTable_false_iff Sample.E (Sample.Importer Sample.TenRows "[]"))).
    right. right. right. reflexivity.
  - intros H.
    apply (proj1 (ReadTable_false_iff Sample.E _)) in H.
    destruct H as [A|[A|[A|A]]]; vm_compute in A; discriminate A.
Defined.

(** The spec's row isolation example: of five elements the third is a
    string. The call returns true and rows 0, 1, 3 and 4 are imported, but
    row 2 leaves two problems, those of a row without a key. *)
Lemma ReadTable_non_object_row_witness :
  match ReadTable Sample.E (Sample.Importer Sample.TenRows Sample.FiveRows) with
  | Some (ok, I') =>
      ok = true
      /\ map fst (RowMap (DataTable I')) = ["r0"; "r1"; "r3"; "r4"]
      /\ ImportProblems I'
         = ["Row '2' missing key field 'Name'."; "Failed to read row '2'."]
  | None => False
  end.
Proof.
  set (I := Sample.Importer Sample.TenRows Sample.FiveRows).
  set (before :=
         [FJsonValueObject [("Name", FJsonValueString "r0"); ("hp", FJsonValueNumber 10)];
          FJsonValueObject [("Name", FJsonValueString "r1"); ("hp", FJsonValueNumber 11)]]).
  set (after :=
         [FJsonValueObject [("Name", FJsonValueString "r3"); ("hp", FJsonValueNumber 13)];
          FJsonValueObject [("Name", FJsonValueString "r4"); ("hp", FJsonValueNumber 14)]]).
  destruct (ReadTableRows Sample.E before 0
              (SetImporter I (EmptyTable (DataTable I)) (ImportProblems I)))
    as [I1|] eqn:HB; [|vm_compute in HB; discriminate HB].
  assert (HD : DeserializeArray Sample.E (JSONData I)
               = Some (before ++ FJsonValueString "oops" :: after))
    by (vm_compute; reflexivity).
  destruct (ReadTable_non_object_row Sample.E I Sample.HpRow before
              (FJsonValueString "oops") after I1 eq_refl eq_refl HD eq_refl eq_refl HB)
    as [_ H].
  rewrite H. vm_compute in HB. injection HB as <-.
  vm_compute. repeat split.
Defined.


(** A row of [UnitsRow] whose [units] holds a string between two structs:
    the walk has no result. *)
Lemma ReadStruct_no_result_witness :
  ReadStruct Sample.E false Sample.UnitsRow Sample.UnitsObject "r0"
    (InitializeStruct Sample.UnitsRow) []
  = None.
Proof.
  apply (ReadStruct_no_result Sample.E false "FUnitsRow" [Sample.Units; Sample.Hp]
           Sample.UnitsObject "r0" (InitializeStruct Sample.UnitsRow) []
           (SampleEngine.Named "units" 1) (Sample.Unit_ "units" 1) Sample.UnitValues).
  - now left.
  - reflexivity.
  - reflexivity.
  - apply Exists_cons_tl, Exists_cons_hd. split; [reflexivity|].
    exists "oops". split; [reflexivity|]. intros d. reflexivity.
  - reflexivity.
Defined.

(** A map of structs whose second member is a string: no result, where
    the integer-valued map of the spec's example does return false with its
    first member kept. *)
Lemma ReadStructEntry_map_no_result_witness :
  ReadStructEntry Sample.E false Sample.UnitMap
    (FJsonValueObject
       [("a", FJsonValueObject [("hp", FJsonValueNumber 1)]);
        ("b", FJsonValueString "oops")])
    "r0" "unitmap" (DefaultValue Sample.UnitMap) []
  = None
  /\ ReadStructEntry Sample.E false Sample.IntMap
       (FJsonValueObject [("a", FJsonValueNumber 1); ("b", FJsonValueString "bad-int")])
       "r0" "m" (DefaultValue Sample.IntMap) []
     = Some (false,
             VMap {| Entries := [(VString "a", VInt 1)]; HashValid := false;
                     Rehashes := 0 |},
             ["Entry 1 on property 'm' on row 'r0' is the incorrect type. Expected Integer, got String."]).
Proof.
  split; [|reflexivity].
  eapply (ReadStructEntry_map_no_result Sample.E false (SampleEngine.Named "unitmap" 1)
            (FStrProperty (SampleEngine.Named "unitmap_Key" 1)) (Sample.Unit_ "unitmap" 1)
            [("a", FJsonValueObject [("hp", FJsonValueNumber 1)])] "b"
            (FJsonValueString "oops") [] "r0" "unitmap" (DefaultValue Sample.UnitMap) []).
  - reflexivity.
  - reflexivity.
  - split; [reflexivity|]. exists "oops". split; [reflexivity|]. intros d. reflexivity.
Defined.

(** A string where a struct element is read: [ReadStructEntry] returns
    false with one problem, [ReadContainerEntry] has no result. *)
Lemma ReadContainerEntry_string_fallback_witness :
  ReadContainerEntry Sample.E false (Sample.Unit_ "units" 1) (FJsonValueString "oops")
    "r0" "units" 1 (VStruct [[VInt 0]]) []
  = None
  /\ ReadStructEntry Sample.E false (Sample.Unit_ "units" 1) (FJsonValueString "oops")
       "r0" "units" (VStruct [[VInt 0]]) []
     = Some (false, VStruct [[VInt 0]],
             ["Problem assigning string 'oops' to property 'units' on row 'r0' : Missing opening parenthesis: oops"]).
Proof.
  destruct (ReadContainerEntry_string_fallback Sample.E false (Sample.Unit_ "units" 1)
              (FJsonValueString "oops") "r0" "units" 1 (VStruct [[VInt 0]]) [])
    as (_ & H & _).
  destruct H as [Hce (s & Hs & Hse)].
  { split; [reflexivity|]. exists "oops". split; [reflexivity|]. intros d. reflexivity. }
  split; [exact Hce|]. injection Hs as <-. rewrite Hse. reflexivity.
Defined.

(** A fixed array of three structs given a string for its second entry:
    the property has no result, and the third entry is not decoded. *)
Lemma ReadProperty_static_array_no_result_witness :
  ReadProperty Sample.E false (ReadStructEntry Sample.E false)
    (ReadContainerEntry Sample.E false) Sample.Squad Sample.SquadObject "r0"
    [VStruct [[VInt 0]]; VStruct [[VInt 0]]; VStruct [[VInt 0]]] []
  = None.
Proof.
  apply (ReadProperty_static_array_no_result Sample.E false Sample.Squad
           Sample.SquadObject "r0" _ [] Sample.UnitValues 1 (FJsonValueString "oops")).
  - reflexivity.
  - reflexivity.
  - reflexivity.
  - reflexivity.
  - split; [reflexivity|]. exists "oops". split; [reflexivity|]. intros d. reflexivity.
Defined.


(** A path field spelled [_Path] is the path all the same: [hp] is the only
    cell. *)
Example WriteRow_upper_path :
  option_map Written
    (WriteRow Sample.E Sample.UpperPathRow "r0" (VStruct [[VInt 3]; [VString "a/b"]])
       CreateWriter)
  = Some [ObjectStart; WrittenValue (Some "id") (JString "r0"); ArrayStart (Some "cells");
          ObjectStart; WrittenValue (Some "columnId") (JString "hp");
          WrittenValue (Some "value") (JInt64 3); ObjectEnd;
          ArrayEnd; WrittenValue (Some "path") (JString "a/b"); ObjectEnd].
Proof. vm_compute. reflexivity. Qed.

(** An array and a set of structs given a string for their second entry:
    no result. *)
Lemma ReadStructEntry_array_set_no_result_witness :
  ReadStructEntry Sample.E false Sample.Units (FJsonValueArray Sample.UnitValues)
    "r0" "units" (VArray []) []
  = None
  /\ ReadStructEntry Sample.E false Sample.UnitSet (FJsonValueArray Sample.UnitValues)
       "r0" "unitset" (VSet EmptyContainer) []
     = None.
Proof.
  assert (H : forall P,
             P = Sample.Unit_ "units" 1 \/ P = Sample.Unit_ "unitset" 1 ->
             Exists (StringNotAssigned Sample.E P) Sample.UnitValues).
  { intros P HP. apply Exists_cons_tl, Exists_cons_hd.
    destruct HP as [-> | ->]; (split; [reflexivity|]); exists "oops";
      (split; [reflexivity|]); intros d; reflexivity. }
  split.
  - exact (proj1 (ReadStructEntry_array_set_no_result Sample.E false
                    (SampleEngine.Named "units" 1) (Sample.Unit_ "units" 1)
                    Sample.UnitValues "r0" "units" (VArray []) []
                    (H _ (or_introl eq_refl)))).
  - exact (proj2 (ReadStructEntry_array_set_no_result Sample.E false
                    (SampleEngine.Named "unitset" 1) (Sample.Unit_ "unitset" 1)
                    Sample.UnitValues "r0" "unitset" (VSet EmptyContainer) []
                    (H _ (or_intror eq_refl)))).
Defined.

(** * The further results on sample data *)

(** The five elements of the row isolation example, read into a table
    that held ten rows: the four rows of the document, each with a record
    of its own. *)
Lemma ReadTable_rows_allocated_witness :
  match ReadTable Sample.E (Sample.Importer Sample.TenRows Sample.FiveRows) with
  | Some (_, I') => RowsAllocated (DataTable I')
  | None => False
  end.
Proof.
  destruct (ReadTable Sample.E (Sample.Importer Sample.TenRows Sample.FiveRows))
    as [[ok I']|] eqn:H; [|vm_compute in H; discriminate H].
  assert (Hok : ok = true) by (vm_compute in H; now injection H as <- _).
  subst ok.
  exact (ReadTable_rows_allocated Sample.E
           (Sample.Importer Sample.TenRows Sample.FiveRows) I' H).
Defined.

Lemma ReadTable_no_unreachable_record_witness :
  match ReadTable Sample.E (Sample.Importer Sample.TenRows Sample.FiveRows) with
  | Some (_, I') =>
      List.length (Memory (DataTable I')) = List.length (RowMap (DataTable I'))
  | None => False
  end.
Proof.
  destruct (ReadTable Sample.E (Sample.Importer Sample.TenRows Sample.FiveRows))
    as [[ok I']|] eqn:H; [|vm_compute in H; discriminate H].
  assert (Hok : ok = true) by (vm_compute in H; now injection H as <- _).
  subst ok.
  exact (ReadTable_no_unreachable_record Sample.E
           (Sample.Importer Sample.TenRows Sample.FiveRows) I' eq_refl H).
Defined.

(** Two elements named [r0]: the record of the first one stays. *)
Lemma ReadTableRows_keeps_rows_witness :
  match
    ReadTableRows Sample.E [SampleRows.First] 0
      (Sample.Importer (Sample.Table Sample.HpRow []) "")
  with
  | Some I1 =>
      match ReadTableRows Sample.E [SampleRows.Second] 1 I1 with
      | Some I2 => FindRow (DataTable I2) "r0" = Some (VStruct [[VInt 10]])
      | None => False
      end
  | None => False
  end.
Proof.
  destruct (ReadTableRows Sample.E [SampleRows.First] 0 _) as [I1|] eqn:H1;
    [|vm_compute in H1; discriminate H1].
  vm_compute in H1. injection H1 as <-.
  match goal with
  | |- match ReadTableRows ?e ?rows ?idx ?I with _ => _ end =>
      destruct (ReadTableRows e rows idx I) as [I2|] eqn:H2;
        [|vm_compute in H2; discriminate H2];
        apply (ReadTableRows_keeps_rows e rows idx I I2 "r0" (VStruct [[VInt 10]])
                 eq_refl eq_refl H2)
  end.
Defined.

(** A row with the member [bogus], its key spelled [NAME] and its integer
    [HP]: one problem, for [bogus]. *)
Lemma ReadRow_extra_fields_witness :
  match
    ReadRow Sample.E SampleRows.Bogus 0
      (Sample.Importer (Sample.Table Sample.HpRow []) "")
  with
  | Some (ok, I') =>
      ok = true
      /\ ImportProblems I'
         = ["Property 'bogus' on row 'r0' cannot be found in struct 'FHpRow'."]
  | None => False
  end.
Proof.
  pose proof (ReadRow_extra_fields Sample.E SampleRows.Bogus 0
                (Sample.Importer (Sample.Table Sample.HpRow []) "") Sample.HpRow
                eq_refl eq_refl (or_intror eq_refl)) as H.
  cbv zeta in H.
  destruct (ReadStruct Sample.E _ Sample.HpRow SampleRows.Bogus _ _ _)
    as [[[ok d] n]|] eqn:HW; [|vm_compute in HW; discriminate HW].
  destruct H as (I' & -> & ->).
  vm_compute in HW. injection HW as <- _ <-.
  split; reflexivity.
Defined.

(** An object with the key only, read into a row of [StatsRow]: the record
    keeps its defaults and every property is reported. *)
Lemma ReadStruct_missing_fields_witness :
  ReadStruct Sample.E false Sample.StatsRow [("Name", FJsonValueString "r0")] "r0"
    (InitializeStruct Sample.StatsRow) []
  = Some (true, InitializeStruct Sample.StatsRow,
          ["Row 'r0' is missing an entry for 'hp'.";
           "Row 'r0' is missing an entry for 'stats'.";
           "Row 'r0' is missing an entry for 'tag'."]).
Proof.
  change Sample.StatsRow
    with (MkScriptStruct "FStatsRow" [Sample.Hp; Sample.Stats; Sample.Tag]).
  change (InitializeStruct
            (MkScriptStruct "FStatsRow" [Sample.Hp; Sample.Stats; Sample.Tag]))
    with (VStruct [[VInt 0]; [VInt 0; VInt 0; VInt 0]; [VString ""]]).
  rewrite (ReadStruct_missing_fields Sample.E false "FStatsRow"
             [Sample.Hp; Sample.Stats; Sample.Tag] [("Name", FJsonValueString "r0")]
             "r0" [[VInt 0]; [VInt 0; VInt 0; VInt 0]; [VString ""]] []).
  - vm_compute. reflexivity.
  - repeat constructor.
  - reflexivity.
Defined.

(** The row whose [stats] member is not an array: [ReadRow] returns false
    and has added a problem. *)
Lemma ReadRow_failure_logged_witness :
  match
    ReadRow Sample.E Sample.BadStats 0
      (Sample.Importer (Sample.Table Sample.StatsRow []) "")
  with
  | Some (ok, I') => ok = false /\ (0 < List.length (ImportProblems I'))%nat
  | None => False
  end.
Proof.
  destruct (ReadRow Sample.E Sample.BadStats 0 _) as [[ok I']|] eqn:H;
    [|vm_compute in H; discriminate H].
  assert (Hok : ok = false) by (vm_compute in H; now injection H as <- _).
  subst ok. split; [reflexivity|].
  exact (ReadRow_failure_logged Sample.E Sample.BadStats 0 _ I' H).
Defined.

(** A struct given as text in a string: the struct is read from the text,
    and the problem of the first attempt stays. *)
Lemma ReadSingleSlot_reparse_witness :
  ReadSingleSlot (SampleEngine.Engine true false)
    (ReadStructEntry (SampleEngine.Engine true false) false) SampleRows.Inner
    (FJsonValueString SampleRows.InnerText) "r0" "inner" (VStruct [[VInt 0]]) []
  = Some (VStruct [[VInt 5]],
          ["Problem assigning string '{" +++ SampleEngine.quoted "hp"
           +++ ":5}' to property 'inner' on row 'r0' : Missing opening parenthesis: {"
           +++ SampleEngine.quoted "hp" +++ ":5}"]).
Proof.
  destruct (ReadSingleSlot_reparse (SampleEngine.Engine true false) false SampleRows.Inner
              (FJsonValueString SampleRows.InnerText) SampleRows.InnerText
              (FJsonValueObject [("hp", FJsonValueNumber 5)]) "r0" "inner"
              (VStruct [[VInt 0]]) [] (VStruct [[VInt 0]])
              ["Problem assigning string '{" +++ SampleEngine.quoted "hp"
               +++ ":5}' to property 'inner' on row 'r0' : Missing opening parenthesis: {"
               +++ SampleEngine.quoted "hp" +++ ":5}"]
              eq_refl eq_refl eq_refl eq_refl eq_refl)
    as [H _].
  rewrite H. vm_compute. reflexivity.
Defined.

(** Ten rows, [StartIndex = 5], [MaxSize = 3]: rows 5, 6 and 7. *)
Lemma ConvertToJson_page_rows_witness :
  exists out,
    ConvertToJson Sample.E Sample.TenRows 5 3 = Some (true, out)
    /\ ValuesOf "id" out = [JString "r5"; JString "r6"; JString "r7"].
Proof.
  destruct (ConvertToJson Sample.E Sample.TenRows 5 3) as [[ok out]|] eqn:H;
    [|discriminate H].
  destruct (ConvertToJson_page_rows Sample.E Sample.TenRows Sample.HpRow 5 3 ok out
              eq_refl)
    as [-> Hids]; [vm_compute; split; [discriminate|reflexivity] | lia | lia | exact H | ].
  exists out. split; [reflexivity|]. rewrite Hids. reflexivity.
Defined.

(** Ten rows, [StartIndex = 1] and the largest [MaxSize]: the sum wraps to
    0 and the page is empty. *)
Lemma ConvertToJson_size_wraps_witness :
  ConvertToJson Sample.E Sample.TenRows 1 (2 ^ 64 - 1)
  = Some (true, [ArrayStart None; ArrayEnd]).
Proof.
  apply (ConvertToJson_size_wraps Sample.E Sample.TenRows Sample.HpRow 1 (2 ^ 64 - 1) eq_refl);
    [vm_compute; split; [discriminate|reflexivity] | lia | lia | lia].
Defined.

(** Ten rows: the page of seven rows at 2 is the page of three rows at 2
    followed by the page of four rows at 5. *)
Lemma ConvertToJson_pages_compose_witness :
  exists out1 out2,
    ConvertToJson Sample.E Sample.TenRows 2 3 = Some (true, out1)
    /\ ConvertToJson Sample.E Sample.TenRows 5 4 = Some (true, out2)
    /\ ConvertToJson Sample.E Sample.TenRows 2 7
       = Some (true, [ArrayStart None] ++ PageRows out1 ++ PageRows out2 ++ [ArrayEnd]).
Proof.
  destruct (ConvertToJson Sample.E Sample.TenRows 2 3) as [[ok1 out1]|] eqn:H1;
    [|discriminate H1].
  destruct (ConvertToJson Sample.E Sample.TenRows 5 4) as [[ok2 out2]|] eqn:H2;
    [|discriminate H2].
  pose proof (ConvertToJson_pages_compose Sample.E Sample.TenRows Sample.HpRow 2 3 4
                ok1 out1 ok2 out2 eq_refl) as H.
  assert (Hok1 : ok1 = true) by (vm_compute in H1; now injection H1 as <- _).
  assert (Hok2 : ok2 = true) by (vm_compute in H2; now injection H2 as <- _).
  subst ok1 ok2. exists out1, out2. repeat split.
  apply H; [lia | lia | lia | vm_compute; reflexivity | lia | exact H1 | exact H2].
Defined.

(** The row type with a path spelled [_Path]: a cell for [hp] only. *)
Lemma WriteRow_columns_witness :
  exists w' calls,
    WriteRow Sample.E Sample.UpperPathRow "r0" (VStruct [[VInt 3]; [VString "a/b"]])
      CreateWriter = Some w'
    /\ Written w' = calls
    /\ ValuesOf "columnId" calls = [JString "hp"].
Proof.
  destruct (WriteRow Sample.E Sample.UpperPathRow "r0"
              (VStruct [[VInt 3]; [VString "a/b"]]) CreateWriter) as [w'|] eqn:Hw;
    [|discriminate Hw].
  destruct (WriteRow_columns Sample.E Sample.UpperPathRow "r0" _ CreateWriter w' Hw)
    as (calls & H1 & H2).
  exists w', calls. split; [reflexivity|]. split; [exact H1|]. rewrite H2. reflexivity.
Defined.

(** An entry exported without a text helper and without translations: the
    namespace cell and the native string. *)
Lemma PolyglotRow_plain_cells_witness :
  CellsOf (PolyglotRow SampleLocalization.Cultures SampleLocalization.Settings false None
             SampleLocalization.Greeting)
  = [Cell "ns" (FJsonValueString "Menu"); Cell "src_enUS" (FJsonValueString "Hello")].
Proof.
  rewrite (PolyglotRow_plain_cells SampleLocalization.Cultures SampleLocalization.Settings
             None SampleLocalization.Greeting (or_introl eq_refl)).
  reflexivity.
Defined.

(** The entry with its item context: the source location and the two
    metadata values that have a column follow the plain cells. *)
Lemma PolyglotRow_context_cells_witness :
  CellsOf (PolyglotRow SampleLocalization.Cultures SampleLocalization.SettingsWithMetadata
             false (Some SampleLocalization.Helper) SampleLocalization.Greeting)
  = [Cell "ns" (FJsonValueString "Menu"); Cell "src_enUS" (FJsonValueString "Hello");
     Cell "ctx" (FJsonValueString "Menu.cpp:12");
     Cell "max_len" (FJsonValueNumber 20);
     FJsonValueObject [("columnId", FJsonValueString "tag")]].
Proof.
  rewrite (PolyglotRow_context_cells SampleLocalization.Cultures
             SampleLocalization.SettingsWithMetadata SampleLocalization.Helper
             SampleLocalization.GreetingEntry SampleLocalization.GreetingContext
             SampleLocalization.Greeting eq_refl eq_refl).
  vm_compute. reflexivity.
Defined.

(** The same entry with its translations: French gets a cell; English is
    the native culture and German has no Gridly culture. *)
Example ConvertToJson_PolyglotTextDatas_greeting :
  ConvertToJson_PolyglotTextDatas SampleLocalization.Cultures SampleLocalization.Settings
    [SampleLocalization.Greeting] true None
  = (true,
     SampleLocalization.render_json
       (FJsonValueArray
          [FJsonValueObject
             [("id", FJsonValueString "Menu,Greeting");
              ("cells",
               FJsonValueArray
                 [Cell "ns" (FJsonValueString "Menu");
                  Cell "src_enUS" (FJsonValueString "Hello");
                  Cell "tg_frFR" (FJsonValueString "Bonjour")])]])).
Proof. vm_compute. reflexivity. Qed.

(** A string given to an integer property: false, and one problem. *)
Lemma Scalar_true_iff_no_problem_witness :
  exists d' pr',
    ReadStructEntry Sample.E false Sample.Hp (FJsonValueString "x") "r0" "hp" (VInt 0) []
    = Some (false, d', pr')
    /\ pr' <> [].
Proof.
  destruct (Scalar_true_iff_no_problem Sample.E false Sample.Hp (FJsonValueString "x")
              "r0" "hp" 0 (VInt 0) [] eq_refl) as [(ok & d' & pr' & H & Hiff) _].
  assert (Hok : ok = false) by (vm_compute in H; now injection H as <- _ _).
  subst ok. exists d', pr'. split; [exact H|].
  intros Hpr. discriminate (proj2 Hiff Hpr).
Defined.

(** An import of the empty text fails and the ten rows stay; after the
    import of the five elements every row is named by one of them. *)
Lemma ReadTable_rows_from_document_witness :
  match ReadTable Sample.E (Sample.Importer Sample.TenRows "") with
  | Some (ok, I') => ok = false /\ DataTable I' = Sample.TenRows
  | None => False
  end
  /\ match ReadTable Sample.E (Sample.Importer Sample.TenRows Sample.FiveRows) with
     | Some (ok, I') =>
         ok = true
         /\ forall RowName,
              In RowName (map fst (RowMap (DataTable I'))) ->
              exists rows v obj,
                DeserializeArray Sample.E Sample.FiveRows = Some rows
                /\ In v rows /\ AsObject v = Some obj
                /\ RowName = RowNameOf Sample.E Sample.TenRows obj
     | None => False
     end.
Proof.
  split.
  - destruct (ReadTable Sample.E (Sample.Importer Sample.TenRows "")) as [[ok I']|] eqn:H;
      [|discriminate H].
    assert (Hok : ok = false) by (vm_compute in H; now injection H as <- _).
    subst ok. split; [reflexivity|].
    exact (proj1 (ReadTable_rows_from_document Sample.E
                    (Sample.Importer Sample.TenRows "")) I' H).
  - destruct (ReadTable Sample.E (Sample.Importer Sample.TenRows Sample.FiveRows))
      as [[ok I']|] eqn:H; [|vm_compute in H; discriminate H].
    assert (Hok : ok = true) by (vm_compute in H; now injection H as <- _).
    subst ok. split; [reflexivity|].
    exact (proj2 (ReadTable_rows_from_document Sample.E
                    (Sample.Importer Sample.TenRows Sample.FiveRows)) I' H).
Defined.

(** The struct walk that stops at [stats] has added a problem. *)
Lemma Failure_is_logged_witness :
  match
    ReadStruct Sample.E false Sample.StatsRow Sample.BadStats "r0"
      (InitializeStruct Sample.StatsRow) []
  with
  | Some (ok, _, pr') => ok = false /\ (0 < List.length pr')%nat
  | None => False
  end.
Proof.
  destruct (ReadStruct Sample.E false Sample.StatsRow Sample.BadStats "r0" _ [])
    as [[[ok d'] pr']|] eqn:H; [|vm_compute in H; discriminate H].
  assert (Hok : ok = false) by (vm_compute in H; now injection H as <- _ _).
  subst ok. split; [reflexivity|].
  exact (proj1 (Failure_is_logged Sample.E false Sample.Hp FJsonValueNull "r0" "stats" 0
                  (InitializeStruct Sample.StatsRow) [] Sample.StatsRow Sample.BadStats
                  d' pr') H).
Defined.

(** An array and a set of integers read from [[4, "x", 6]]: three
    elements each, the second left by the entry that failed. *)
Lemma ReadStructEntry_array_set_elements_witness :
  NoStringFallback Sample.Hp = true
  /\ exists results,
       Forall2 (EntryDecoded Sample.E false Sample.Hp "r0" "scores")
         (Indexed Sample.ScoreValues) results
       /\ ReadStructEntry Sample.E false Sample.Scores
            (FJsonValueArray Sample.ScoreValues) "r0" "scores" (VArray [VInt 9]) []
          = Some (true, VArray (map (fun res => snd (fst res)) results),
                  [] ++ List.concat (map snd results))
       /\ ReadStructEntry Sample.E false Sample.ScoreSet
            (FJsonValueArray Sample.ScoreValues) "r0" "scores" (VArray [VInt 9]) []
          = Some (true,
                  VSet {| Entries := map (fun res => snd (fst res)) results;
                          HashValid := true;
                          Rehashes := S (Rehashes (SetHelper (VArray [VInt 9]))) |},
                  [] ++ List.concat (map snd results)).
Proof.
  split; [reflexivity|].
  apply (ReadStructEntry_array_set_elements Sample.E false (SampleEngine.Named "scores" 1)
           Sample.Hp Sample.ScoreValues "r0" "scores" (VArray [VInt 9]) []).
  reflexivity.
Defined.


(** A fixed array of three integers given two values, the second of which
    is not a number: the mismatch is logged, and the three slots are
    accounted for. *)
Lemma Static_array_slots_decoded_witness :
  (NoStringFallback Sample.Stats = true
   /\ 1 < ArrayDim (Field Sample.Stats)
   /\ FindImportValue (GetPropertyImportNames (Field Sample.Stats)) Sample.ShortStatsObject
      = Some (FJsonValueArray Sample.ShortStats)
   /\ List.length [VInt 7; VInt 8; VInt 9] = Z.to_nat (ArrayDim (Field Sample.Stats)))
  /\ exists slots' n,
       ReadProperty Sample.E false (ReadStructEntry Sample.E false)
         (ReadContainerEntry Sample.E false) Sample.Stats Sample.ShortStatsObject "r0"
         [VInt 7; VInt 8; VInt 9] []
       = Some (NextProperty slots',
               "Property 'stats' on row 'r0' is a static sized array with 3 elements, but we have 2 values to import"
               :: n)
       /\ List.length slots' = 3%nat
       /\ forall j,
            (j < 3)%nat ->
            match nth_error Sample.ShortStats j with
            | Some v =>
                exists ok nj,
                  ReadContainerEntry Sample.E false Sample.Stats v "r0" "stats" (Z.of_nat j)
                    (nth j [VInt 7; VInt 8; VInt 9] (DefaultValue Sample.Stats)) []
                  = Some (ok, nth j slots' (DefaultValue Sample.Stats), nj)
            | None =>
                nth j slots' (DefaultValue Sample.Stats)
                = nth j [VInt 7; VInt 8; VInt 9] (DefaultValue Sample.Stats)
            end.
Proof.
  split; [repeat split; reflexivity|].
  exact (Static_array_slots_decoded Sample.E false Sample.Stats Sample.ShortStatsObject "r0"
           [VInt 7; VInt 8; VInt 9] [] Sample.ShortStats eq_refl eq_refl eq_refl eq_refl).
Defined.

(** [StatsRow] on a row whose [stats] member is a string: the walk
    returns, and returns false. *)
Lemma ReadStruct_returns_witness :
  ReturnsStruct Sample.StatsRow = true
  /\ exists ok d' pr',
       ReadStruct Sample.E false Sample.StatsRow Sample.BadStats "r0"
         (InitializeStruct Sample.StatsRow) []
       = Some (ok, d', pr')
       /\ (ok = false
           <-> Exists (fun BaseProp => StopsReadStruct Sample.BadStats BaseProp = true)
                 (TFieldIterator Sample.StatsRow))
       /\ (forall BaseProp,
             FindImportValue (GetPropertyImportNames (Field BaseProp)) Sample.BadStats = None ->
             StopsReadStruct Sample.BadStats BaseProp = false).
Proof.
  split; [reflexivity|].
  apply (ReadStruct_returns Sample.E false "FStatsRow"
           [Sample.Hp; Sample.Stats; Sample.Tag] Sample.BadStats "r0"
           (InitializeStruct Sample.StatsRow) []).
  reflexivity.
Defined.
